(** * Gestor de casos legales: modelo y verificación

    Shallow embedding of the deadline / alert lifecycle of the case
    manager (Django models, signals, Celery tasks, one view and one form
    validator), followed by the properties stated about it.

    Conventions.
    - A [date] is a day number and a [datetime] a number of microseconds,
      both in [Z]; [(d1 - d2).days] on dates is plain subtraction.
    - The database is a record of tables, each a list of rows in insertion
      order, together with the primary-key sequences.
    - Code that touches the database runs in the monad [M]: a state monad
      over [World] with exceptions. A raised exception keeps the writes made
      before it, as Python does outside a transaction.
    - A Python [str] is held as its UTF-8 encoding in a [string]: [len]
      and slices count characters, not bytes. [str.strip] and [str.upper]
      follow the Unicode tables of the interpreter, which are not part of
      the repository: the code that calls them takes them as [TextoPy]. *)

From Stdlib Require Import ZArith List String Ascii Bool Lia DecimalString.
From Stdlib Require Import Permutation.
Import ListNotations.
Local Open Scope Z_scope.

(* ===================================================================== *)
(** ** Time *)

Module Tiempo.

Definition date := Z.
Definition datetime := Z.

Definition usec_per_second : Z := 1000000.
Definition usec_per_day : Z := 86400 * usec_per_second.

(** [timedelta(days=d, hours=h, minutes=m, seconds=s)] as a duration. *)
Definition timedelta (d h m s : Z) : Z :=
  d * usec_per_day + (h * 3600 + m * 60 + s) * usec_per_second.

(** [dt.date()] *)
Definition datetime_date (t : datetime) : date := t / usec_per_day.

(** What a function reads from the system: [timezone.now()] and
    [date.today()]. The reads inside one call of a view, a task or [save]
    are taken to return the same instant, so each call gets one [Clock].
    [date.today()] is the date of the server's local zone, so it is not
    derived from [timezone.now()]. *)
Record Clock := { timezone_now : datetime; date_today : date }.

End Tiempo.
Import Tiempo.

(* ===================================================================== *)
(** ** Models (models.py) *)

Module User.
Record t := mk { pk : Z; username : string; email : string; is_staff : bool }.
End User.

Inductive TipoCaso := AMPARO | PROTECCION | CDE.

Inductive EstadoCaso := EN_TRAMITACION | CERRADO | SUSPENDIDO | EN_APELACION.

Inductive TipoAlerta := VENCIMIENTO | AUDIENCIA | SEGUIMIENTO | NOTIFICACION.

Definition EstadoCaso_eqb (a b : EstadoCaso) : bool :=
  match a, b with
  | EN_TRAMITACION, EN_TRAMITACION | CERRADO, CERRADO
  | SUSPENDIDO, SUSPENDIDO | EN_APELACION, EN_APELACION => true
  | _, _ => false
  end.

Definition TipoAlerta_eqb (a b : TipoAlerta) : bool :=
  match a, b with
  | VENCIMIENTO, VENCIMIENTO | AUDIENCIA, AUDIENCIA
  | SEGUIMIENTO, SEGUIMIENTO | NOTIFICACION, NOTIFICACION => true
  | _, _ => false
  end.

(** [TIPO_CASO_CHOICES] / [get_tipo_display] *)
Definition get_tipo_caso_display (t : TipoCaso) : string :=
  match t with
  | AMPARO => "Recurso de Amparo"
  | PROTECCION => "Recurso de Protección"
  | CDE => "CDE (Contencioso Administrativo)"
  end.

(** [TIPO_ALERTA_CHOICES] / [get_tipo_display] *)
Definition get_tipo_alerta_display (t : TipoAlerta) : string :=
  match t with
  | VENCIMIENTO => "Vencimiento de Plazo"
  | AUDIENCIA => "Audiencia Programada"
  | SEGUIMIENTO => "Seguimiento General"
  | NOTIFICACION => "Notificación Recibida"
  end.

Module Caso.
(** [pk] is [None] on an instance that was never saved. The model
    declares [fecha_vencimiento] without [null=True]; an instance can
    still hold [None] there, which [save] tests for. *)
Record t := mk {
  pk : option Z;
  tipo : TipoCaso;
  rol : string;
  recurrente : string;
  fecha_presentacion : date;
  fecha_vencimiento : option date;
  estado : EstadoCaso;
  materia : string;
  usuario_responsable : Z;
  fecha_creacion : datetime;
  fecha_actualizacion : datetime;
  urgente : bool
}.

Definition set_urgente (b : bool) (c : t) : t :=
  mk (pk c) (tipo c) (rol c) (recurrente c) (fecha_presentacion c)
     (fecha_vencimiento c) (estado c) (materia c) (usuario_responsable c)
     (fecha_creacion c) (fecha_actualizacion c) b.

Definition set_pk (p : Z) (c : t) : t :=
  mk (Some p) (tipo c) (rol c) (recurrente c) (fecha_presentacion c)
     (fecha_vencimiento c) (estado c) (materia c) (usuario_responsable c)
     (fecha_creacion c) (fecha_actualizacion c) (urgente c).

(** [auto_now_add] and [auto_now] *)
Definition set_fechas (creacion actualizacion : datetime) (c : t) : t :=
  mk (pk c) (tipo c) (rol c) (recurrente c) (fecha_presentacion c)
     (fecha_vencimiento c) (estado c) (materia c) (usuario_responsable c)
     creacion actualizacion (urgente c).

(** The [dias_hasta_vencimiento] property. *)
Definition dias_hasta_vencimiento (clk : Clock) (c : t) : option Z :=
  match fecha_vencimiento c with
  | Some fv => Some (fv - date_today clk)
  | None => None
  end.
End Caso.

(** The f-strings that fill [Alerta.mensaje], kept as the template used and
    the values interpolated into it. *)
Inductive Mensaje :=
| MsgVenceTarea (rol : string) (dias : Z) (vence : date) (recurrente : string)
| MsgVenceSignal (rol : string) (dias : Z) (vence : date)
| MsgTexto (texto : string).

Module Alerta.
Record t := mk {
  pk : Z;
  caso : Z;
  tipo : TipoAlerta;
  mensaje : Mensaje;
  fecha_alerta : datetime;
  enviada : bool;
  fecha_envio : option datetime;
  leida : bool;
  enviar_email : bool;
  email_destinatario : option string;
  fecha_creacion : datetime;
  usuario_creador : Z
}.

(** The assignments of [marcar_como_enviada] on the instance. *)
Definition set_enviada (b : bool) (envio : option datetime) (a : t) : t :=
  mk (pk a) (caso a) (tipo a) (mensaje a) (fecha_alerta a) b envio
     (leida a) (enviar_email a) (email_destinatario a) (fecha_creacion a)
     (usuario_creador a).

Definition set_leida (b : bool) (a : t) : t :=
  mk (pk a) (caso a) (tipo a) (mensaje a) (fecha_alerta a) (enviada a)
     (fecha_envio a) b (enviar_email a) (email_destinatario a)
     (fecha_creacion a) (usuario_creador a).
End Alerta.

Module MovimientoCaso.
Record t := mk {
  pk : Z;
  caso : Z;
  fecha_movimiento : datetime;
  descripcion : string;
  usuario : Z;
  importante : bool
}.
End MovimientoCaso.

(* ===================================================================== *)
(** ** The world: database tables and the outgoing mail *)

(** One call of [send_mail]. The two bodies are the templates applied to
    the context, kept unrendered. *)
Record Email := {
  subject : string;
  plantillas : list string;
  ctx_alerta : Z;
  ctx_caso : option Z;
  ctx_dias_vencimiento : option Z;
  recipient_list : list string
}.

Record World := {
  users : list User.t;
  casos : list Caso.t;
  alertas : list Alerta.t;
  movimientos : list MovimientoCaso.t;
  next_caso_pk : Z;
  next_alerta_pk : Z;
  next_movimiento_pk : Z;
  (** every message handed to [send_mail], delivered or not, oldest first *)
  outbox : list Email
}.

Definition with_casos (cs : list Caso.t) (n : Z) (w : World) : World :=
  {| users := users w; casos := cs; alertas := alertas w;
     movimientos := movimientos w; next_caso_pk := n;
     next_alerta_pk := next_alerta_pk w;
     next_movimiento_pk := next_movimiento_pk w; outbox := outbox w |}.

Definition with_alertas (al : list Alerta.t) (n : Z) (w : World) : World :=
  {| users := users w; casos := casos w; alertas := al;
     movimientos := movimientos w; next_caso_pk := next_caso_pk w;
     next_alerta_pk := n;
     next_movimiento_pk := next_movimiento_pk w; outbox := outbox w |}.

Definition with_movimientos (ms : list MovimientoCaso.t) (n : Z) (w : World)
  : World :=
  {| users := users w; casos := casos w; alertas := alertas w;
     movimientos := ms; next_caso_pk := next_caso_pk w;
     next_alerta_pk := next_alerta_pk w;
     next_movimiento_pk := n; outbox := outbox w |}.

Definition with_outbox (ob : list Email) (w : World) : World :=
  {| users := users w; casos := casos w; alertas := alertas w;
     movimientos := movimientos w; next_caso_pk := next_caso_pk w;
     next_alerta_pk := next_alerta_pk w;
     next_movimiento_pk := next_movimiento_pk w; outbox := ob |}.

(* ===================================================================== *)
(** ** Exceptions and the monad *)

Inductive Excepcion :=
| Alerta_DoesNotExist
| Caso_DoesNotExist
| User_DoesNotExist
| MultipleObjectsReturned
| IntegrityError
| ValueError (msg : string)
| AttributeError (msg : string)
| DatabaseError (msg : string)
| Retry (countdown : Z) (exc : Excepcion)
| PermissionDenied (msg : string)
| Http404 (msg : string)
| ValidationError (msg : string)
| SMTPException (msg : string)
| OverflowError (msg : string).

(** [str(exc)]; the texts are Django's and do not matter below. *)
Definition str_exc (e : Excepcion) : string :=
  match e with
  | Alerta_DoesNotExist => "Alerta matching query does not exist."
  | Caso_DoesNotExist => "Caso matching query does not exist."
  | User_DoesNotExist => "User matching query does not exist."
  | MultipleObjectsReturned => "get() returned more than one object"
  | IntegrityError => "constraint failed"
  | ValueError msg => msg
  | AttributeError msg => msg
  | DatabaseError msg => msg
  | Retry _ _ => "Retry in 300s"
  | PermissionDenied msg => msg
  | Http404 msg => msg
  | ValidationError msg => msg
  | SMTPException msg => msg
  | OverflowError msg => msg
  end.

Inductive Resultado (A : Type) :=
| Ok (a : A)
| Raise (e : Excepcion).
Arguments Ok {A} a.
Arguments Raise {A} e.

Definition M (A : Type) : Type := World -> Resultado A * World.

Definition ret {A} (a : A) : M A := fun w => (Ok a, w).

Definition raise {A} (e : Excepcion) : M A := fun w => (Raise e, w).

Definition bind {A B} (m : M A) (k : A -> M B) : M B :=
  fun w =>
    match m w with
    | (Ok a, w') => k a w'
    | (Raise e, w') => (Raise e, w')
    end.

(** [try: m  except Exception as e: h e] *)
Definition try_except {A} (m : M A) (h : Excepcion -> M A) : M A :=
  fun w =>
    match m w with
    | (Ok a, w') => (Ok a, w')
    | (Raise e, w') => h e w'
    end.

Definition get_world : M World := fun w => (Ok w, w).

Definition put_world (w' : World) : M unit := fun _ => (Ok tt, w').

Notation "x <- m ;; k" := (bind m (fun x => k))
  (at level 61, m at next level, right associativity).
Notation "m ;;; k" := (bind m (fun _ => k))
  (at level 61, right associativity).

(* ===================================================================== *)
(** ** Text *)

(** In UTF-8 the bytes [10xxxxxx] continue the character begun before
    them; every other byte begins a character. *)
Definition es_continuacion (c : ascii) : bool :=
  let n := nat_of_ascii c in ((128 <=? n) && (n <? 192))%nat.

(** [len(s)]: the number of characters. *)
Fixpoint len (s : string) : nat :=
  match s with
  | EmptyString => O
  | String c s' => if es_continuacion c then len s' else S (len s')
  end.

(** [s[:n]]: the first [n] characters, each with all its bytes. *)
Fixpoint hasta (n : nat) (s : string) : string :=
  match s with
  | EmptyString => EmptyString
  | String c s' =>
    if es_continuacion c then String c (hasta n s')
    else match n with
         | O => EmptyString
         | S n' => String c (hasta n' s')
         end
  end.

(** Every byte of the text satisfies [p]. *)
Fixpoint todos (p : ascii -> bool) (s : string) : bool :=
  match s with
  | EmptyString => true
  | String c s' => p c && todos p s'
  end.

(** The text is ASCII: one byte per character, all below 128. *)
Definition es_ascii (s : string) : bool :=
  todos (fun c => (nat_of_ascii c <? 128)%nat) s.

(** [str.strip()] and [str.upper()] as the interpreter has them. They
    work by the Unicode tables, which the repository does not contain; the
    code is modelled over whichever functions they are. *)
Record TextoPy := {
  str_strip : string -> string;
  str_upper : string -> string
}.

(* ===================================================================== *)
(** ** The ORM calls the code makes *)

Definition option_Z_eqb (a b : option Z) : bool :=
  match a, b with
  | Some x, Some y => x =? y
  | None, None => true
  | _, _ => false
  end.

(** [Model.objects.get(pk=...)]: exactly one row, or an exception. *)
Definition objects_get {A} (tabla : list A) (coincide : A -> bool)
    (no_existe : Excepcion) : M A :=
  match filter coincide tabla with
  | [] => raise no_existe
  | [x] => ret x
  | _ => raise MultipleObjectsReturned
  end.

Definition Alerta_objects_get (id : Z) : M Alerta.t :=
  w <- get_world ;;
  objects_get (alertas w) (fun a => Alerta.pk a =? id) Alerta_DoesNotExist.

Definition Caso_objects_get (id : Z) : M Caso.t :=
  w <- get_world ;;
  objects_get (casos w) (fun c => option_Z_eqb (Caso.pk c) (Some id))
    Caso_DoesNotExist.

Definition User_objects_get (id : Z) : M User.t :=
  w <- get_world ;;
  objects_get (users w) (fun u => User.pk u =? id) User_DoesNotExist.

(** [Alerta.objects.create(...)]: the fields not passed take the model's
    defaults ([enviada=False], [fecha_envio=None], [leida=False]);
    [fecha_creacion] is [auto_now_add]. *)
Definition Alerta_objects_create (clk : Clock) (caso : Z) (tipo : TipoAlerta)
    (mensaje : Mensaje) (fecha_alerta : datetime) (usuario_creador : Z)
    (email_destinatario : option string) (enviar_email : bool) : M Alerta.t :=
  fun w =>
    let a := Alerta.mk (next_alerta_pk w) caso tipo mensaje fecha_alerta
               false None false enviar_email email_destinatario
               (timezone_now clk) usuario_creador in
    (Ok a, with_alertas (alertas w ++ [a]) (next_alerta_pk w + 1) w).

(** [MovimientoCaso.objects.create(...)]; [fecha_movimiento] defaults to
    [timezone.now]. *)
Definition MovimientoCaso_objects_create (clk : Clock) (caso : Z)
    (descripcion : string) (usuario : Z) (importante : bool)
  : M MovimientoCaso.t :=
  fun w =>
    let m := MovimientoCaso.mk (next_movimiento_pk w) caso (timezone_now clk)
               descripcion usuario importante in
    (Ok m, with_movimientos (movimientos w ++ [m]) (next_movimiento_pk w + 1) w).

(** The pk of an instance used as a foreign key ([caso=instance]); Django
    refuses an unsaved instance there. *)
Definition pk_de (c : Caso.t) : M Z :=
  match Caso.pk c with
  | Some p => ret p
  | None => raise (ValueError "Unsaved model instance cannot be used in an ORM query.")
  end.

(** Some other row already holds this [rol] (the column is [unique=True]). *)
Definition rol_en_uso (w : World) (r : string) (propio : option Z) : bool :=
  existsb (fun c => String.eqb (Caso.rol c) r
                    && negb (option_Z_eqb (Caso.pk c) propio)) (casos w).

Definition tiene_pk (p : Z) (c : Caso.t) : bool :=
  option_Z_eqb (Caso.pk c) (Some p).

(** Some row of [auth_user] has this id (the target of the foreign key
    [usuario_responsable]). *)
Definition usuario_almacenado (w : World) (id : Z) : bool :=
  existsb (fun u => User.pk u =? id) (users w).

(** The table write of [Model.save]: an UPDATE when a row has the
    instance's pk, an INSERT otherwise; the result tells whether a row was
    created. The constraints of the table are checked here:
    [fecha_vencimiento] is not nullable, [rol] is unique and
    [usuario_responsable] refers to a stored user; the database refuses the
    write with [IntegrityError] when one of them fails. *)
Definition caso_save_table (clk : Clock) (self : Caso.t) : M (Caso.t * bool) :=
  fun w =>
    match Caso.fecha_vencimiento self with
    | None => (Raise IntegrityError, w)
    | Some _ =>
      if rol_en_uso w (Caso.rol self) (Caso.pk self)
         || negb (usuario_almacenado w (Caso.usuario_responsable self))
      then (Raise IntegrityError, w)
      else
        let ahora := timezone_now clk in
        match Caso.pk self with
        | Some p =>
          if existsb (tiene_pk p) (casos w) then
            let fila := Caso.set_fechas (Caso.fecha_creacion self) ahora self in
            (Ok (fila, false),
             with_casos (map (fun c => if tiene_pk p c then fila else c) (casos w))
               (next_caso_pk w) w)
          else
            let fila := Caso.set_fechas ahora ahora self in
            (Ok (fila, true),
             with_casos (casos w ++ [fila]) (Z.max (next_caso_pk w) (p + 1)) w)
        | None =>
          let p := next_caso_pk w in
          let fila := Caso.set_pk p (Caso.set_fechas ahora ahora self) in
          (Ok (fila, true), with_casos (casos w ++ [fila]) (p + 1) w)
        end
    end.

(* ===================================================================== *)
(** ** Saving a case: [Caso.save] and the signals (models.py, signals.py) *)

(** The body of [Caso.save] before [super().save()]. *)
Definition Caso_save_urgente (clk : Clock) (self : Caso.t) : Caso.t :=
  match Caso.fecha_vencimiento self with
  | Some fv =>
    let days_until_deadline := fv - date_today clk in
    Caso.set_urgente (days_until_deadline <=? 7) self
  | None => self
  end.

(** [pre_save] receiver. *)
Definition marcar_urgente_automatico (clk : Clock) (instance : Caso.t) : Caso.t :=
  match Caso.fecha_vencimiento instance with
  | Some fv =>
    let days_until := fv - datetime_date (timezone_now clk) in
    Caso.set_urgente (days_until <=? 7) instance
  | None => instance
  end.

(** [post_save] receiver. *)
Definition crear_movimiento_inicial (clk : Clock) (instance : Caso.t)
    (created : bool) : M unit :=
  if created then
    p <- pk_de instance ;;
    u <- User_objects_get (Caso.usuario_responsable instance) ;;
    MovimientoCaso_objects_create clk p
      ("Caso creado: " ++ get_tipo_caso_display (Caso.tipo instance) ++ " - "
         ++ hasta 100 (Caso.materia instance))%string
      (User.pk u) true ;;;
    ret tt
  else ret tt.

(** [post_save] receiver. [enviar_email] is not passed: model default. *)
Definition crear_alerta_automatica (clk : Clock) (instance : Caso.t)
    (created : bool) : M unit :=
  if negb created then ret tt
  else
    match Caso.fecha_vencimiento instance with
    | Some fv =>
      if EstadoCaso_eqb (Caso.estado instance) EN_TRAMITACION then
        let days_until := fv - datetime_date (timezone_now clk) in
        if days_until <=? 7 then
          p <- pk_de instance ;;
          u <- User_objects_get (Caso.usuario_responsable instance) ;;
          Alerta_objects_create clk p VENCIMIENTO
            (MsgVenceSignal (Caso.rol instance) days_until fv)
            (timezone_now clk + timedelta 0 1 0 0)
            (User.pk u) (Some (User.email u)) true ;;;
          ret tt
        else ret tt
      else ret tt
    | None => ret tt
    end.

(** The instance as the pre-save steps leave it: what the write stores. *)
Definition Caso_pre_save (clk : Clock) (self : Caso.t) : Caso.t :=
  marcar_urgente_automatico clk (Caso_save_urgente clk self).

(** [Caso.save()]: the override, then [Model.save] with its [pre_save]
    receiver, the table write and the two [post_save] receivers in the
    order they are registered. Returns the instance as it is afterwards. *)
Definition Caso_save (clk : Clock) (self : Caso.t) : M Caso.t :=
  fc <- caso_save_table clk (Caso_pre_save clk self) ;;
  crear_movimiento_inicial clk (fst fc) (snd fc) ;;;
  crear_alerta_automatica clk (fst fc) (snd fc) ;;;
  ret (fst fc).

(* ===================================================================== *)
(** ** Integrity of the stored data *)

(** Every stored case has a pk below the sequence. *)
Definition pks_bajo_secuencia (w : World) : bool :=
  forallb (fun c => match Caso.pk c with
                    | Some p => p <? next_caso_pk w
                    | None => false
                    end) (casos w).

(** Foreign keys of movements and alerts point to stored cases. *)
Definition fk_ok (w : World) : bool :=
  forallb (fun m => existsb (tiene_pk (MovimientoCaso.caso m)) (casos w))
    (movimientos w)
  && forallb (fun a => existsb (tiene_pk (Alerta.caso a)) (casos w)) (alertas w).

Definition movimientos_de (p : Z) (w : World) : list MovimientoCaso.t :=
  filter (fun m => MovimientoCaso.caso m =? p) (movimientos w).

Definition alertas_de (p : Z) (t : TipoAlerta) (w : World) : list Alerta.t :=
  filter (fun a => (Alerta.caso a =? p) && TipoAlerta_eqb (Alerta.tipo a) t)
    (alertas w).

(* ===================================================================== *)
(** ** Python built-ins the code relies on *)

(** Truth value of a [str]. *)
Definition str_truthy (s : string) : bool :=
  match s with EmptyString => false | String _ _ => true end.

(** [str(n)] for a count. *)
Definition str_nat (n : nat) : string := NilZero.string_of_uint (Nat.to_uint n).

(** What [str.strip()] and [str.upper()] do on ASCII text: whitespace is
    the space and the control characters 9 to 13 and 28 to 31; the letters
    [a] to [z] have capitals. *)
Definition ascii_is_space (c : ascii) : bool :=
  let n := nat_of_ascii c in
  ((n =? 32) || ((9 <=? n) && (n <=? 13)) || ((28 <=? n) && (n <=? 31)))%nat.

Fixpoint ascii_lstrip (s : string) : string :=
  match s with
  | EmptyString => EmptyString
  | String c s' => if ascii_is_space c then ascii_lstrip s' else s
  end.

Fixpoint ascii_rstrip (s : string) : string :=
  match s with
  | EmptyString => EmptyString
  | String c s' =>
    match ascii_rstrip s' with
    | EmptyString => if ascii_is_space c then EmptyString else String c EmptyString
    | r => String c r
    end
  end.

Definition ascii_strip (s : string) : string := ascii_rstrip (ascii_lstrip s).

Definition ascii_upper_char (c : ascii) : ascii :=
  let n := nat_of_ascii c in
  if ((97 <=? n) && (n <=? 122))%nat then ascii_of_nat (n - 32) else c.

Fixpoint ascii_upper (s : string) : string :=
  match s with
  | EmptyString => EmptyString
  | String c s' => String (ascii_upper_char c) (ascii_upper s')
  end.

(** The two functions restricted to ASCII text, for running the code on
    ASCII input. *)
Definition texto_ascii : TextoPy :=
  {| str_strip := ascii_strip; str_upper := ascii_upper |}.

(** The interpreter's functions are those on ASCII text. *)
Definition coincide_en_ascii (py : TextoPy) : Prop :=
  forall s, es_ascii s = true ->
            str_strip py s = ascii_strip s /\ str_upper py s = ascii_upper s.

(** [for x in l: s = body(x, s)], an exception leaving the loop. *)
Fixpoint for_each {A S} (l : list A) (body : A -> S -> M S) (s : S) : M S :=
  match l with
  | [] => ret s
  | x :: l' => s' <- body x s ;; for_each l' body s'
  end.

(* ===================================================================== *)
(** ** Querysets *)

(** [a] comes strictly before [b] under
    [Caso.Meta.ordering = ['-fecha_vencimiento', '-fecha_creacion']]. *)
Definition antes_en_orden (a b : Caso.t) : bool :=
  match Caso.fecha_vencimiento a, Caso.fecha_vencimiento b with
  | Some va, Some vb =>
    (vb <? va) || ((va =? vb) && (Caso.fecha_creacion b <? Caso.fecha_creacion a))
  | Some _, None => true
  | None, Some _ => false
  | None, None => Caso.fecha_creacion b <? Caso.fecha_creacion a
  end.

Fixpoint insertar_en_orden (c : Caso.t) (l : list Caso.t) : list Caso.t :=
  match l with
  | [] => [c]
  | x :: l' => if antes_en_orden x c then x :: insertar_en_orden c l'
               else c :: l
  end.

(** Rows in the model's default ordering; rows with equal keys keep the
    order of the table. *)
Fixpoint order_by_meta (l : list Caso.t) : list Caso.t :=
  match l with
  | [] => []
  | c :: l' => insertar_en_orden c (order_by_meta l')
  end.

(** [.select_related('usuario_responsable')]: the join with the users
    table, an inner join since the foreign key is not nullable. *)
Definition select_related_usuario (w : World) (cs : list Caso.t)
  : list (Caso.t * User.t) :=
  flat_map (fun c =>
              map (pair c)
                (filter (fun u => User.pk u =? Caso.usuario_responsable c)
                   (users w))) cs.

(* ===================================================================== *)
(** ** [Alerta.marcar_como_enviada] (models.py) *)

(** [save(update_fields=[...])] of an alert: an UPDATE of those columns on
    the rows with the instance's pk; Django raises when no row matched. *)
Definition Alerta_save_update_fields (self : Alerta.t)
    (copiar : Alerta.t -> Alerta.t) : M unit :=
  fun w =>
    if existsb (fun a => Alerta.pk a =? Alerta.pk self) (alertas w) then
      (Ok tt,
       with_alertas
         (map (fun a => if Alerta.pk a =? Alerta.pk self then copiar a else a)
            (alertas w))
         (next_alerta_pk w) w)
    else (Raise (DatabaseError "Save with update_fields did not affect any rows."), w).

Definition marcar_como_enviada (clk : Clock) (self : Alerta.t) : M Alerta.t :=
  let self := Alerta.set_enviada true (Some (timezone_now clk)) self in
  Alerta_save_update_fields self
    (Alerta.set_enviada (Alerta.enviada self) (Alerta.fecha_envio self)) ;;;
  ret self.

(* ===================================================================== *)
(** ** Celery tasks (tasks.py) *)

(** The mail backend: for each message, delivery or the text of the
    exception it raises. *)
Definition Smtp := Email -> option string.

(** [send_mail(..., fail_silently=False)] *)
Definition send_mail (smtp : Smtp) (e : Email) : M unit :=
  fun w =>
    let w' := with_outbox (outbox w ++ [e]) w in
    match smtp e with
    | None => (Ok tt, w')
    | Some msg => (Raise (SMTPException msg), w')
    end.

Definition max_retries : nat := 3.

(** [alerta.email_destinatario or caso.usuario_responsable.email]: the
    user is read only when the alert has no recipient of its own. *)
Definition resolver_destinatario (alerta : Alerta.t) (caso : Caso.t) : M string :=
  match Alerta.email_destinatario alerta with
  | Some e =>
    if str_truthy e then ret e
    else u <- User_objects_get (Caso.usuario_responsable caso) ;;
         ret (User.email u)
  | None => u <- User_objects_get (Caso.usuario_responsable caso) ;;
            ret (User.email u)
  end.

(** The arguments of the [send_mail] call. *)
Definition email_de_alerta (clk : Clock) (alerta : Alerta.t) (caso : Caso.t)
    (email_destinatario : string) : Email :=
  {| subject := ("Alerta: " ++ get_tipo_alerta_display (Alerta.tipo alerta)
                   ++ " - " ++ Caso.rol caso)%string;
     plantillas := ["emails/alerta.txt"; "emails/alerta.html"]%string;
     ctx_alerta := Alerta.pk alerta;
     ctx_caso := Caso.pk caso;
     ctx_dias_vencimiento := Caso.dias_hasta_vencimiento clk caso;
     recipient_list := [email_destinatario] |}.

(** The two [except] clauses of [enviar_email_alerta]; [retries] is
    [self.request.retries]. [raise self.retry(countdown=300, exc=exc)]
    leaves the function with the exception [Retry 300 exc]. *)
Definition manejar_error (retries : nat) (exc : Excepcion) : M string :=
  match exc with
  | Alerta_DoesNotExist => ret "Alerta no encontrada"%string
  | _ =>
    if (retries <? max_retries)%nat then raise (Retry 300 exc)
    else ret ("Error: " ++ str_exc exc)%string
  end.

(** One execution of the task [enviar_email_alerta]. Rendering the two
    templates and building the case URL for their context are taken to
    succeed; what is sent is recorded by [email_de_alerta]. *)
Definition enviar_email_alerta (clk : Clock) (smtp : Smtp) (retries : nat)
    (alerta_id : Z) : M string :=
  try_except
    (alerta <- Alerta_objects_get alerta_id ;;
     if Alerta.enviada alerta then ret "Alerta ya enviada"%string
     else
       caso <- Caso_objects_get (Alerta.caso alerta) ;;
       email_destinatario <- resolver_destinatario alerta caso ;;
       if negb (str_truthy email_destinatario)
       then ret "Sin email destinatario"%string
       else
         send_mail smtp (email_de_alerta clk alerta caso email_destinatario) ;;;
         marcar_como_enviada clk alerta ;;;
         ret ("Email enviado exitosamente a " ++ email_destinatario)%string)
    (manejar_error retries).

(** The worker's side of [self.retry]: a [Retry] leaving the task runs it
    again with [retries + 1]; anything else ends the sequence. The value is
    the outcome of every execution, first to last. [clk_en k] and
    [smtp_en k] are the clock and the mail backend at execution [k]. *)
Fixpoint ejecutar_con_reintentos (fuel : nat) (clk_en : nat -> Clock)
    (smtp_en : nat -> Smtp) (retries : nat) (alerta_id : Z) (w : World)
  : list (Resultado string) * World :=
  match fuel with
  | O => ([], w)
  | S fuel' =>
    match enviar_email_alerta (clk_en retries) (smtp_en retries) retries
            alerta_id w with
    | (Raise (Retry c e), w') =>
      let '(rs, w'') := ejecutar_con_reintentos fuel' clk_en smtp_en
                          (S retries) alerta_id w' in
      (Raise (Retry c e) :: rs, w'')
    | (r, w') => ([r], w')
    end
  end.

(** [Meta.ordering = ['-fecha_alerta']] of [Alerta]: a queryset without an
    [order_by] of its own yields the latest [fecha_alerta] first. The
    database fixes no order among rows with equal times; here they keep the
    order of the table. *)
Fixpoint insertar_alerta (a : Alerta.t) (l : list Alerta.t) : list Alerta.t :=
  match l with
  | [] => [a]
  | x :: l' => if Alerta.fecha_alerta a <? Alerta.fecha_alerta x
               then x :: insertar_alerta a l'
               else a :: l
  end.

Fixpoint order_by_fecha_alerta_desc (l : list Alerta.t) : list Alerta.t :=
  match l with
  | [] => []
  | a :: l' => insertar_alerta a (order_by_fecha_alerta_desc l')
  end.

(** [revisar_alertas_pendientes]: the value pairs the ids handed to
    [enviar_email_alerta.delay], in the order of the loop, with the returned
    text. The queryset has no [order_by], so the rows come by
    [Meta.ordering]; [select_related('caso')] joins on a foreign key that is
    not nullable and selects no fewer rows. *)
Definition revisar_alertas_pendientes (clk : Clock) : M (list Z * string) :=
  try_except
    (w <- get_world ;;
     let alertas_pendientes :=
       order_by_fecha_alerta_desc
         (filter (fun a => negb (Alerta.enviada a) && Alerta.enviar_email a
                           && (Alerta.fecha_alerta a <=? timezone_now clk))
            (alertas w)) in
     p <- for_each alertas_pendientes
            (fun alerta s => ret (fst s ++ [Alerta.pk alerta], S (snd s)))
            ([], O) ;;
     ret (fst p, ("Procesadas " ++ str_nat (snd p) ++ " alertas")%string))
    (fun exc => ret ([], ("Error: " ++ str_exc exc)%string)).

(** The suppression test of [crear_alertas_vencimiento]. *)
Definition tiene_alerta_reciente (clk : Clock) (p : Z) (w : World) : bool :=
  existsb (fun a => (Alerta.caso a =? p)
                    && TipoAlerta_eqb (Alerta.tipo a) VENCIMIENTO
                    && (timezone_now clk - timedelta 1 0 0 0
                          <=? Alerta.fecha_creacion a))
    (alertas w).

(** Body of the loop of [crear_alertas_vencimiento]. *)
Definition crear_alerta_si_falta (clk : Clock) (dias_anticipacion : Z)
    (cu : Caso.t * User.t) (contador : nat) : M nat :=
  let caso := fst cu in
  let usuario_responsable := snd cu in
  p <- pk_de caso ;;
  w <- get_world ;;
  if negb (tiene_alerta_reciente clk p w) then
    match Caso.fecha_vencimiento caso with
    | None => raise (AttributeError "'NoneType' object has no attribute 'strftime'")
    | Some fv =>
      Alerta_objects_create clk p VENCIMIENTO
        (MsgVenceTarea (Caso.rol caso) dias_anticipacion fv (Caso.recurrente caso))
        (timezone_now clk + timedelta 0 0 30 0)
        (User.pk usuario_responsable)
        (Some (User.email usuario_responsable)) true ;;;
      ret (S contador)
    end
  else ret contador.

Definition casos_proximos (clk : Clock) (dias_anticipacion : Z) (w : World)
  : list (Caso.t * User.t) :=
  let fecha_limite := date_today clk + dias_anticipacion in
  select_related_usuario w
    (order_by_meta
       (filter (fun c => EstadoCaso_eqb (Caso.estado c) EN_TRAMITACION
                         && option_Z_eqb (Caso.fecha_vencimiento c)
                              (Some fecha_limite))
          (casos w))).

Definition crear_alertas_vencimiento (clk : Clock) : M string :=
  try_except
    (let dias_anticipacion := 7 in
     w <- get_world ;;
     contador <- for_each (casos_proximos clk dias_anticipacion w)
                   (crear_alerta_si_falta clk dias_anticipacion) O ;;
     ret ("Creadas " ++ str_nat contador ++ " alertas automáticas")%string)
    (fun exc => ret ("Error: " ++ str_exc exc)%string).

(** The filter of [limpiar_alertas_antiguas]; a NULL [fecha_envio] is not
    less than anything. *)
Definition alerta_antigua (fecha_corte : datetime) (a : Alerta.t) : bool :=
  Alerta.enviada a
  && match Alerta.fecha_envio a with
     | Some t => t <? fecha_corte
     | None => false
     end.

Definition limpiar_alertas_antiguas (clk : Clock) : M string :=
  try_except
    (let fecha_corte := timezone_now clk - timedelta 90 0 0 0 in
     w <- get_world ;;
     let alertas_eliminadas := List.length (filter (alerta_antigua fecha_corte) (alertas w)) in
     put_world
       (with_alertas (filter (fun a => negb (alerta_antigua fecha_corte a)) (alertas w))
          (next_alerta_pk w) w) ;;;
     let contador := match alertas_eliminadas with O => O | n => n end in
     ret ("Eliminadas " ++ str_nat contador ++ " alertas antiguas")%string)
    (fun exc => ret ("Error: " ++ str_exc exc)%string).

(* ===================================================================== *)
(** ** The view [marcar_alerta_leida] (views.py) *)

(** [request.user] *)
Inductive RequestUser :=
| AnonymousUser
| Authenticated (u : User.t).

Inductive HttpResponse :=
| RedirectLogin
| Redirect (url_name : string) (mensaje : string).

(** [get_object_or_404(Alerta, pk=pk)] *)
Definition get_alerta_or_404 (pk : Z) : M Alerta.t :=
  try_except (Alerta_objects_get pk)
    (fun exc =>
       match exc with
       | Alerta_DoesNotExist => raise (Http404 "No Alerta matches the given query.")
       | _ => raise exc
       end).

(** [@login_required] sends an anonymous request to the login page. The
    ownership test reads [alerta.caso.usuario_responsable] only when the
    user is not staff ([and] short-circuits). *)
Definition marcar_alerta_leida (request_user : RequestUser) (pk : Z)
  : M HttpResponse :=
  match request_user with
  | AnonymousUser => ret RedirectLogin
  | Authenticated user =>
    alerta <- get_alerta_or_404 pk ;;
    ajeno <-
      (if negb (User.is_staff user) then
         caso <- Caso_objects_get (Alerta.caso alerta) ;;
         responsable <- User_objects_get (Caso.usuario_responsable caso) ;;
         ret (negb (User.pk responsable =? User.pk user))
       else ret false) ;;
    if ajeno then raise (Http404 "No tienes permisos para esta alerta")
    else
      let alerta := Alerta.set_leida true alerta in
      Alerta_save_update_fields alerta (Alerta.set_leida (Alerta.leida alerta)) ;;;
      ret (Redirect "Casos:alertas" "Alerta marcada como leída.")
  end.

(* ===================================================================== *)
(** ** The form validator [CasoForm.clean_rol] (forms.py) *)

(** Truth value of [self.instance.pk]. *)
Definition pk_truthy (p : option Z) : bool :=
  match p with
  | Some n => negb (n =? 0)
  | None => false
  end.

(** The queryset [Caso.objects.filter(rol=rol)], less the instance being
    edited when it has a pk. *)
Definition casos_con_rol (instance_pk : option Z) (rol : string) (w : World)
  : list Caso.t :=
  let queryset := filter (fun c => String.eqb (Caso.rol c) rol) (casos w) in
  if pk_truthy instance_pk
  then filter (fun c => negb (option_Z_eqb (Caso.pk c) instance_pk)) queryset
  else queryset.

(** [cleaned_rol] is [self.cleaned_data.get('rol')]; [py] gives
    [str.strip] and [str.upper]. *)
Definition clean_rol (py : TextoPy) (instance_pk : option Z)
    (cleaned_rol : option string) : M (option string) :=
  match cleaned_rol with
  | Some r =>
    if str_truthy r then
      let rol := str_upper py (str_strip py r) in
      w <- get_world ;;
      match casos_con_rol instance_pk rol w with
      | _ :: _ =>
        raise (ValidationError ("Ya existe un caso con el rol '" ++ rol ++ "'"))
      | [] => ret (Some rol)
      end
    else ret (Some r)
  | None => ret None
  end.

(* ===================================================================== *)
(** ** Schedules of the dispatcher *)

(** What the scheduler and the workers run on alerts: a scan by
    [revisar_alertas_pendientes], or one execution of
    [enviar_email_alerta], first try or retry. *)
Inductive Evento :=
| Escaneo (clk : Clock)
| Intento (clk : Clock) (smtp : Smtp) (retries : nat) (alerta_id : Z).

Definition paso (e : Evento) (w : World) : World :=
  match e with
  | Escaneo clk => snd (revisar_alertas_pendientes clk w)
  | Intento clk smtp retries alerta_id =>
    snd (enviar_email_alerta clk smtp retries alerta_id w)
  end.

(** The stored [enviada] flag of alert [id]. *)
Definition enviada_en (id : Z) (w : World) : bool :=
  existsb (fun a => (Alerta.pk a =? id) && Alerta.enviada a) (alertas w).

(** The update of [marcar_como_enviada] as it acts on the alert table. *)
Definition marcar_filas (clk : Clock) (id : Z) (l : list Alerta.t) : list Alerta.t :=
  map (fun a => if Alerta.pk a =? id
                then Alerta.set_enviada true (Some (timezone_now clk)) a
                else a) l.

(** How often the stored flag of [id] goes from false to true along a
    schedule. *)
Fixpoint transiciones (id : Z) (es : list Evento) (w : World) : nat :=
  match es with
  | [] => O
  | e :: es' =>
    let w' := paso e w in
    ((if negb (enviada_en id w) && enviada_en id w' then 1 else 0)
     + transiciones id es' w')%nat
  end.

(* ===================================================================== *)
(** ** Workers running side by side *)

(** Where one execution of [enviar_email_alerta] stands: before its reads,
    between the reads and [send_mail], between [send_mail] and
    [marcar_como_enviada], or done. Other workers may run in between. *)
Inductive Fase :=
| Leyendo
| Enviando (alerta : Alerta.t) (caso : Caso.t) (email_destinatario : string)
| Marcando (alerta : Alerta.t) (email_destinatario : string)
| Terminada (r : Resultado string).

(** The part of the task body before [send_mail]: a text to return, or
    what the rest of the body needs. *)
Definition leer_para_envio (alerta_id : Z)
  : M (string + Alerta.t * Caso.t * string) :=
  alerta <- Alerta_objects_get alerta_id ;;
  if Alerta.enviada alerta then ret (inl "Alerta ya enviada"%string)
  else
    caso <- Caso_objects_get (Alerta.caso alerta) ;;
    email_destinatario <- resolver_destinatario alerta caso ;;
    if negb (str_truthy email_destinatario)
    then ret (inl "Sin email destinatario"%string)
    else ret (inr (alerta, caso, email_destinatario)).

(** One execution in flight. *)
Record Trabajador := {
  t_smtp : Smtp;
  t_retries : nat;
  t_alerta_id : Z;
  t_fase : Fase
}.

Definition en_fase (f : Fase) (t : Trabajador) : Trabajador :=
  {| t_smtp := t_smtp t; t_retries := t_retries t;
     t_alerta_id := t_alerta_id t; t_fase := f |}.

(** The worker does its next piece of the task body; an exception goes
    through the [except] clauses as in the whole body. *)
Definition avanzar (clk : Clock) (t : Trabajador) (w : World)
  : Trabajador * World :=
  let termina (rw : Resultado string * World) :=
    (en_fase (Terminada (fst rw)) t, snd rw) in
  match t_fase t with
  | Leyendo =>
    match leer_para_envio (t_alerta_id t) w with
    | (Ok (inl texto), w') => termina (Ok texto, w')
    | (Ok (inr (alerta, caso, dest)), w') => (en_fase (Enviando alerta caso dest) t, w')
    | (Raise exc, w') => termina (manejar_error (t_retries t) exc w')
    end
  | Enviando alerta caso dest =>
    match send_mail (t_smtp t) (email_de_alerta clk alerta caso dest) w with
    | (Ok _, w') => (en_fase (Marcando alerta dest) t, w')
    | (Raise exc, w') => termina (manejar_error (t_retries t) exc w')
    end
  | Marcando alerta dest =>
    match marcar_como_enviada clk alerta w with
    | (Ok _, w') =>
      termina (Ok ("Email enviado exitosamente a " ++ dest)%string, w')
    | (Raise exc, w') => termina (manejar_error (t_retries t) exc w')
    end
  | Terminada _ => (t, w)
  end.

Fixpoint reemplazar {A} (i : nat) (x : A) (l : list A) : list A :=
  match l, i with
  | [], _ => []
  | _ :: l', O => x :: l'
  | y :: l', S i' => y :: reemplazar i' x l'
  end.

(** Worker [i] of the pool takes one step at clock [clk]. *)
Definition paso_fino (ci : Clock * nat) (s : World * list Trabajador)
  : World * list Trabajador :=
  match nth_error (snd s) (snd ci) with
  | Some t =>
    let tw := avanzar (fst ci) t (fst s) in
    (snd tw, reemplazar (snd ci) (fst tw) (snd s))
  | None => s
  end.

(** How often the stored flag of [id] goes from false to true along an
    interleaving of worker steps. *)
Fixpoint transiciones_finas (id : Z) (plan : list (Clock * nat))
    (s : World * list Trabajador) : nat :=
  match plan with
  | [] => O
  | ci :: plan' =>
    let s' := paso_fino ci s in
    ((if negb (enviada_en id (fst s)) && enviada_en id (fst s') then 1 else 0)
     + transiciones_finas id plan' s')%nat
  end.

(** Alert [id] is stored once and unsent, its case is stored, and a
    non-empty recipient [dest] resolves: an execution of
    [enviar_email_alerta] reaches [send_mail]. *)
Definition Enviable (id : Z) (alerta : Alerta.t) (caso : Caso.t)
    (dest : string) (w : World) : Prop :=
  Alerta_objects_get id w = (Ok alerta, w)
  /\ Alerta.enviada alerta = false
  /\ Caso_objects_get (Alerta.caso alerta) w = (Ok caso, w)
  /\ resolver_destinatario alerta caso w = (Ok dest, w)
  /\ str_truthy dest = true.

(** The alert carries no recipient of its own. *)
Definition sin_destinatario_propio (alerta : Alerta.t) : bool :=
  match Alerta.email_destinatario alerta with
  | Some e => negb (str_truthy e)
  | None => true
  end.

(* ===================================================================== *)
(** ** Vocabulary for the alerts a run creates *)

(** What an alert made by the loop of [crear_alertas_vencimiento] over the
    joined rows [l] looks like. *)
Definition hecha_por (clk : Clock) (l : list (Caso.t * User.t)) (a : Alerta.t)
  : Prop :=
  exists c u,
    In (c, u) l
    /\ Caso.pk c = Some (Alerta.caso a)
    /\ Alerta.tipo a = VENCIMIENTO
    /\ Alerta.fecha_alerta a = timezone_now clk + timedelta 0 0 30 0
    /\ Alerta.email_destinatario a = Some (User.email u)
    /\ Alerta.enviar_email a = true
    /\ Alerta.enviada a = false
    /\ Alerta.fecha_creacion a = timezone_now clk.

(** Case [p] is among the joined rows. *)
Definition entre (l : list (Caso.t * User.t)) (p : Z) : bool :=
  existsb (fun cu => option_Z_eqb (Caso.pk (fst cu)) (Some p)) l.

(** The alerts of [l] that belong to case [p]. *)
Definition para (p : Z) (l : list Alerta.t) : list Alerta.t :=
  filter (fun a => Alerta.caso a =? p) l.

(** Every case row points to a stored user. *)
Definition fk_usuario_ok (w : World) : bool :=
  forallb (fun c => existsb (fun u => User.pk u =? Caso.usuario_responsable c)
                      (users w)) (casos w).

(** The update of [marcar_alerta_leida] as it acts on the alert table. *)
Definition leer_filas (id : Z) (l : list Alerta.t) : list Alerta.t :=
  map (fun a => if Alerta.pk a =? id then Alerta.set_leida true a else a) l.

(** The exception is the one Django turns into a 404 response. *)
Definition es_http404 {A} (r : Resultado A) : bool :=
  match r with
  | Raise (Http404 _) => true
  | _ => false
  end.

(** The exception is the one Django turns into a 403 response. *)
Definition es_permission_denied {A} (r : Resultado A) : bool :=
  match r with
  | Raise (PermissionDenied _) => true
  | _ => false
  end.

(* ===================================================================== *)
(** ** Vocabulary for the rol validator *)

Fixpoint todo_espacios (s : string) : bool :=
  match s with
  | EmptyString => true
  | String c s' => ascii_is_space c && todo_espacios s'
  end.

(** A stored case other than the instance being edited holds [rol]. On a
    creation ([ipk = None]) every stored case is another one. *)
Definition otro_caso_con_rol (ipk : option Z) (rol : string) (w : World) : Prop :=
  exists c, In c (casos w) /\ Caso.rol c = rol /\ (ipk = None \/ Caso.pk c <> ipk).

(** Two ASCII texts differ only in surrounding whitespace and letter
    case: each is a core without surrounding whitespace between two runs
    of whitespace, and the cores are equal up to case. *)
Definition misma_salvo_formato (r1 r2 : string) : Prop :=
  exists pre1 core1 post1 pre2 core2 post2,
    r1 = (pre1 ++ core1 ++ post1)%string
    /\ r2 = (pre2 ++ core2 ++ post2)%string
    /\ todo_espacios pre1 = true /\ todo_espacios post1 = true
    /\ todo_espacios pre2 = true /\ todo_espacios post2 = true
    /\ ascii_strip core1 = core1 /\ ascii_strip core2 = core2
    /\ ascii_upper core1 = ascii_upper core2.

(* ===================================================================== *)
(** ** A small office, for the examples *)

Module Ejemplo.

(** Day 20000, ten in the morning. *)
Definition reloj : Clock :=
  {| timezone_now := 20000 * usec_per_day + timedelta 0 10 0 0;
     date_today := 20000 |}.

(** Twelve hours later, same day. *)
Definition reloj_tarde : Clock :=
  {| timezone_now := 20000 * usec_per_day + timedelta 0 22 0 0;
     date_today := 20000 |}.

Definition ana : User.t := User.mk 1 "ana" "ana@example.org" false.
Definition beto : User.t := User.mk 2 "beto" "" false.
Definition carla : User.t := User.mk 3 "carla" "carla@example.org" true.

Definition caso (pk : option Z) (rol : string) (vence : option date)
    (estado : EstadoCaso) (responsable : Z) (urgente : bool) : Caso.t :=
  Caso.mk pk AMPARO rol "Recurrente" 19990 vence estado
    "Recurso contra resolucion" responsable
    (19990 * usec_per_day) (19990 * usec_per_day) urgente.

Definition alerta (pk caso : Z) (tipo : TipoAlerta) (enviada : bool)
    (envio : option datetime) (dest : option string) (creada : datetime)
  : Alerta.t :=
  Alerta.mk pk caso tipo (MsgTexto "Revisar") (19999 * usec_per_day)
    enviada envio false true dest creada 1.

Definition mundo : World :=
  {| users := [ana; beto; carla];
     casos := [caso (Some 1) "C-1-2024" (Some 20007) EN_TRAMITACION 1 true;
               caso (Some 2) "P-2-2024" (Some 20007) EN_TRAMITACION 2 true;
               caso (Some 3) "C-3-2024" (Some 20010) EN_TRAMITACION 1 false;
               caso (Some 4) "C-4-2024" (Some 20007) CERRADO 1 true];
     alertas := [alerta 1 1 SEGUIMIENTO false None (Some "ana@example.org"%string)
                   (19998 * usec_per_day);
                 alerta 2 2 SEGUIMIENTO false None None (19998 * usec_per_day);
                 alerta 3 1 AUDIENCIA true (Some (19900 * usec_per_day)) None
                   (19899 * usec_per_day);
                 alerta 4 3 AUDIENCIA true (Some (19999 * usec_per_day)) None
                   (19998 * usec_per_day);
                 alerta 5 3 SEGUIMIENTO false None None (19000 * usec_per_day)];
     movimientos := [MovimientoCaso.mk 1 1 (19990 * usec_per_day)
                       "Caso creado" 1 true];
     next_caso_pk := 5;
     next_alerta_pk := 6;
     next_movimiento_pk := 2;
     outbox := [] |}.

Definition caso_nuevo : Caso.t :=
  caso None "A-77-2024" (Some 20007) EN_TRAMITACION 1 false.

(** Two in the morning of day 20000. *)
Definition reloj_madrugada : Clock :=
  {| timezone_now := 20000 * usec_per_day + timedelta 0 2 0 0;
     date_today := 20000 |}.

(** The office after [caso_nuevo] was created at two in the morning: it
    is case 5, and the post-save receiver gave it a due-date alert. *)
Definition mundo_avisado : World :=
  snd (Caso_save reloj_madrugada caso_nuevo mundo).

(** An instance without due date that was flagged urgent before. *)
Definition caso_sin_fecha : Caso.t :=
  caso None "A-78-2024" None EN_TRAMITACION 1 true.

(** A mail backend that refuses everything. *)
Definition smtp_caido : Smtp := fun _ => Some "Connection refused"%string.

Definition smtp_ok : Smtp := fun _ => None.

End Ejemplo.

(* ===================================================================== *)
(** ** Deadline tiers (models.py, admin.py) *)

(** The dict [{'estado': ..., 'clase': ...}] of [Caso.estado_vencimiento]. *)
Record EstadoVencimiento := { ev_estado : string; ev_clase : string }.

(** The [estado_vencimiento] property. *)
Definition estado_vencimiento (clk : Clock) (c : Caso.t) : EstadoVencimiento :=
  match Caso.dias_hasta_vencimiento clk c with
  | None => {| ev_estado := "sin-fecha"; ev_clase := "text-muted" |}
  | Some dias =>
    if dias <? 0 then {| ev_estado := "vencido"; ev_clase := "text-danger" |}
    else if dias <=? 3 then {| ev_estado := "critico"; ev_clase := "text-danger" |}
    else if dias <=? 7 then {| ev_estado := "urgente"; ev_clase := "text-warning" |}
    else {| ev_estado := "normal"; ev_clase := "text-success" |}
  end.

(** [str(n)] for an integer. *)
Definition str_Z (z : Z) : string :=
  if z <? 0 then ("-" ++ str_nat (Z.to_nat (- z)))%string
  else str_nat (Z.to_nat z).

(** What [format_html('<span class=C>TEXT</span>')] builds in
    [estado_vencimiento_display]: the class of the span, whether the text
    sits in [<strong>], and the text. *)
Record Span := { span_clase : string; span_strong : bool; span_texto : string }.

(** [CasoAdmin.estado_vencimiento_display] *)
Definition estado_vencimiento_display (clk : Clock) (obj : Caso.t) : Span :=
  match Caso.dias_hasta_vencimiento clk obj with
  | None => {| span_clase := "text-muted"; span_strong := false;
               span_texto := "Sin fecha" |}
  | Some dias =>
    if dias <? 0 then
      {| span_clase := "text-danger"; span_strong := true;
         span_texto := ("Vencido (" ++ str_Z (Z.abs dias) ++ " días)")%string |}
    else if dias =? 0 then
      {| span_clase := "text-danger"; span_strong := true;
         span_texto := "¡HOY!" |}
    else if dias <=? 3 then
      {| span_clase := "text-danger"; span_strong := true;
         span_texto := (str_Z dias ++ " días")%string |}
    else if dias <=? 7 then
      {| span_clase := "text-warning"; span_strong := true;
         span_texto := (str_Z dias ++ " días")%string |}
    else
      {| span_clase := "text-success"; span_strong := false;
         span_texto := (str_Z dias ++ " días")%string |}
  end.

(** [MovimientoCasoAdmin.descripcion_corta] *)
Definition descripcion_corta (descripcion : string) : string :=
  if (50 <? len descripcion)%nat
  then (hasta 50 descripcion ++ "...")%string
  else descripcion.

(* ===================================================================== *)
(** ** Working days (core/utils.py) *)

(** A [date] is its proleptic Gregorian ordinal, [date.toordinal()]:
    [date.min] is day 1 and [date.max], 9999-12-31, is day 3652059. *)
Definition date_min : date := 1.
Definition date_max : date := 3652059.

(** [d.weekday()], Monday 0 to Sunday 6. *)
Definition weekday (d : date) : Z := (d + 6) mod 7.

(** What the loop adds for day [d]: 1 from Monday to Friday. *)
Definition habil (d : date) : Z := if weekday d <? 5 then 1 else 0.

(** The [while fecha_actual <= fecha_fin] loop of [calcular_dias_habiles],
    run for at most [fuel] turns. [fecha_actual += timedelta(days=1)]
    raises [OverflowError] when the sum is past [date.max]. *)
Fixpoint bucle_dias_habiles (fuel : nat) (fecha_actual fecha_fin : date)
    (dias : Z) : Resultado Z :=
  match fuel with
  | O => Ok dias
  | S fuel' =>
    if fecha_actual <=? fecha_fin then
      let dias := if weekday fecha_actual <? 5 then dias + 1 else dias in
      if date_max <? fecha_actual + 1
      then Raise (OverflowError "date value out of range")
      else bucle_dias_habiles fuel' (fecha_actual + 1) fecha_fin dias
    else Ok dias
  end.

(** [calcular_dias_habiles]: the loop gets one turn per day of the range,
    which is all it can use. *)
Definition calcular_dias_habiles (fecha_inicio fecha_fin : date) : Resultado Z :=
  bucle_dias_habiles (Z.to_nat (fecha_fin - fecha_inicio + 1))
    fecha_inicio fecha_fin 0.

(** The working days among the [n] days from [a] on. *)
Fixpoint cuenta_habiles (n : nat) (a : date) : Z :=
  match n with
  | O => 0
  | S n' => habil a + cuenta_habiles n' (a + 1)
  end.

(* ===================================================================== *)
(** ** The date validators of [CasoForm] (forms.py) *)

(** [clean_fecha_presentacion]; the argument is
    [cleaned_data.get('fecha_presentacion')]. *)
Definition clean_fecha_presentacion (clk : Clock) (fecha : option date)
  : Resultado (option date) :=
  match fecha with
  | Some f =>
    if date_today clk <? f
    then Raise (ValidationError "La fecha de presentación no puede ser futura.")
    else Ok fecha
  | None => Ok fecha
  end.

(** [clean_fecha_vencimiento] *)
Definition clean_fecha_vencimiento (clk : Clock) (fecha : option date)
  : Resultado (option date) :=
  match fecha with
  | Some f =>
    if f <? date_today clk
    then Raise (ValidationError "La fecha de vencimiento no puede ser pasada.")
    else Ok fecha
  | None => Ok fecha
  end.

(** [CasoForm.clean] on the three dates of [cleaned_data]; it returns
    them unchanged. *)
Definition CasoForm_clean
    (fecha_presentacion fecha_vencimiento fecha_notificacion : option date)
  : Resultado (option date * option date * option date) :=
  let cleaned_data := (fecha_presentacion, fecha_vencimiento, fecha_notificacion) in
  let primera :=
    match fecha_presentacion, fecha_vencimiento with
    | Some fp, Some fv => fv <=? fp
    | _, _ => false
    end in
  if primera then
    Raise (ValidationError
             "La fecha de vencimiento debe ser posterior a la fecha de presentación.")
  else
    let segunda :=
      match fecha_notificacion, fecha_presentacion with
      | Some fn, Some fp => fn <? fp
      | _, _ => false
      end in
    if segunda then
      Raise (ValidationError
               "La fecha de notificación no puede ser anterior a la presentación.")
    else Ok cleaned_data.

(* ===================================================================== *)
(** ** Admin actions (admin.py) *)

(** The rows an admin action gets: those whose pk was ticked. *)
Definition ticada (sel : list Z) (pk : Z) : bool := existsb (Z.eqb pk) sel.

Definition caso_ticado (sel : list Z) (c : Caso.t) : bool :=
  match Caso.pk c with
  | Some p => ticada sel p
  | None => false
  end.

(** [queryset.update(...)] on alerts: the ticked rows get [cambio], the
    value is the number of rows matched. *)
Definition alertas_update (sel : list Z) (cambio : Alerta.t -> Alerta.t)
  : M nat :=
  fun w =>
    (Ok (List.length (filter (fun a => ticada sel (Alerta.pk a)) (alertas w))),
     with_alertas
       (map (fun a => if ticada sel (Alerta.pk a) then cambio a else a)
          (alertas w))
       (next_alerta_pk w) w).

(** [AlertaAdmin.marcar_como_enviadas]; the value is the text given to
    [message_user]. *)
Definition marcar_como_enviadas (clk : Clock) (sel : list Z) : M string :=
  updated <- alertas_update sel
               (Alerta.set_enviada true (Some (timezone_now clk))) ;;
  ret (str_nat updated ++ " alertas marcadas como enviadas.")%string.

(** [AlertaAdmin.reenviar_alertas] *)
Definition reenviar_alertas (sel : list Z) : M string :=
  updated <- alertas_update sel (Alerta.set_enviada false None) ;;
  ret (str_nat updated ++ " alertas programadas para reenvío.")%string.

Definition Caso_set_estado (e : EstadoCaso) (c : Caso.t) : Caso.t :=
  Caso.mk (Caso.pk c) (Caso.tipo c) (Caso.rol c) (Caso.recurrente c)
    (Caso.fecha_presentacion c) (Caso.fecha_vencimiento c) e (Caso.materia c)
    (Caso.usuario_responsable c) (Caso.fecha_creacion c)
    (Caso.fecha_actualizacion c) (Caso.urgente c).

(** [queryset.update(...)] on cases. It writes the named column only:
    [save], its receivers and [auto_now] are not involved. *)
Definition casos_update (sel : list Z) (cambio : Caso.t -> Caso.t) : M nat :=
  fun w =>
    (Ok (List.length (filter (caso_ticado sel) (casos w))),
     with_casos
       (map (fun c => if caso_ticado sel c then cambio c else c) (casos w))
       (next_caso_pk w) w).

(** [CasoAdmin.marcar_como_cerrado] *)
Definition marcar_como_cerrado (sel : list Z) : M string :=
  updated <- casos_update sel (Caso_set_estado CERRADO) ;;
  ret (str_nat updated ++ " casos marcados como cerrados.")%string.

(** [CasoAdmin.marcar_urgente] *)
Definition marcar_urgente (sel : list Z) : M string :=
  updated <- casos_update sel (Caso.set_urgente true) ;;
  ret (str_nat updated ++ " casos marcados como urgentes.")%string.

(** The test of [CasoAdmin.crear_alerta_vencimiento]:
    [caso.dias_hasta_vencimiento and caso.dias_hasta_vencimiento <= 7];
    [None] and [0] are both false for [and]. *)
Definition vence_pronto_admin (clk : Clock) (caso : Caso.t) : bool :=
  match Caso.dias_hasta_vencimiento clk caso with
  | Some dias => negb (dias =? 0) && (dias <=? 7)
  | None => false
  end.

(** Body of the loop of [CasoAdmin.crear_alerta_vencimiento].
    [medianoche] is how the database layer turns the date of
    [fecha_alerta__gte=timezone.now().date()] into a datetime. *)
Definition admin_crear_alerta_si_falta (clk : Clock)
    (medianoche : date -> datetime) (request_user : User.t) (caso : Caso.t)
    (alertas_creadas : nat) : M nat :=
  if vence_pronto_admin clk caso then
    p <- pk_de caso ;;
    w <- get_world ;;
    let alerta_existente :=
      existsb (fun a => (Alerta.caso a =? p)
                        && TipoAlerta_eqb (Alerta.tipo a) VENCIMIENTO
                        && (medianoche (datetime_date (timezone_now clk))
                              <=? Alerta.fecha_alerta a))
        (alertas w) in
    if negb alerta_existente then
      u <- User_objects_get (Caso.usuario_responsable caso) ;;
      Alerta_objects_create clk p VENCIMIENTO
        (MsgTexto ("El caso " ++ Caso.rol caso ++ " vence en "
                     ++ match Caso.dias_hasta_vencimiento clk caso with
                        | Some dias => str_Z dias
                        | None => "None"
                        end ++ " días."))
        (timezone_now clk + timedelta 0 1 0 0)
        (User.pk request_user) (Some (User.email u)) true ;;;
      ret (S alertas_creadas)
    else ret alertas_creadas
  else ret alertas_creadas.

(** [CasoAdmin.crear_alerta_vencimiento] on the ticked cases, in the
    admin's ordering (that of the model); the value is the text given to
    [message_user]. The action has no [try]: an exception leaves it. *)
Definition CasoAdmin_crear_alerta_vencimiento (clk : Clock)
    (medianoche : date -> datetime) (request_user : User.t) (sel : list Z)
  : M string :=
  w <- get_world ;;
  let queryset := order_by_meta (filter (caso_ticado sel) (casos w)) in
  alertas_creadas <- for_each queryset
                       (admin_crear_alerta_si_falta clk medianoche request_user)
                       O ;;
  ret (str_nat alertas_creadas ++ " alertas de vencimiento creadas.")%string.

(* ===================================================================== *)
(** ** Access checks (utils/decorators.py, views.py) *)

(** [request.user.is_staff]; the anonymous user is not staff. *)
Definition request_is_staff (u : RequestUser) : bool :=
  match u with
  | AnonymousUser => false
  | Authenticated user => User.is_staff user
  end.

(** [caso.usuario_responsable != request.user] *)
Definition distinto_de (responsable : User.t) (u : RequestUser) : bool :=
  match u with
  | AnonymousUser => true
  | Authenticated user => negb (User.pk responsable =? User.pk user)
  end.

(** [get_object_or_404(Caso, pk=caso_id)] *)
Definition get_caso_or_404 (pk : Z) : M Caso.t :=
  try_except (Caso_objects_get pk)
    (fun exc =>
       match exc with
       | Caso_DoesNotExist => raise (Http404 "No Caso matches the given query.")
       | _ => raise exc
       end).

(** [kwargs.get('pk') or kwargs.get('caso_pk')] *)
Definition kwargs_caso_id (pk caso_pk : option Z) : option Z :=
  if pk_truthy pk then pk else caso_pk.

(** The decorator [caso_owner_required] around [view_func], called with
    the URL arguments [pk] and [caso_pk]. *)
Definition caso_owner_required {A} (view_func : M A) (request_user : RequestUser)
    (pk caso_pk : option Z) : M A :=
  if request_is_staff request_user then view_func
  else
    let caso_id := kwargs_caso_id pk caso_pk in
    (if pk_truthy caso_id then
       match caso_id with
       | Some id =>
         caso <- get_caso_or_404 id ;;
         responsable <- User_objects_get (Caso.usuario_responsable caso) ;;
         if distinto_de responsable request_user
         then raise (PermissionDenied "No tienes permisos para acceder a este caso")
         else ret tt
       | None => ret tt
       end
     else ret tt) ;;;
    view_func.

(** [AlertaListView.get_queryset] for a logged-in user: the alerts joined
    with their case and their creator ([select_related], inner joins),
    those of the user's cases only unless the user is staff, latest
    [fecha_alerta] first. *)
Definition AlertaListView_get_queryset (user : User.t) (w : World)
  : list Alerta.t :=
  let queryset :=
    filter (fun a => existsb (tiene_pk (Alerta.caso a)) (casos w)
                     && existsb (fun u => User.pk u =? Alerta.usuario_creador a)
                          (users w))
      (alertas w) in
  let queryset :=
    if negb (User.is_staff user) then
      filter (fun a => existsb (fun c => tiene_pk (Alerta.caso a) c
                                         && (Caso.usuario_responsable c
                                               =? User.pk user))
                         (casos w))
        queryset
    else queryset in
  order_by_fecha_alerta_desc queryset.

(* ===================================================================== *)
(** ** [SubirDocumentoView.dispatch] (views.py) *)

(** [LoginRequiredMixin.dispatch]: an anonymous request is sent to the
    login page, any other goes on to the next [dispatch]. *)
Definition LoginRequiredMixin_dispatch (request_user : RequestUser)
    (super_dispatch : M HttpResponse) : M HttpResponse :=
  match request_user with
  | AnonymousUser => ret RedirectLogin
  | Authenticated _ => super_dispatch
  end.

(** The override of [dispatch] runs before the one of the mixin, which is
    its [super().dispatch]; [caso_pk] is [kwargs['caso_pk']]. The
    responsible user is read only when the user is not staff ([and]
    short-circuits). *)
Definition SubirDocumentoView_dispatch (request_user : RequestUser)
    (caso_pk : Z) (super_dispatch : M HttpResponse) : M HttpResponse :=
  caso <- get_caso_or_404 caso_pk ;;
  ajeno <-
    (if negb (request_is_staff request_user) then
       responsable <- User_objects_get (Caso.usuario_responsable caso) ;;
       ret (distinto_de responsable request_user)
     else ret false) ;;
  if ajeno then raise (Http404 "No tienes permisos para acceder a este caso")
  else LoginRequiredMixin_dispatch request_user super_dispatch.

(* ===================================================================== *)
(** ** The chart of coming due dates: [proximos_vencimientos_api] (views.py) *)

(** [order_by('fecha_vencimiento')]: earliest first, rows with the same
    date in table order. The rows it is applied to have a date (the filter
    before it drops NULL). *)
Definition vence_despues (a b : Caso.t) : bool :=
  match Caso.fecha_vencimiento a, Caso.fecha_vencimiento b with
  | Some fa, Some fb => fb <? fa
  | _, _ => false
  end.

Fixpoint insertar_por_vencimiento (c : Caso.t) (l : list Caso.t) : list Caso.t :=
  match l with
  | [] => [c]
  | x :: l' => if vence_despues c x then x :: insertar_por_vencimiento c l'
               else c :: l
  end.

Fixpoint order_by_fecha_vencimiento (l : list Caso.t) : list Caso.t :=
  match l with
  | [] => []
  | c :: l' => insertar_por_vencimiento c (order_by_fecha_vencimiento l')
  end.

(** The filter [estado='EN_TRAMITACION', fecha_vencimiento__gte=today,
    fecha_vencimiento__lte=fecha_limite]. *)
Definition vence_en_30_dias (clk : Clock) (c : Caso.t) : bool :=
  let fecha_limite := date_today clk + 30 in
  EstadoCaso_eqb (Caso.estado c) EN_TRAMITACION
  && match Caso.fecha_vencimiento c with
     | Some fv => (date_today clk <=? fv) && (fv <=? fecha_limite)
     | None => false
     end.

(** The queryset the view iterates over, sliced to ten rows. *)
Definition casos_del_grafico (clk : Clock) (user : User.t) (w : World)
  : list Caso.t :=
  let casos :=
    if User.is_staff user then casos w
    else filter (fun c => Caso.usuario_responsable c =? User.pk user) (casos w) in
  firstn 10 (order_by_fecha_vencimiento (filter (vence_en_30_dias clk) casos)).

(** The JSON object of the response; [data] holds what
    [dias_hasta_vencimiento] gave, [None] being JSON null. *)
Record JsonVencimientos := {
  js_labels : list string;
  js_data : list (option Z);
  js_backgroundColor : list string;
  js_borderColor : list string
}.

(** [None <= 3] is a [TypeError]. *)
Inductive ErrorDeTipo := NoneType_le_int.

Definition color_de_dias (dias : Z) : string :=
  if dias <=? 3 then "#dc3545"
  else if dias <=? 7 then "#ffc107"
  else "#28a745".

(** The loop of the view over its three lists. *)
Fixpoint bucle_grafico (clk : Clock) (l : list Caso.t)
    (acc : list string * list (option Z) * list string)
  : ErrorDeTipo + list string * list (option Z) * list string :=
  match l with
  | [] => inr acc
  | caso :: l' =>
    let '(labels, values, colors) := acc in
    let labels :=
      labels ++ [(Caso.rol caso ++ " - "
                    ++ hasta 30 (Caso.recurrente caso))%string] in
    let values := values ++ [Caso.dias_hasta_vencimiento clk caso] in
    match Caso.dias_hasta_vencimiento clk caso with
    | None => inl NoneType_le_int
    | Some dias => bucle_grafico clk l' (labels, values, colors ++ [color_de_dias dias])
    end
  end.

(** [proximos_vencimientos_api] for a logged-in user. *)
Definition proximos_vencimientos_api (clk : Clock) (user : User.t) (w : World)
  : ErrorDeTipo + JsonVencimientos :=
  match bucle_grafico clk (casos_del_grafico clk user w) ([], [], []) with
  | inl e => inl e
  | inr (labels, values, colors) =>
    inr {| js_labels := labels; js_data := values;
           js_backgroundColor := colors; js_borderColor := colors |}
  end.

(** Non-decreasing. *)
Fixpoint crecientes (l : list Z) : bool :=
  match l with
  | [] => true
  | a :: l' => forallb (fun b => a <=? b) l' && crecientes l'
  end.

(* ===================================================================== *)
(** ** The dashboard: [DashboardView.get_context_data] (views.py) *)

(** [order_by] on one column, as an insertion from the end of the table:
    [despues x y] says that [x] sorts strictly after [y]; rows that compare
    equal keep the order of the table. *)
Fixpoint insertar_por {A} (despues : A -> A -> bool) (x : A) (l : list A)
  : list A :=
  match l with
  | [] => [x]
  | y :: l' => if despues x y then y :: insertar_por despues x l' else x :: l
  end.

Fixpoint ordenar_por {A} (despues : A -> A -> bool) (l : list A) : list A :=
  match l with
  | [] => []
  | x :: l' => insertar_por despues x (ordenar_por despues l')
  end.

(** The entries of the template context that the view computes. *)
Record ContextoDashboard := {
  total_casos : nat;
  casos_abiertos : nat;
  casos_cerrados : nat;
  casos_urgentes : nat;
  proximos_vencimientos : list Caso.t;
  casos_vencidos : list Caso.t;
  alertas_pendientes : list Alerta.t;
  movimientos_recientes : list MovimientoCaso.t
}.

(** [estado='EN_TRAMITACION', fecha_vencimiento__lte=fecha_limite] *)
Definition vence_hasta (fecha_limite : date) (c : Caso.t) : bool :=
  EstadoCaso_eqb (Caso.estado c) EN_TRAMITACION
  && match Caso.fecha_vencimiento c with
     | Some fv => fv <=? fecha_limite
     | None => false
     end.

(** [estado='EN_TRAMITACION', fecha_vencimiento__lt=date.today()] *)
Definition vencido_abierto (clk : Clock) (c : Caso.t) : bool :=
  EstadoCaso_eqb (Caso.estado c) EN_TRAMITACION
  && match Caso.fecha_vencimiento c with
     | Some fv => fv <? date_today clk
     | None => false
     end.

(** [get_context_data] for a logged-in user. *)
Definition DashboardView_get_context_data (clk : Clock) (user : User.t)
    (w : World) : ContextoDashboard :=
  let casos_queryset :=
    if User.is_staff user then casos w
    else filter (fun c => Caso.usuario_responsable c =? User.pk user) (casos w) in
  let fecha_limite := date_today clk + 7 in
  let alertas_queryset :=
    if User.is_staff user then alertas w
    else filter (fun a => existsb (fun c => tiene_pk (Alerta.caso a) c
                                            && (Caso.usuario_responsable c
                                                  =? User.pk user))
                            (casos w))
           (alertas w) in
  {| total_casos := List.length casos_queryset;
     casos_abiertos :=
       List.length (filter (fun c => EstadoCaso_eqb (Caso.estado c) EN_TRAMITACION)
                      casos_queryset);
     casos_cerrados :=
       List.length (filter (fun c => EstadoCaso_eqb (Caso.estado c) CERRADO)
                      casos_queryset);
     casos_urgentes := List.length (filter Caso.urgente casos_queryset);
     proximos_vencimientos :=
       firstn 10 (order_by_fecha_vencimiento
                    (filter (vence_hasta fecha_limite) casos_queryset));
     casos_vencidos :=
       firstn 5 (order_by_fecha_vencimiento
                   (filter (vencido_abierto clk) casos_queryset));
     alertas_pendientes :=
       firstn 5 (ordenar_por
                   (fun a b => Alerta.fecha_alerta b <? Alerta.fecha_alerta a)
                   (filter (fun a => negb (Alerta.enviada a)
                                     && negb (Alerta.leida a))
                      alertas_queryset));
     movimientos_recientes :=
       firstn 10 (ordenar_por
                    (fun a b => MovimientoCaso.fecha_movimiento a
                                <? MovimientoCaso.fecha_movimiento b)
                    (filter (fun m => existsb (tiene_pk (MovimientoCaso.caso m))
                                        casos_queryset)
                       (movimientos w))) |}.

(* ===================================================================== *)
(** ** The management command [enviar_alertas] *)

(** [Command.handle]. The two tasks are called as plain functions, one
    after the other, each reading the clock when it runs. The value pairs
    the ids handed to the queue with the lines written to [stdout]. The
    option [--force] is declared and never read. *)
Definition Command_handle (clk_crear clk_revisar : Clock)
    (crear_nuevas force : bool) : M (list Z * list string) :=
  let stdout := ["Iniciando proceso de alertas..."%string] in
  stdout <-
    (if crear_nuevas then
       let stdout := stdout ++ ["Creando nuevas alertas automáticas..."%string] in
       resultado <- crear_alertas_vencimiento clk_crear ;;
       ret (stdout ++ [("Resultado: " ++ resultado)%string])
     else ret stdout) ;;
  let stdout := stdout ++ ["Enviando alertas pendientes..."%string] in
  p <- revisar_alertas_pendientes clk_revisar ;;
  let stdout := stdout ++ [("Resultado: " ++ snd p)%string] in
  ret (fst p, stdout ++ ["Proceso de alertas completado"%string]).

(** [admin_view_casos_urgentes]: the two computed entries of its context. *)
Record ResumenAdmin := {
  ra_casos_urgentes : list Caso.t;
  ra_alertas_pendientes : nat
}.

Definition admin_view_casos_urgentes (clk : Clock) (w : World) : ResumenAdmin :=
  {| ra_casos_urgentes :=
       firstn 10 (order_by_fecha_vencimiento
                    (filter (vence_hasta (date_today clk + 7)) (casos w)));
     ra_alertas_pendientes :=
       List.length (filter (fun a => negb (Alerta.enviada a)
                                     && (Alerta.fecha_alerta a <=? timezone_now clk))
                      (alertas w)) |}.

(* ===================================================================== *)
(** ** [EmailManager.enviar_alerta_caso] (core/email.py) *)

(** [EmailMessage.send()]: with no non-empty recipient nothing is handed to
    the backend and the value is 0; otherwise the message goes to the
    backend, whose refusal is raised. *)
Definition EmailMessage_send (smtp : Smtp) (e : Email) : M nat :=
  if forallb (fun r => negb (str_truthy r)) (recipient_list e) then ret O
  else send_mail smtp e ;;; ret 1%nat.

(** The message [EmailManager.enviar_alerta_caso] builds. *)
Definition email_de_manager (clk : Clock) (alerta : Alerta.t) (caso : Caso.t)
    (to_email : string) : Email :=
  {| subject := ("🔔 Alerta: " ++ get_tipo_alerta_display (Alerta.tipo alerta)
                   ++ " - " ++ Caso.rol caso)%string;
     plantillas := ["emails/alerta.txt"; "emails/alerta.html"]%string;
     ctx_alerta := Alerta.pk alerta;
     ctx_caso := Caso.pk caso;
     ctx_dias_vencimiento := Caso.dias_hasta_vencimiento clk caso;
     recipient_list := [to_email] |}.

(** [EmailManager.enviar_alerta_caso(alerta)]: [True] when the body ran to
    its end, [False] when anything in it raised. Rendering the templates is
    taken to succeed, as in the task. *)
Definition EmailManager_enviar_alerta_caso (clk : Clock) (smtp : Smtp)
    (alerta : Alerta.t) : M bool :=
  try_except
    (caso <- Caso_objects_get (Alerta.caso alerta) ;;
     to_email <- resolver_destinatario alerta caso ;;
     EmailMessage_send smtp (email_de_manager clk alerta caso to_email) ;;;
     ret true)
    (fun _ => ret false).

(* ===================================================================== *)
(** ** [AlertaAdmin.save_model] (admin.py) *)

Definition Alerta_set_usuario_creador (u : Z) (a : Alerta.t) : Alerta.t :=
  Alerta.mk (Alerta.pk a) (Alerta.caso a) (Alerta.tipo a) (Alerta.mensaje a)
    (Alerta.fecha_alerta a) (Alerta.enviada a) (Alerta.fecha_envio a)
    (Alerta.leida a) (Alerta.enviar_email a) (Alerta.email_destinatario a)
    (Alerta.fecha_creacion a) u.

Definition Alerta_set_email_destinatario (e : option string) (a : Alerta.t)
  : Alerta.t :=
  Alerta.mk (Alerta.pk a) (Alerta.caso a) (Alerta.tipo a) (Alerta.mensaje a)
    (Alerta.fecha_alerta a) (Alerta.enviada a) (Alerta.fecha_envio a)
    (Alerta.leida a) (Alerta.enviar_email a) e
    (Alerta.fecha_creacion a) (Alerta.usuario_creador a).

(** What [save_model] does to the instance before it calls
    [super().save_model]: on a creation the acting user becomes the
    creator and a missing recipient is filled from the responsible user of
    the case. *)
Definition AlertaAdmin_preparar (request_user : User.t) (obj : Alerta.t)
    (change : bool) : M Alerta.t :=
  if negb change then
    let obj := Alerta_set_usuario_creador (User.pk request_user) obj in
    if sin_destinatario_propio obj then
      caso <- Caso_objects_get (Alerta.caso obj) ;;
      u <- User_objects_get (Caso.usuario_responsable caso) ;;
      ret (Alerta_set_email_destinatario (Some (User.email u)) obj)
    else ret obj
  else ret obj.

(** [AlertaAdmin.save_model]; [super_save_model] is the [save_model] of
    [ModelAdmin], which saves the instance it is given. *)
Definition AlertaAdmin_save_model (request_user : User.t) (obj : Alerta.t)
    (change : bool) (super_save_model : Alerta.t -> M unit) : M Alerta.t :=
  obj <- AlertaAdmin_preparar request_user obj change ;;
  super_save_model obj ;;;
  ret obj.

(* ===================================================================== *)
(** ** Vocabulary for the scans and the alert table *)

(** The filter of [revisar_alertas_pendientes]. *)
Definition pendiente_de_envio (clk : Clock) (a : Alerta.t) : bool :=
  negb (Alerta.enviada a) && Alerta.enviar_email a
  && (Alerta.fecha_alerta a <=? timezone_now clk).

(** The ids a scan hands to the queue. *)
Definition encoladas (clk : Clock) (w : World) : list Z :=
  match fst (revisar_alertas_pendientes clk w) with
  | Ok p => fst p
  | Raise _ => []
  end.

(** An alert row is sent exactly when it has a sending time. *)
Definition envio_coherente (a : Alerta.t) : bool :=
  Bool.eqb (Alerta.enviada a)
    (match Alerta.fecha_envio a with Some _ => true | None => false end).

Definition coherente (w : World) : bool := forallb envio_coherente (alertas w).

(** The computation [m] changes the alert table by appending rows that
    satisfy [P], and nothing else of it. *)
Definition anexa {A} (P : Alerta.t -> Prop) (m : M A) : Prop :=
  forall w r w',
    m w = (r, w') ->
    exists nuevas, alertas w' = alertas w ++ nuevas /\ Forall P nuevas.

(** A row as [Alerta.objects.create] leaves the columns it is not given. *)
Definition recien_creada (a : Alerta.t) : Prop :=
  Alerta.enviada a = false /\ Alerta.fecha_envio a = None
  /\ Alerta.leida a = false.

(** The test [alerta_existente] of [CasoAdmin.crear_alerta_vencimiento]. *)
Definition cubierta (clk : Clock) (medianoche : date -> datetime) (p : Z)
    (w : World) : bool :=
  existsb (fun a => (Alerta.caso a =? p)
                    && TipoAlerta_eqb (Alerta.tipo a) VENCIMIENTO
                    && (medianoche (datetime_date (timezone_now clk))
                          <=? Alerta.fecha_alerta a))
    (alertas w).

(** What an alert made by [CasoAdmin.crear_alerta_vencimiento] over the
    cases [l] looks like. *)
Definition hecha_por_admin (clk : Clock) (request_user : User.t)
    (l : list Caso.t) (a : Alerta.t) : Prop :=
  exists c,
    In c l
    /\ Caso.pk c = Some (Alerta.caso a)
    /\ vence_pronto_admin clk c = true
    /\ Alerta.tipo a = VENCIMIENTO
    /\ Alerta.fecha_alerta a = timezone_now clk + timedelta 0 1 0 0
    /\ Alerta.usuario_creador a = User.pk request_user
    /\ Alerta.enviar_email a = true
    /\ recien_creada a.

(** Latest [fecha_alerta] first. *)
Fixpoint ordenadas_desc (l : list Alerta.t) : bool :=
  match l with
  | [] => true
  | a :: l' =>
    forallb (fun b => Alerta.fecha_alerta b <=? Alerta.fecha_alerta a) l'
    && ordenadas_desc l'
  end.

(** The days left of a case that has a due date. *)
Definition dias_de (clk : Clock) (c : Caso.t) : Z :=
  match Caso.dias_hasta_vencimiento clk c with
  | Some dias => dias
  | None => 0
  end.

(** The label the chart gives a case. *)
Definition etiqueta (c : Caso.t) : string :=
  (Caso.rol c ++ " - " ++ hasta 30 (Caso.recurrente c))%string.

(** An unsent alert that is due and does not ask for email. *)
Definition pendiente_sin_email (clk : Clock) (a : Alerta.t) : bool :=
  negb (Alerta.enviada a) && (Alerta.fecha_alerta a <=? timezone_now clk)
  && negb (Alerta.enviar_email a).

(* ===================================================================== *)
(** * Properties *)

(** ** Saving a case *)

Section GuardarCaso.

Variable clk : Clock.

Lemma set_urgente_campos b c :
  Caso.pk (Caso.set_urgente b c) = Caso.pk c
  /\ Caso.rol (Caso.set_urgente b c) = Caso.rol c
  /\ Caso.fecha_vencimiento (Caso.set_urgente b c) = Caso.fecha_vencimiento c
  /\ Caso.urgente (Caso.set_urgente b c) = b.
Proof. now repeat split. Qed.

(** What the pre-save steps compute: the receiver has the last word. *)
Lemma Caso_pre_save_con_fecha self d :
  Caso.fecha_vencimiento self = Some d ->
  Caso_pre_save clk self
  = Caso.set_urgente (d - datetime_date (timezone_now clk) <=? 7) self.
Proof.
  intros H. unfold Caso_pre_save, Caso_save_urgente, marcar_urgente_automatico.
  rewrite H. cbn. rewrite H. reflexivity.
Qed.

Lemma Caso_pre_save_sin_fecha self :
  Caso.fecha_vencimiento self = None -> Caso_pre_save clk self = self.
Proof.
  intros H. unfold Caso_pre_save, Caso_save_urgente, marcar_urgente_automatico.
  now rewrite H, H.
Qed.

(** The receivers of [post_save] write no case row. *)
Lemma crear_movimiento_inicial_casos inst created w :
  casos (snd (crear_movimiento_inicial clk inst created w)) = casos w.
Proof.
  unfold crear_movimiento_inicial, pk_de, User_objects_get, objects_get,
    bind, get_world, ret, raise.
  destruct created; [|reflexivity].
  destruct (Caso.pk inst); [|reflexivity].
  destruct (filter _ (users w)) as [|u [|u' l]]; reflexivity.
Qed.

Lemma crear_alerta_automatica_casos inst created w :
  casos (snd (crear_alerta_automatica clk inst created w)) = casos w.
Proof.
  unfold crear_alerta_automatica, pk_de, User_objects_get, objects_get,
    bind, get_world, ret, raise.
  destruct created; [|reflexivity]. cbn [negb].
  destruct (Caso.fecha_vencimiento inst); [|reflexivity].
  destruct (EstadoCaso_eqb _ _); [|reflexivity].
  destruct (_ <=? 7); [|reflexivity].
  destruct (Caso.pk inst); [|reflexivity].
  destruct (filter _ (users w)) as [|u [|u' l]]; reflexivity.
Qed.

(** The pre-save steps touch the flag only. *)
Lemma Caso_pre_save_campos self :
  Caso.pk (Caso_pre_save clk self) = Caso.pk self
  /\ Caso.rol (Caso_pre_save clk self) = Caso.rol self
  /\ Caso.fecha_vencimiento (Caso_pre_save clk self) = Caso.fecha_vencimiento self
  /\ Caso.usuario_responsable (Caso_pre_save clk self)
     = Caso.usuario_responsable self.
Proof.
  destruct (Caso.fecha_vencimiento self) as [d|] eqn:Hd.
  - rewrite (Caso_pre_save_con_fecha self d Hd). cbn. now rewrite Hd.
  - rewrite (Caso_pre_save_sin_fecha self Hd). now rewrite Hd.
Qed.

(** The table write accepts an instance with a due date, a free rol and a
    stored responsible user, and stores it with the flag it carries. *)
Lemma caso_save_table_acepta c d w :
  Caso.fecha_vencimiento c = Some d ->
  rol_en_uso w (Caso.rol c) (Caso.pk c) = false ->
  usuario_almacenado w (Caso.usuario_responsable c) = true ->
  exists fila created w1,
    caso_save_table clk c w = (Ok (fila, created), w1)
    /\ In fila (casos w1)
    /\ Caso.rol fila = Caso.rol c
    /\ Caso.fecha_vencimiento fila = Some d
    /\ Caso.urgente fila = Caso.urgente c.
Proof.
  intros Hd Hrol Hu. unfold caso_save_table. rewrite Hd, Hrol, Hu.
  cbn [negb orb].
  destruct (Caso.pk c) as [p|] eqn:Hpk.
  - destruct (existsb (tiene_pk p) (casos w)) eqn:Hex.
    + eexists _, false, _. split; [reflexivity|]. cbn.
      repeat split; try assumption.
      apply existsb_exists in Hex. destruct Hex as [x [Hin Hx]].
      apply in_map_iff. exists x. now rewrite Hx.
    + eexists _, true, _. split; [reflexivity|]. cbn.
      repeat split; try assumption. apply in_or_app. right. now left.
  - eexists _, true, _. split; [reflexivity|]. cbn.
    repeat split; try assumption. apply in_or_app. right. now left.
Qed.

(** It refuses every other instance and writes nothing. *)
Lemma caso_save_table_rechaza c w :
  Caso.fecha_vencimiento c = None
  \/ rol_en_uso w (Caso.rol c) (Caso.pk c) = true
  \/ usuario_almacenado w (Caso.usuario_responsable c) = false ->
  caso_save_table clk c w = (Raise IntegrityError, w).
Proof.
  unfold caso_save_table. intros [H|[H|H]].
  - now rewrite H.
  - rewrite H. now destruct (Caso.fecha_vencimiento c).
  - rewrite H, orb_true_r. now destruct (Caso.fecha_vencimiento c).
Qed.

(** A table whose rows all have a due date stays so. *)
Lemma caso_save_table_con_fecha c w r w1 :
  caso_save_table clk c w = (r, w1) ->
  (forall x, In x (casos w) -> Caso.fecha_vencimiento x <> None) ->
  forall x, In x (casos w1) -> Caso.fecha_vencimiento x <> None.
Proof.
  unfold caso_save_table. intros E Hw.
  destruct (Caso.fecha_vencimiento c) as [d|] eqn:Hd;
    [|injection E as _ <-; exact Hw].
  destruct (rol_en_uso w _ _ || _); [injection E as _ <-; exact Hw|].
  destruct (Caso.pk c) as [p|]; [destruct (existsb _ (casos w))|];
    injection E as _ <-; cbn [casos with_casos]; intros x Hx.
  - apply in_map_iff in Hx. destruct Hx as (y & Hy & Hin).
    destruct (tiene_pk p y); [|subst x; now apply Hw].
    subst x. cbn. rewrite Hd. discriminate.
  - apply in_app_or in Hx. destruct Hx as [Hx|[<-|[]]]; [now apply Hw|].
    cbn. rewrite Hd. discriminate.
  - apply in_app_or in Hx. destruct Hx as [Hx|[<-|[]]]; [now apply Hw|].
    cbn. rewrite Hd. discriminate.
Qed.

End GuardarCaso.

(** Whatever the receivers do after the write, the case table is the one
    the write left. *)
Lemma Caso_save_casos clk self fila created w w1 :
  caso_save_table clk (Caso_pre_save clk self) w = (Ok (fila, created), w1) ->
  casos (snd (Caso_save clk self w)) = casos w1
  /\ forall self', fst (Caso_save clk self w) = Ok self' -> self' = fila.
Proof.
  intros H.
  assert (E : Caso_save clk self w
              = match crear_movimiento_inicial clk fila created w1 with
                | (Ok _, w2) =>
                  match crear_alerta_automatica clk fila created w2 with
                  | (Ok _, w3) => (Ok fila, w3)
                  | (Raise e, w3) => (Raise e, w3)
                  end
                | (Raise e, w2) => (Raise e, w2)
                end).
  { unfold Caso_save, bind. rewrite H. cbn [fst snd].
    destruct (crear_movimiento_inicial clk fila created w1) as [[u|e] w2];
      [|reflexivity].
    destruct (crear_alerta_automatica clk fila created w2) as [[u'|e] w3];
      reflexivity. }
  rewrite E.
  pose proof (crear_movimiento_inicial_casos clk fila created w1) as Hm.
  destruct (crear_movimiento_inicial clk fila created w1) as [[u|e] w2];
    cbn [snd] in Hm.
  - pose proof (crear_alerta_automatica_casos clk fila created w2) as Ha.
    destruct (crear_alerta_automatica clk fila created w2) as [[u'|e] w3];
      cbn [snd] in Ha; cbn; split; congruence.
  - cbn. split; [assumption|discriminate].
Qed.

(** The save stops at a refused write: no receiver runs. *)
Lemma Caso_save_rechazado clk self w :
  caso_save_table clk (Caso_pre_save clk self) w = (Raise IntegrityError, w) ->
  Caso_save clk self w = (Raise IntegrityError, w).
Proof. intros H. unfold Caso_save, bind. now rewrite H. Qed.

(** Whatever the receivers do, the rows of the case table keep having a
    due date. *)
Lemma Caso_save_con_fecha clk self w :
  (forall x, In x (casos w) -> Caso.fecha_vencimiento x <> None) ->
  forall x, In x (casos (snd (Caso_save clk self w))) ->
            Caso.fecha_vencimiento x <> None.
Proof.
  intros Hw.
  destruct (caso_save_table clk (Caso_pre_save clk self) w)
    as [[[fila created]|e] w1] eqn:E.
  - destruct (Caso_save_casos clk self fila created w w1 E) as [-> _].
    exact (caso_save_table_con_fecha clk _ _ _ _ E Hw).
  - unfold Caso_save, bind. rewrite E. cbn [snd].
    exact (caso_save_table_con_fecha clk _ _ _ _ E Hw).
Qed.

(** C4. A save that the table accepts (due date [d] on the instance, a
    rol no other row holds, a stored responsible user) stores a row that
    carries [urgente = (d - today).days <= 7], where today is the date of
    [timezone.now()] that the pre-save receiver reads; this is also the
    value [Caso.save] itself computes when [date.today()] is the same day.
    Any other save is refused with [IntegrityError] and writes nothing; in
    particular an instance without due date is never stored (and keeps the
    flag it had). So on a table whose rows all have a due date, as the
    column demands, every row still has one after a save: no stored row
    has a null due date and a flag that is not false. *)
Theorem Caso_save_recalcula_urgente :
  forall clk self w,
    (forall d,
        Caso.fecha_vencimiento self = Some d ->
        rol_en_uso w (Caso.rol self) (Caso.pk self) = false ->
        usuario_almacenado w (Caso.usuario_responsable self) = true ->
        exists fila,
          In fila (casos (snd (Caso_save clk self w)))
          /\ Caso.rol fila = Caso.rol self
          /\ Caso.fecha_vencimiento fila = Some d
          /\ Caso.urgente fila = (d - datetime_date (timezone_now clk) <=? 7)
          /\ (forall self', fst (Caso_save clk self w) = Ok self' -> self' = fila)
          /\ (date_today clk = datetime_date (timezone_now clk) ->
              Caso.urgente fila = Caso.urgente (Caso_save_urgente clk self)))
    /\ (Caso.fecha_vencimiento self = None
        \/ rol_en_uso w (Caso.rol self) (Caso.pk self) = true
        \/ usuario_almacenado w (Caso.usuario_responsable self) = false ->
        Caso_save clk self w = (Raise IntegrityError, w))
    /\ (Caso.fecha_vencimiento self = None ->
        Caso.urgente (Caso_pre_save clk self) = Caso.urgente self)
    /\ ((forall c, In c (casos w) -> Caso.fecha_vencimiento c <> None) ->
        forall c,
          In c (casos (snd (Caso_save clk self w))) ->
          Caso.fecha_vencimiento c <> None
          /\ (Caso.fecha_vencimiento c = None -> Caso.urgente c = false)).
Proof.
  intros clk self w.
  destruct (Caso_pre_save_campos clk self) as (Hppk & Hprol & Hpfv & Hpus).
  split; [|split; [|split]].
  - intros d Hd Hrol Hus.
    pose proof (Caso_pre_save_con_fecha clk self d Hd) as Hpre.
    destruct (caso_save_table_acepta clk (Caso_pre_save clk self) d w)
      as (fila & created & w1 & Hsave & Hin & Hr & Hf & Hu).
    + now rewrite Hpfv.
    + now rewrite Hprol, Hppk.
    + now rewrite Hpus.
    + destruct (Caso_save_casos clk self fila created w w1 Hsave) as [Hc Hret].
      exists fila. rewrite Hc. rewrite Hpre in Hr, Hu. cbn in Hr, Hu.
      repeat split; try assumption.
      intros Hhoy. rewrite Hu. unfold Caso_save_urgente. rewrite Hd. cbn.
      now rewrite Hhoy.
  - intros H. apply Caso_save_rechazado, caso_save_table_rechaza.
    now rewrite Hpfv, Hprol, Hppk, Hpus.
  - intros Hn. now rewrite (Caso_pre_save_sin_fecha clk self Hn).
  - intros Hw c Hc. pose proof (Caso_save_con_fecha clk self w Hw c Hc) as Hf.
    split; [exact Hf|]. intros Hnone. contradiction.
Qed.

(** ** Creating a case *)

Lemma filter_nada {A} (f : A -> bool) (l : list A) :
  (forall x, In x l -> f x = false) -> filter f l = [].
Proof.
  induction l as [|a l IH]; intros H; [reflexivity|].
  cbn. rewrite (H a (or_introl eq_refl)). apply IH.
  intros x Hx. apply H. now right.
Qed.

Lemma option_Z_eqb_eq a b : option_Z_eqb a b = true <-> a = b.
Proof.
  destruct a as [x|], b as [y|]; cbn; split; intros H;
    try discriminate; try reflexivity.
  - apply Z.eqb_eq in H. now subst.
  - injection H as ->. apply Z.eqb_refl.
Qed.

(** A stored pk is below the sequence. *)
Lemma pk_almacenado_menor w p :
  pks_bajo_secuencia w = true ->
  existsb (tiene_pk p) (casos w) = true -> p < next_caso_pk w.
Proof.
  unfold pks_bajo_secuencia. intros Hs Hex.
  apply existsb_exists in Hex. destruct Hex as [c [Hin Hc]].
  rewrite forallb_forall in Hs. specialize (Hs c Hin).
  unfold tiene_pk in Hc. apply option_Z_eqb_eq in Hc. rewrite Hc in Hs.
  now apply Z.ltb_lt.
Qed.

(** Nothing refers yet to the pk the sequence gives next. *)
Lemma siguiente_pk_sin_referencias w :
  pks_bajo_secuencia w = true -> fk_ok w = true ->
  movimientos_de (next_caso_pk w) w = []
  /\ forall t, alertas_de (next_caso_pk w) t w = [].
Proof.
  intros Hs Hfk. unfold fk_ok in Hfk. apply andb_true_iff in Hfk.
  destruct Hfk as [Hm Ha]. rewrite forallb_forall in Hm, Ha. split.
  - apply filter_nada. intros m Hin.
    pose proof (pk_almacenado_menor w _ Hs (Hm m Hin)). apply Z.eqb_neq. lia.
  - intros t. apply filter_nada. intros a Hin.
    pose proof (pk_almacenado_menor w _ Hs (Ha a Hin)).
    apply andb_false_iff. left. apply Z.eqb_neq. lia.
Qed.

(** The user lookup reads the users table only. *)
Lemma User_objects_get_users id u w w1 :
  users w1 = users w ->
  User_objects_get id w = (Ok u, w) -> User_objects_get id w1 = (Ok u, w1).
Proof.
  unfold User_objects_get, objects_get, bind, get_world, ret, raise.
  intros ->. destruct (filter _ (users w)) as [|x [|y l]]; intros H;
    try discriminate. now injection H as ->.
Qed.

(** A user the lookup finds is a stored user. *)
Lemma User_objects_get_almacenado id u w :
  User_objects_get id w = (Ok u, w) -> usuario_almacenado w id = true.
Proof.
  unfold User_objects_get, objects_get, bind, get_world, ret, raise,
    usuario_almacenado.
  destruct (filter _ (users w)) as [|x l] eqn:Hf; [discriminate|]. intros _.
  assert (Hin : In x (filter (fun u => User.pk u =? id) (users w)))
    by (rewrite Hf; now left).
  apply filter_In in Hin. apply existsb_exists. now exists x.
Qed.

(** C6. Saving a new instance (no pk) that the table accepts, for an
    existing responsible user, returns the stored case with the next pk;
    afterwards the case has exactly one movement, flagged important and
    described by the case type and the first 100 characters of the
    subject-matter; and it has exactly one VENCIMIENTO alert, the one of the
    post-save receiver, when the due date is at most 7 days ahead and the
    status is EN_TRAMITACION, and none otherwise. *)
Theorem Caso_creado_movimiento_y_alerta :
  forall clk self w d u,
    pks_bajo_secuencia w = true ->
    fk_ok w = true ->
    Caso.pk self = None ->
    Caso.fecha_vencimiento self = Some d ->
    rol_en_uso w (Caso.rol self) None = false ->
    User_objects_get (Caso.usuario_responsable self) w = (Ok u, w) ->
    exists self' w',
      Caso_save clk self w = (Ok self', w')
      /\ Caso.pk self' = Some (next_caso_pk w)
      /\ In self' (casos w')
      /\ (exists m,
             movimientos_de (next_caso_pk w) w' = [m]
             /\ MovimientoCaso.importante m = true
             /\ MovimientoCaso.descripcion m
                = ("Caso creado: " ++ get_tipo_caso_display (Caso.tipo self)
                     ++ " - " ++ hasta 100 (Caso.materia self))%string)
      /\ (if (d - datetime_date (timezone_now clk) <=? 7)
             && EstadoCaso_eqb (Caso.estado self) EN_TRAMITACION
          then exists a,
              alertas_de (next_caso_pk w) VENCIMIENTO w' = [a]
              /\ Alerta.fecha_alerta a = timezone_now clk + timedelta 0 1 0 0
              /\ Alerta.email_destinatario a = Some (User.email u)
              /\ Alerta.enviada a = false
          else alertas_de (next_caso_pk w) VENCIMIENTO w' = []).
Proof.
  intros clk self w d u Hs Hfk Hpk Hd Hrol Hu.
  destruct (siguiente_pk_sin_referencias w Hs Hfk) as [Hmov Hal].
  pose proof (Caso_pre_save_con_fecha clk self d Hd) as Hpre.
  set (p := next_caso_pk w) in *.
  set (ahora := timezone_now clk) in *.
  set (fila := Caso.set_pk p (Caso.set_fechas ahora ahora (Caso_pre_save clk self))).
  set (w1 := with_casos (casos w ++ [fila]) (p + 1) w).
  assert (Htab : caso_save_table clk (Caso_pre_save clk self) w
                 = (Ok (fila, true), w1)).
  { unfold caso_save_table. rewrite Hpre. cbn.
    rewrite Hd, Hpk, Hrol, (User_objects_get_almacenado _ u w Hu).
    subst fila w1 ahora p. rewrite Hpre. reflexivity. }
  set (m := MovimientoCaso.mk (next_movimiento_pk w) p ahora
              ("Caso creado: " ++ get_tipo_caso_display (Caso.tipo self)
                 ++ " - " ++ hasta 100 (Caso.materia self))%string
              (User.pk u) true).
  set (w2 := with_movimientos (movimientos w1 ++ [m]) (next_movimiento_pk w1 + 1) w1).
  assert (Hmi : crear_movimiento_inicial clk fila true w1 = (Ok tt, w2)).
  { unfold crear_movimiento_inicial, bind at 1. cbn [pk_de fila Caso.pk Caso.set_pk ret].
    unfold bind at 1.
    replace (Caso.usuario_responsable fila) with (Caso.usuario_responsable self)
      by (subst fila; rewrite Hpre; reflexivity).
    rewrite (User_objects_get_users _ u w w1 eq_refl Hu).
    unfold bind, MovimientoCaso_objects_create, ret. subst fila.
    rewrite Hpre. reflexivity. }
  assert (Hfila : Caso.pk fila = Some p /\ Caso.fecha_vencimiento fila = Some d
                  /\ Caso.estado fila = Caso.estado self
                  /\ Caso.usuario_responsable fila = Caso.usuario_responsable self
                  /\ Caso.rol fila = Caso.rol self).
  { subst fila. rewrite Hpre. now repeat split. }
  destruct Hfila as (Hfpk & Hfd & Hfe & Hfu & Hfr).
  assert (Hm2 : movimientos_de p w2 = [m]).
  { unfold movimientos_de in *. cbn. rewrite filter_app, Hmov. cbn.
    now rewrite Z.eqb_refl. }
  destruct ((d - datetime_date ahora <=? 7)
            && EstadoCaso_eqb (Caso.estado self) EN_TRAMITACION) eqn:Hcond.
  - apply andb_true_iff in Hcond. destruct Hcond as [Hdias Hest].
    set (a := Alerta.mk (next_alerta_pk w) p VENCIMIENTO
                (MsgVenceSignal (Caso.rol self) (d - datetime_date ahora) d)
                (ahora + timedelta 0 1 0 0) false None false true
                (Some (User.email u)) ahora (User.pk u)).
    set (w3 := with_alertas (alertas w2 ++ [a]) (next_alerta_pk w2 + 1) w2).
    assert (Hca : crear_alerta_automatica clk fila true w2 = (Ok tt, w3)).
    { unfold crear_alerta_automatica. cbn [negb].
      rewrite Hfd, Hfe, Hest. fold ahora. rewrite Hdias.
      unfold bind at 1, pk_de. rewrite Hfpk. unfold ret at 1.
      unfold bind at 1. rewrite Hfu.
      rewrite (User_objects_get_users _ u w w2 eq_refl Hu).
      unfold bind, Alerta_objects_create, ret. rewrite Hfr. reflexivity. }
    exists fila, w3. split.
    { unfold Caso_save, bind. rewrite Htab. cbn [fst snd]. rewrite Hmi, Hca.
      reflexivity. }
    split; [assumption|]. split.
    { cbn. apply in_or_app. right. now left. }
    split.
    { exists m. repeat split. exact Hm2. }
    exists a. repeat split.
    unfold alertas_de in *. cbn. rewrite filter_app, Hal. cbn.
    now rewrite Z.eqb_refl.
  - assert (Hca : crear_alerta_automatica clk fila true w2 = (Ok tt, w2)).
    { unfold crear_alerta_automatica. cbn [negb]. rewrite Hfd, Hfe.
      apply andb_false_iff in Hcond. destruct Hcond as [Hc|Hc].
      - destruct (EstadoCaso_eqb _ _); [|reflexivity]. fold ahora.
        now rewrite Hc.
      - now rewrite Hc. }
    exists fila, w2. split.
    { unfold Caso_save, bind. rewrite Htab. cbn [fst snd]. rewrite Hmi, Hca.
      reflexivity. }
    split; [assumption|]. split.
    { cbn. apply in_or_app. right. now left. }
    split.
    { exists m. repeat split. exact Hm2. }
    unfold alertas_de in *. cbn. apply Hal.
Qed.

(** ** Sending an alert *)

(** The lookups only read. *)
Lemma objects_get_lee {A} (tabla : list A) f e w r w' :
  objects_get tabla f e w = (r, w') ->
  w' = w /\ (forall x, r = Ok x -> filter f tabla = [x]).
Proof.
  unfold objects_get, ret, raise.
  destruct (filter f tabla) as [|x [|y l]]; intros H; injection H as <- <-;
    split; try reflexivity; intros z Hz; try discriminate.
  now injection Hz as ->.
Qed.

Lemma Alerta_objects_get_lee id w r w' :
  Alerta_objects_get id w = (r, w') ->
  w' = w /\ (forall a, r = Ok a ->
                       filter (fun a => Alerta.pk a =? id) (alertas w) = [a]).
Proof. unfold Alerta_objects_get, bind, get_world. apply objects_get_lee. Qed.

Lemma Caso_objects_get_lee id w r w' :
  Caso_objects_get id w = (r, w') -> w' = w.
Proof.
  unfold Caso_objects_get, bind, get_world. intros H.
  now apply objects_get_lee in H.
Qed.

Lemma User_objects_get_lee id w r w' :
  User_objects_get id w = (r, w') -> w' = w.
Proof.
  unfold User_objects_get, bind, get_world. intros H.
  now apply objects_get_lee in H.
Qed.

Lemma resolver_destinatario_lee alerta caso w r w' :
  resolver_destinatario alerta caso w = (r, w') -> w' = w.
Proof.
  unfold resolver_destinatario, bind, ret.
  destruct (Alerta.email_destinatario alerta) as [e|];
    [destruct (str_truthy e); [intros H; now injection H|]|];
    destruct (User_objects_get _ w) as [[u|x] w1] eqn:Hu;
    apply User_objects_get_lee in Hu; subst w1; intros H; now injection H.
Qed.

(** A row found by pk is in the table and has that pk. *)
Lemma filter_unico_in {A} (f : A -> bool) l x :
  filter f l = [x] -> In x l /\ f x = true.
Proof.
  intros H. apply filter_In. rewrite H. now left.
Qed.

(** The [except] clauses of [enviar_email_alerta] write nothing. *)
Lemma manejar_error_mundo retries exc w : snd (manejar_error retries exc w) = w.
Proof.
  unfold manejar_error, ret, raise.
  destruct exc; try reflexivity; destruct (retries <? max_retries)%nat; reflexivity.
Qed.

(** The two ways an execution ends without touching the alert table: by
    returning a text, or through the [except] clauses ([Hman] says those
    write nothing). *)
Ltac sale_con_texto :=
  let H := fresh in
  cbn; intros H; injection H as <- <-; repeat split; now left.

Ltac sale_por_manejador Hman :=
  let H := fresh in
  intros H; apply Hman in H; subst; cbn; repeat split; now left.

(** One execution leaves users, cases and movements alone; on the alert
    table it either writes nothing or marks the rows of an alert that was
    stored unsent. *)
Lemma enviar_email_alerta_mundo clk smtp retries id w r w' :
  enviar_email_alerta clk smtp retries id w = (r, w') ->
  users w' = users w /\ casos w' = casos w /\ movimientos w' = movimientos w
  /\ (alertas w' = alertas w
      \/ exists alerta,
          Alerta_objects_get id w = (Ok alerta, w)
          /\ Alerta.enviada alerta = false
          /\ alertas w' = marcar_filas clk id (alertas w)).
Proof.
  assert (Hman : forall e w0, manejar_error retries e w0 = (r, w') -> w' = w0).
  { intros e w0 H. pose proof (manejar_error_mundo retries e w0) as Hm.
    now rewrite H in Hm. }
  unfold enviar_email_alerta, try_except, bind at 1.
  destruct (Alerta_objects_get id w) as [[alerta|e] w1] eqn:Hget;
    destruct (Alerta_objects_get_lee _ _ _ _ Hget) as [-> Hfil];
    [|sale_por_manejador Hman].
  specialize (Hfil alerta eq_refl).
  destruct (Alerta.enviada alerta) eqn:Henv; [sale_con_texto|].
  unfold bind at 1.
  destruct (Caso_objects_get (Alerta.caso alerta) w) as [[caso|e] w1] eqn:Hcaso;
    apply Caso_objects_get_lee in Hcaso; subst w1; [|sale_por_manejador Hman].
  unfold bind at 1.
  destruct (resolver_destinatario alerta caso w) as [[dest|e] w1] eqn:Hdest;
    apply resolver_destinatario_lee in Hdest; subst w1; [|sale_por_manejador Hman].
  destruct (str_truthy dest); cbn [negb]; [|sale_con_texto].
  unfold bind at 1, send_mail.
  destruct (smtp _) as [msg|]; [sale_por_manejador Hman|].
  unfold bind at 1, marcar_como_enviada, bind at 1, Alerta_save_update_fields.
  cbn [alertas with_outbox Alerta.pk Alerta.set_enviada].
  destruct (filter_unico_in _ _ _ Hfil) as [Hin Hpk]. apply Z.eqb_eq in Hpk.
  destruct (existsb _ (alertas w)) eqn:Hex; [|sale_por_manejador Hman].
  cbn. intros H. injection H as <- <-. cbn. repeat split. right.
  exists alerta. repeat split; try assumption.
  unfold marcar_filas. rewrite Hpk. reflexivity.
Qed.

(** The scan writes nothing. *)
Lemma for_each_ret_mundo {A S} (l : list A) (f : A -> S -> S) s w :
  snd (for_each l (fun x s => ret (f x s)) s w) = w.
Proof.
  revert s. induction l as [|x l IH]; intros s; [reflexivity|].
  cbn. unfold bind, ret. cbn. apply IH.
Qed.

Lemma revisar_alertas_pendientes_mundo clk w :
  snd (revisar_alertas_pendientes clk w) = w.
Proof.
  unfold revisar_alertas_pendientes, try_except, bind at 1, get_world,
    bind at 1.
  match goal with |- context [for_each ?l ?b ?s0 w] =>
    pose proof (for_each_ret_mundo l
                  (fun (alerta : Alerta.t) (acc : list Z * nat) =>
                     (fst acc ++ [Alerta.pk alerta], S (snd acc))) s0 w) as H;
    destruct (for_each l b s0 w) as [[x|e] w1] end; cbn in *; now subst.
Qed.

(** Marking never clears a flag. *)
Lemma enviada_en_marcar_filas clk id id' w w' :
  alertas w' = marcar_filas clk id (alertas w) ->
  enviada_en id' w = true -> enviada_en id' w' = true.
Proof.
  unfold enviada_en. intros -> H. apply existsb_exists in H.
  destruct H as [a [Hin Ha]]. apply andb_true_iff in Ha. destruct Ha as [Hpk He].
  apply existsb_exists.
  exists (if Alerta.pk a =? id
          then Alerta.set_enviada true (Some (timezone_now clk)) a else a).
  split.
  - unfold marcar_filas. apply in_map_iff. now exists a.
  - destruct (Alerta.pk a =? id); cbn; rewrite Hpk; [reflexivity|assumption].
Qed.

Lemma paso_monotono id e w :
  enviada_en id w = true -> enviada_en id (paso e w) = true.
Proof.
  intros H. destruct e as [clk|clk smtp retries aid]; unfold paso.
  - now rewrite revisar_alertas_pendientes_mundo.
  - destruct (enviar_email_alerta clk smtp retries aid w) as [r w'] eqn:He.
    destruct (enviar_email_alerta_mundo _ _ _ _ _ _ _ He)
      as (_ & _ & _ & [Hal | (alerta & _ & _ & Hal)]); cbn.
    + unfold enviada_en in *. now rewrite Hal.
    + eapply enviada_en_marcar_filas; eassumption.
Qed.

Lemma transiciones_ya_enviada id es :
  forall w, enviada_en id w = true -> transiciones id es w = O.
Proof.
  induction es as [|e es IH]; intros w H; [reflexivity|].
  cbn. rewrite H. cbn. apply IH. now apply paso_monotono.
Qed.

Lemma transiciones_acotadas id es :
  forall w, (transiciones id es w <= 1)%nat.
Proof.
  induction es as [|e es IH]; intros w; cbn; [lia|].
  destruct (enviada_en id w) eqn:Hw; cbn.
  - apply IH.
  - destruct (enviada_en id (paso e w)) eqn:Hw'.
    + rewrite (transiciones_ya_enviada id es _ Hw'). lia.
    + apply IH.
Qed.

(** An execution that finds the alert already sent stops there. *)
Lemma enviar_email_alerta_ya_enviada clk smtp retries id alerta w :
  Alerta_objects_get id w = (Ok alerta, w) ->
  Alerta.enviada alerta = true ->
  enviar_email_alerta clk smtp retries id w = (Ok "Alerta ya enviada"%string, w).
Proof.
  intros Hget Henv. unfold enviar_email_alerta, try_except, bind.
  now rewrite Hget, Henv.
Qed.

(** What [marcar_como_enviada] writes. *)
Lemma marcar_como_enviada_alertas clk alerta w :
  alertas (snd (marcar_como_enviada clk alerta w)) = alertas w
  \/ alertas (snd (marcar_como_enviada clk alerta w))
     = marcar_filas clk (Alerta.pk alerta) (alertas w).
Proof.
  unfold marcar_como_enviada, bind, Alerta_save_update_fields. cbn.
  destruct (existsb _ (alertas w)); cbn; [right|left]; reflexivity.
Qed.

Lemma marcar_como_enviada_filas clk alerta w a :
  In a (alertas (snd (marcar_como_enviada clk alerta w))) ->
  Alerta.pk a = Alerta.pk alerta ->
  existsb (fun x => Alerta.pk x =? Alerta.pk alerta) (alertas w) = true ->
  Alerta.enviada a = true /\ Alerta.fecha_envio a = Some (timezone_now clk).
Proof.
  unfold marcar_como_enviada, bind, Alerta_save_update_fields. cbn.
  intros Hin Hpk Hex. rewrite Hex in Hin. cbn in Hin.
  apply in_map_iff in Hin. destruct Hin as [x [Hx Hin]].
  destruct (Alerta.pk x =? Alerta.pk alerta) eqn:E.
  - subst a. now split.
  - subst a. apply Z.eqb_neq in E. contradiction.
Qed.

Lemma marcar_como_enviada_de_almacenada clk id alerta w :
  Alerta_objects_get id w = (Ok alerta, w) ->
  alertas (snd (marcar_como_enviada clk alerta w))
  = marcar_filas clk id (alertas w).
Proof.
  intros Hget. destruct (Alerta_objects_get_lee _ _ _ _ Hget) as [_ Hfil].
  destruct (filter_unico_in _ _ _ (Hfil alerta eq_refl)) as [Hin Hpk].
  apply Z.eqb_eq in Hpk.
  unfold marcar_como_enviada, bind, Alerta_save_update_fields. cbn.
  replace (existsb _ (alertas w)) with true.
  - cbn. unfold marcar_filas. now rewrite Hpk.
  - symmetry. apply existsb_exists. exists alerta. split; [assumption|].
    apply Z.eqb_refl.
Qed.

(** *** Workers side by side *)

Lemma leer_para_envio_lee id w r w' :
  leer_para_envio id w = (r, w') -> w' = w.
Proof.
  unfold leer_para_envio, bind at 1.
  destruct (Alerta_objects_get id w) as [[alerta|e] w1] eqn:Hget;
    destruct (Alerta_objects_get_lee _ _ _ _ Hget) as [-> _];
    [|intros H; now injection H].
  destruct (Alerta.enviada alerta); [intros H; now injection H|].
  unfold bind at 1.
  destruct (Caso_objects_get (Alerta.caso alerta) w) as [[caso|e] w1] eqn:Hcaso;
    apply Caso_objects_get_lee in Hcaso; subst w1; [|intros H; now injection H].
  unfold bind at 1.
  destruct (resolver_destinatario alerta caso w) as [[dest|e] w1] eqn:Hdest;
    apply resolver_destinatario_lee in Hdest; subst w1; [|intros H; now injection H].
  destruct (str_truthy dest); cbn; intros H; now injection H.
Qed.

(** The task body is its reads followed by the send and the mark. *)
Lemma enviar_email_alerta_por_partes clk smtp retries id w :
  enviar_email_alerta clk smtp retries id w
  = try_except
      (x <- leer_para_envio id ;;
       match x with
       | inl texto => ret texto
       | inr (alerta, caso, dest) =>
         send_mail smtp (email_de_alerta clk alerta caso dest) ;;;
         marcar_como_enviada clk alerta ;;;
         ret ("Email enviado exitosamente a " ++ dest)%string
       end)
      (manejar_error retries) w.
Proof.
  unfold enviar_email_alerta, try_except, leer_para_envio, bind.
  destruct (Alerta_objects_get id w) as [[alerta|e] w1]; [|reflexivity].
  destruct (Alerta.enviada alerta); [reflexivity|].
  destruct (Caso_objects_get (Alerta.caso alerta) w1) as [[caso|e] w2];
    [|reflexivity].
  destruct (resolver_destinatario alerta caso w2) as [[dest|e] w3]; [|reflexivity].
  destruct (str_truthy dest); reflexivity.
Qed.

(** Three steps of a worker at one clock are one execution of the task. *)
Lemma tres_pasos_una_ejecucion clk t w r w' t1 w1 t2 w2 t3 w3 :
  t_fase t = Leyendo ->
  enviar_email_alerta clk (t_smtp t) (t_retries t) (t_alerta_id t) w = (r, w') ->
  avanzar clk t w = (t1, w1) ->
  avanzar clk t1 w1 = (t2, w2) ->
  avanzar clk t2 w2 = (t3, w3) ->
  t3 = en_fase (Terminada r) t /\ w3 = w'.
Proof.
  intros Hf He H1 H2 H3.
  rewrite enviar_email_alerta_por_partes in He.
  unfold try_except, bind at 1 in He. unfold avanzar in H1. rewrite Hf in H1.
  destruct (leer_para_envio (t_alerta_id t) w)
    as [[[texto|[[alerta caso] dest]]|e] v1].
  - cbn in H1, He. injection H1 as <- <-. injection He as <- <-.
    cbn in H2. injection H2 as <- <-. cbn in H3. injection H3 as <- <-.
    now split.
  - injection H1 as <- <-. unfold avanzar in H2.
    cbn [t_fase t_smtp t_retries en_fase] in H2. unfold bind at 1 in He.
    destruct (send_mail (t_smtp t) (email_de_alerta clk alerta caso dest) v1)
      as [[u|e] v2].
    + injection H2 as <- <-. unfold avanzar in H3.
      cbn [t_fase t_smtp t_retries en_fase] in H3. unfold bind in He.
      destruct (marcar_como_enviada clk alerta v2) as [[a|e] v3].
      * cbn in H3, He. injection H3 as <- <-. injection He as <- <-. now split.
      * rewrite He in H3. cbn in H3. injection H3 as <- <-. now split.
    + rewrite He in H2. cbn in H2. injection H2 as <- <-.
      cbn in H3. injection H3 as <- <-. now split.
  - rewrite He in H1. cbn in H1. injection H1 as <- <-.
    cbn in H2. injection H2 as <- <-. cbn in H3. injection H3 as <- <-.
    now split.
Qed.

(** No step of any worker clears a flag. *)
Lemma avanzar_monotono clk t id w :
  enviada_en id w = true -> enviada_en id (snd (avanzar clk t w)) = true.
Proof.
  intros H. unfold avanzar. destruct (t_fase t) as [|alerta caso dest|alerta dest|r].
  - destruct (leer_para_envio (t_alerta_id t) w)
      as [[[texto|[[alerta caso] dest]]|e] w1] eqn:E;
      apply leer_para_envio_lee in E; subst w1; cbn [snd]; try assumption.
    now rewrite manejar_error_mundo.
  - unfold send_mail. destruct (t_smtp t _); cbn [snd]; [|assumption].
    now rewrite manejar_error_mundo.
  - pose proof (marcar_como_enviada_alertas clk alerta w) as Hal.
    destruct (marcar_como_enviada clk alerta w) as [[a|e] w1]; cbn [snd] in *.
    + destruct Hal as [Hal|Hal].
      * unfold enviada_en in *. now rewrite Hal.
      * eapply enviada_en_marcar_filas; eassumption.
    + rewrite manejar_error_mundo. destruct Hal as [Hal|Hal].
      * unfold enviada_en in *. now rewrite Hal.
      * eapply enviada_en_marcar_filas; eassumption.
  - assumption.
Qed.

Lemma paso_fino_monotono ci id s :
  enviada_en id (fst s) = true -> enviada_en id (fst (paso_fino ci s)) = true.
Proof.
  intros H. unfold paso_fino. destruct (nth_error (snd s) (snd ci)) as [t|];
    [|assumption].
  cbn [fst]. now apply avanzar_monotono.
Qed.

Lemma transiciones_finas_ya_enviada id plan :
  forall s, enviada_en id (fst s) = true -> transiciones_finas id plan s = O.
Proof.
  induction plan as [|ci plan IH]; intros s H; [reflexivity|].
  cbn. rewrite H. cbn. apply IH. now apply paso_fino_monotono.
Qed.

Lemma transiciones_finas_acotadas id plan :
  forall s, (transiciones_finas id plan s <= 1)%nat.
Proof.
  induction plan as [|ci plan IH]; intros s; cbn; [lia|].
  destruct (enviada_en id (fst s)) eqn:Hs; cbn.
  - apply IH.
  - destruct (enviada_en id (fst (paso_fino ci s))) eqn:Hs'.
    + rewrite (transiciones_finas_ya_enviada id plan _ Hs'). lia.
    + apply IH.
Qed.

(** C2. Along any schedule of scans and executions of
    [enviar_email_alerta] (first tries and retries, of any alerts, in any
    order) the stored [enviada] flag of an alert goes from false to true
    at most once. Every execution, whatever its retry count, that finds
    the flag set returns at once, sending nothing and writing nothing. An
    execution changes the alert table only by [marcar_como_enviada] on an
    alert that was stored unsent, and what that writes on the rows of the
    alert is [enviada = True] together with [fecha_envio = now]. The bound
    on the flag also holds when the executions of a pool of workers are
    interleaved between their reads, their [send_mail] and their
    [marcar_como_enviada] (three such steps being one execution,
    [tres_pasos_una_ejecucion]). *)
Theorem enviada_a_lo_sumo_una_vez :
  (forall id es w, (transiciones id es w <= 1)%nat)
  /\ (forall clk smtp retries id alerta w,
         Alerta_objects_get id w = (Ok alerta, w) ->
         Alerta.enviada alerta = true ->
         enviar_email_alerta clk smtp retries id w
         = (Ok "Alerta ya enviada"%string, w))
  /\ (forall clk smtp retries id w r w',
         enviar_email_alerta clk smtp retries id w = (r, w') ->
         alertas w' = alertas w
         \/ exists alerta,
             Alerta_objects_get id w = (Ok alerta, w)
             /\ Alerta.enviada alerta = false
             /\ alertas w' = alertas (snd (marcar_como_enviada clk alerta w)))
  /\ (forall clk alerta w a,
         In alerta (alertas w) ->
         In a (alertas (snd (marcar_como_enviada clk alerta w))) ->
         Alerta.pk a = Alerta.pk alerta ->
         Alerta.enviada a = true
         /\ Alerta.fecha_envio a = Some (timezone_now clk))
  /\ (forall id plan s, (transiciones_finas id plan s <= 1)%nat).
Proof.
  split; [intros; apply transiciones_acotadas|].
  split; [intros; eapply enviar_email_alerta_ya_enviada; eassumption|].
  split; [|split; [|intros; apply transiciones_finas_acotadas]].
  - intros clk smtp retries id w r w' H.
    destruct (enviar_email_alerta_mundo _ _ _ _ _ _ _ H)
      as (_ & _ & _ & [Hal | (alerta & Hget & Henv & Hal)]); [now left|].
    right. exists alerta. repeat split; try assumption.
    now rewrite (marcar_como_enviada_de_almacenada clk id alerta w Hget).
  - intros clk alerta w a Hin Ha Hpk.
    apply (marcar_como_enviada_filas clk alerta w a Ha Hpk).
    apply existsb_exists. exists alerta. split; [assumption|apply Z.eqb_refl].
Qed.

(** On the example: alert 1 is sent by a first execution, and a retry and
    a second first try after it change nothing more: the flag rises once.
    Two workers that both read alert 1 before either has marked it both
    hand a message to the backend, and the flag still rises once. *)
Lemma enviada_a_lo_sumo_una_vez_witness :
  let es := [Escaneo Ejemplo.reloj;
             Intento Ejemplo.reloj Ejemplo.smtp_ok 0 1;
             Intento Ejemplo.reloj_tarde Ejemplo.smtp_ok 1 1;
             Intento Ejemplo.reloj_tarde Ejemplo.smtp_ok 0 1] in
  let pool := [{| t_smtp := Ejemplo.smtp_ok; t_retries := 0%nat;
                  t_alerta_id := 1; t_fase := Leyendo |};
               {| t_smtp := Ejemplo.smtp_ok; t_retries := 1%nat;
                  t_alerta_id := 1; t_fase := Leyendo |}] in
  let r := Ejemplo.reloj in
  let plan := [(r, 0%nat); (r, 1%nat); (r, 0%nat); (r, 1%nat);
               (r, 0%nat); (r, 1%nat)] in
  (transiciones 1 es Ejemplo.mundo <= 1)%nat
  /\ transiciones 1 es Ejemplo.mundo = 1%nat
  /\ enviar_email_alerta Ejemplo.reloj Ejemplo.smtp_ok 2 3 Ejemplo.mundo
     = (Ok "Alerta ya enviada"%string, Ejemplo.mundo)
  /\ (transiciones_finas 1 plan (Ejemplo.mundo, pool) <= 1)%nat
  /\ transiciones_finas 1 plan (Ejemplo.mundo, pool) = 1%nat
  /\ List.length
       (outbox (fst (fold_left (fun s ci => paso_fino ci s) plan
                       (Ejemplo.mundo, pool)))) = 2%nat.
Proof.
  cbv zeta. split; [apply (proj1 enviada_a_lo_sumo_una_vez)|].
  split; [reflexivity|]. split.
  - exact (proj1 (proj2 enviada_a_lo_sumo_una_vez)
             Ejemplo.reloj Ejemplo.smtp_ok 2%nat 3
             (Ejemplo.alerta 3 1 AUDIENCIA true
                (Some (19900 * usec_per_day)) None (19899 * usec_per_day))
             Ejemplo.mundo eq_refl eq_refl).
  - split; [apply (proj2 (proj2 (proj2 (proj2 enviada_a_lo_sumo_una_vez))))|].
    split; reflexivity.
Defined.

(** The flag of an alert that is stored once is the flag of that row. *)
Lemma enviada_en_almacenada id alerta w :
  Alerta_objects_get id w = (Ok alerta, w) ->
  enviada_en id w = Alerta.enviada alerta.
Proof.
  intros Hget. destruct (Alerta_objects_get_lee _ _ _ _ Hget) as [_ Hfil].
  specialize (Hfil alerta eq_refl). unfold enviada_en. revert Hfil.
  induction (alertas w) as [|a l IH]; cbn; [discriminate|].
  destruct (Alerta.pk a =? id) eqn:E; cbn.
  - intros H. injection H as -> Hl.
    assert (Hno : existsb (fun a => (Alerta.pk a =? id) && Alerta.enviada a) l = false).
    { clear IH E. induction l as [|b l IHl]; [reflexivity|].
      cbn in Hl |- *. destruct (Alerta.pk b =? id); [discriminate|].
      cbn. now apply IHl. }
    rewrite Hno. apply orb_false_r.
  - intros H. now apply IH.
Qed.

(** C7. An unsent alert with no recipient of its own, on a case whose
    responsible user has an empty email: the execution returns the text
    "Sin email destinatario" (it raises nothing, so no retry is scheduled)
    and leaves the whole world as it was: nothing reached [send_mail], and
    the alert is still unsent. *)
Theorem sin_destinatario_no_envia :
  forall clk smtp retries id alerta caso u w,
    Alerta_objects_get id w = (Ok alerta, w) ->
    Alerta.enviada alerta = false ->
    sin_destinatario_propio alerta = true ->
    Caso_objects_get (Alerta.caso alerta) w = (Ok caso, w) ->
    User_objects_get (Caso.usuario_responsable caso) w = (Ok u, w) ->
    User.email u = ""%string ->
    enviar_email_alerta clk smtp retries id w
    = (Ok "Sin email destinatario"%string, w)
    /\ enviada_en id w = false.
Proof.
  intros clk smtp retries id alerta caso u w Hget Henv Hsin Hcaso Hu Hmail.
  split.
  - unfold enviar_email_alerta, try_except, bind at 1. rewrite Hget, Henv.
    unfold bind at 1. rewrite Hcaso. unfold bind at 1.
    assert (Hres : resolver_destinatario alerta caso w = (Ok ""%string, w)).
    { unfold resolver_destinatario, sin_destinatario_propio in *.
      destruct (Alerta.email_destinatario alerta) as [e|].
      - destruct (str_truthy e); [discriminate|].
        unfold bind. rewrite Hu. unfold ret. now rewrite Hmail.
      - unfold bind. rewrite Hu. unfold ret. now rewrite Hmail. }
    rewrite Hres. reflexivity.
  - now rewrite (enviada_en_almacenada id alerta w Hget).
Qed.

(** On the example: alert 2 has no recipient and its case belongs to
    beto, who has no email. *)
Lemma sin_destinatario_no_envia_witness :
  enviar_email_alerta Ejemplo.reloj Ejemplo.smtp_ok 0 2 Ejemplo.mundo
  = (Ok "Sin email destinatario"%string, Ejemplo.mundo)
  /\ enviada_en 2 Ejemplo.mundo = false.
Proof.
  exact (sin_destinatario_no_envia Ejemplo.reloj Ejemplo.smtp_ok 0%nat 2
           (Ejemplo.alerta 2 2 SEGUIMIENTO false None None (19998 * usec_per_day))
           (Ejemplo.caso (Some 2) "P-2-2024" (Some 20007) EN_TRAMITACION 2 true)
           Ejemplo.beto Ejemplo.mundo
           eq_refl eq_refl eq_refl eq_refl eq_refl eq_refl).
Defined.

(** ** Retries *)

(** The lookups do not see the outbox. *)
Lemma Enviable_with_outbox id alerta caso dest ob w :
  Enviable id alerta caso dest w ->
  Enviable id alerta caso dest (with_outbox ob w).
Proof.
  unfold Enviable. intros (Hget & Henv & Hcaso & Hres & Ht).
  repeat split; try assumption.
  - revert Hget. unfold Alerta_objects_get, objects_get, bind, get_world, ret, raise.
    cbn [alertas with_outbox].
    destruct (filter _ (alertas w)) as [|x [|y l]]; intros H; try discriminate.
    now injection H as ->.
  - revert Hcaso. unfold Caso_objects_get, objects_get, bind, get_world, ret, raise.
    cbn [casos with_outbox].
    destruct (filter _ (casos w)) as [|x [|y l]]; intros H; try discriminate.
    now injection H as ->.
  - revert Hres. unfold resolver_destinatario.
    destruct (Alerta.email_destinatario alerta) as [e|];
      [destruct (str_truthy e); [intros H; now injection H as <-|]|];
      unfold User_objects_get, objects_get, bind, get_world, ret, raise;
      change (users (with_outbox ob w)) with (users w);
      destruct (filter _ (users w)) as [|x [|y l]]; intros H; try discriminate;
      now injection H as <-.
Qed.

(** One execution whose delivery fails: the message is handed to the
    backend, nothing is written, and the handler decides by the retry
    count. *)
Lemma intento_fallido clk smtp retries id alerta caso dest msg w :
  Enviable id alerta caso dest w ->
  smtp (email_de_alerta clk alerta caso dest) = Some msg ->
  enviar_email_alerta clk smtp retries id w
  = manejar_error retries (SMTPException msg)
      (with_outbox (outbox w ++ [email_de_alerta clk alerta caso dest]) w).
Proof.
  intros (Hget & Henv & Hcaso & Hres & Ht) Hs.
  unfold enviar_email_alerta, try_except, bind at 1. rewrite Hget, Henv.
  unfold bind at 1. rewrite Hcaso. unfold bind at 1. rewrite Hres, Ht.
  cbn [negb]. unfold bind at 1, send_mail. rewrite Hs. reflexivity.
Qed.

Lemma with_outbox_otra ob1 ob2 w :
  with_outbox ob2 (with_outbox ob1 w) = with_outbox ob2 w.
Proof. reflexivity. Qed.

Lemma outbox_with_outbox ob w : outbox (with_outbox ob w) = ob.
Proof. reflexivity. Qed.

(** The handler on a delivery failure: [Retry] while retries remain, the
    error text once they are used up. *)
Lemma manejar_error_reintenta retries msg w :
  (retries < max_retries)%nat ->
  manejar_error retries (SMTPException msg) w
  = (Raise (Retry 300 (SMTPException msg)), w).
Proof.
  intros H. unfold manejar_error. apply Nat.ltb_lt in H. now rewrite H.
Qed.

Lemma manejar_error_agotado msg w :
  manejar_error max_retries (SMTPException msg) w
  = (Ok ("Error: " ++ msg)%string, w).
Proof. reflexivity. Qed.

(** C3. When the backend refuses every message, the worker runs the task
    exactly four times, whatever fuel it has beyond that: the first
    execution and three retries, each left by [Retry] with a countdown of
    300 seconds, and a fourth execution that returns the text of the error
    instead of raising. Four messages were handed to the backend; the
    tables are untouched and the alert is still unsent. *)
Theorem reintentos_acotados :
  forall clk_en smtp_en id alerta caso dest w fuel,
    Enviable id alerta caso dest w ->
    (forall k e, exists msg, smtp_en k e = Some msg) ->
    (4 <= fuel)%nat ->
    let e k := email_de_alerta (clk_en k) alerta caso dest in
    exists m0 m1 m2 m3,
      ejecutar_con_reintentos fuel clk_en smtp_en 0 id w
      = ([Raise (Retry (5 * 60) (SMTPException m0));
          Raise (Retry (5 * 60) (SMTPException m1));
          Raise (Retry (5 * 60) (SMTPException m2));
          Ok ("Error: " ++ m3)%string],
         with_outbox (outbox w ++ [e 0%nat; e 1%nat; e 2%nat; e 3%nat]) w)
      /\ enviada_en id
           (snd (ejecutar_con_reintentos fuel clk_en smtp_en 0 id w)) = false.
Proof.
  intros clk_en smtp_en id alerta caso dest w fuel Henv Hsmtp Hfuel e.
  destruct (Hsmtp 0%nat (e 0%nat)) as [m0 H0].
  destruct (Hsmtp 1%nat (e 1%nat)) as [m1 H1].
  destruct (Hsmtp 2%nat (e 2%nat)) as [m2 H2].
  destruct (Hsmtp 3%nat (e 3%nat)) as [m3 H3].
  exists m0, m1, m2, m3.
  do 4 (destruct fuel as [|fuel]; [lia|]). clear Hfuel.
  assert (E : ejecutar_con_reintentos (S (S (S (S fuel)))) clk_en smtp_en 0 id w
              = ([Raise (Retry (5 * 60) (SMTPException m0));
                  Raise (Retry (5 * 60) (SMTPException m1));
                  Raise (Retry (5 * 60) (SMTPException m2));
                  Ok ("Error: " ++ m3)%string],
                 with_outbox (outbox w ++ [e 0%nat; e 1%nat; e 2%nat; e 3%nat]) w)).
  { pose proof (Enviable_with_outbox id alerta caso dest
                  (outbox w ++ [e 0%nat]) w Henv) as Henv1.
    pose proof (Enviable_with_outbox id alerta caso dest
                  ((outbox w ++ [e 0%nat]) ++ [e 1%nat]) w Henv) as Henv2.
    pose proof (Enviable_with_outbox id alerta caso dest
                  (((outbox w ++ [e 0%nat]) ++ [e 1%nat]) ++ [e 2%nat]) w Henv)
      as Henv3.
    unfold e in *. cbn [ejecutar_con_reintentos].
    rewrite (intento_fallido _ _ 0 _ _ _ _ m0 _ Henv H0).
    rewrite manejar_error_reintenta by (cbv; lia).
    cbn [ejecutar_con_reintentos].
    rewrite (intento_fallido _ _ 1 _ _ _ _ m1 _ Henv1 H1).
    rewrite manejar_error_reintenta by (cbv; lia).
    rewrite with_outbox_otra, outbox_with_outbox.
    cbn [ejecutar_con_reintentos].
    rewrite (intento_fallido _ _ 2 _ _ _ _ m2 _ Henv2 H2).
    rewrite manejar_error_reintenta by (cbv; lia).
    rewrite with_outbox_otra, outbox_with_outbox.
    cbn [ejecutar_con_reintentos].
    rewrite (intento_fallido _ _ 3 _ _ _ _ m3 _ Henv3 H3).
    rewrite manejar_error_agotado.
    rewrite with_outbox_otra, outbox_with_outbox.
    now rewrite <- !app_assoc. }
  split; [exact E|].
  rewrite E. cbn [snd].
  destruct Henv as (Hget & Hno & _).
  rewrite <- Hno. unfold enviada_en. cbn [alertas with_outbox].
  exact (enviada_en_almacenada id alerta w Hget).
Qed.

(** On the example: alert 1 with the backend down. *)
Lemma reintentos_acotados_witness :
  exists m0 m1 m2 m3 w',
    ejecutar_con_reintentos 10 (fun _ => Ejemplo.reloj)
      (fun _ => Ejemplo.smtp_caido) 0 1 Ejemplo.mundo
    = ([Raise (Retry 300 (SMTPException m0));
        Raise (Retry 300 (SMTPException m1));
        Raise (Retry 300 (SMTPException m2));
        Ok ("Error: " ++ m3)%string], w')
    /\ List.length (outbox w') = 4%nat
    /\ alertas w' = alertas Ejemplo.mundo.
Proof.
  destruct (reintentos_acotados (fun _ => Ejemplo.reloj)
              (fun _ => Ejemplo.smtp_caido) 1
              (Ejemplo.alerta 1 1 SEGUIMIENTO false None
                 (Some "ana@example.org"%string) (19998 * usec_per_day))
              (Ejemplo.caso (Some 1) "C-1-2024" (Some 20007) EN_TRAMITACION 1 true)
              "ana@example.org"%string Ejemplo.mundo 10%nat)
    as (m0 & m1 & m2 & m3 & E & _).
  - repeat split; reflexivity.
  - intros k e. exists "Connection refused"%string. reflexivity.
  - repeat constructor.
  - exists m0, m1, m2, m3. eexists. split; [exact E|]. split; reflexivity.
Defined.

(** ** Creating due-date alerts *)

Lemma with_alertas_eta w :
  with_alertas (alertas w ++ []) (next_alerta_pk w + Z.of_nat 0) w = w.
Proof. destruct w. unfold with_alertas. cbn. now rewrite app_nil_r, Z.add_0_r. Qed.

Lemma with_alertas_otra al1 n1 al2 n2 w :
  with_alertas al2 n2 (with_alertas al1 n1 w) = with_alertas al2 n2 w.
Proof. reflexivity. Qed.

(** A new due-date alert counts as recent for its own case and is not seen
    by the test of any other case. *)
Lemma tiene_alerta_reciente_nueva clk p q a w n :
  Alerta.caso a = p -> Alerta.tipo a = VENCIMIENTO ->
  Alerta.fecha_creacion a = timezone_now clk ->
  tiene_alerta_reciente clk q (with_alertas (alertas w ++ [a]) n w)
  = (q =? p) || tiene_alerta_reciente clk q w.
Proof.
  intros Hp Ht Hc. unfold tiene_alerta_reciente. cbn [alertas with_alertas].
  rewrite existsb_app. cbn [existsb]. rewrite Hp, Ht, Hc.
  assert (Hle : (timezone_now clk - timedelta 1 0 0 0 <=? timezone_now clk) = true).
  { apply Z.leb_le. unfold timedelta, usec_per_day, usec_per_second. lia. }
  rewrite Hle. cbn [TipoAlerta_eqb]. rewrite !andb_true_r, orb_false_r.
  rewrite (Z.eqb_sym p q). apply orb_comm.
Qed.

(** One turn of the loop on a stored case: nothing when a recent alert
    exists, one new row otherwise. *)
Lemma crear_alerta_si_falta_paso clk d c u p fv n w :
  Caso.pk c = Some p -> Caso.fecha_vencimiento c = Some fv ->
  crear_alerta_si_falta clk d (c, u) n w
  = if tiene_alerta_reciente clk p w then (Ok n, w)
    else (Ok (S n),
          with_alertas
            (alertas w
             ++ [Alerta.mk (next_alerta_pk w) p VENCIMIENTO
                   (MsgVenceTarea (Caso.rol c) d fv (Caso.recurrente c))
                   (timezone_now clk + timedelta 0 0 30 0) false None false true
                   (Some (User.email u)) (timezone_now clk) (User.pk u)])
            (next_alerta_pk w + 1) w).
Proof.
  intros Hpk Hfv. unfold crear_alerta_si_falta, bind, pk_de, get_world. cbn [fst snd].
  rewrite Hpk. cbn [ret]. destruct (tiene_alerta_reciente clk p w); cbn [negb].
  - reflexivity.
  - rewrite Hfv. reflexivity.
Qed.

Section Bucle.

Variables (clk : Clock) (d : Z).

(** The loop runs to its end, appends the alerts it makes and counts
    them; per case it makes one alert when the case is in the list and
    had no recent alert, none otherwise. *)
Lemma bucle_crear_alertas :
  forall l w n,
    Forall (fun cu => Caso.pk (fst cu) <> None
                      /\ Caso.fecha_vencimiento (fst cu) <> None) l ->
    exists nuevas,
      for_each l (crear_alerta_si_falta clk d) n w
      = (Ok (n + List.length nuevas)%nat,
         with_alertas (alertas w ++ nuevas)
           (next_alerta_pk w + Z.of_nat (List.length nuevas)) w)
      /\ (forall p,
             List.length (para p nuevas)
             = if entre l p && negb (tiene_alerta_reciente clk p w)
               then 1%nat else 0%nat)
      /\ Forall (hecha_por clk l) nuevas.
Proof.
  induction l as [|[c u] l IH]; intros w n Hl.
  - exists []. cbn. rewrite with_alertas_eta, Nat.add_0_r. repeat split.
    constructor.
  - inversion Hl as [|x l' [Hpk Hfv] Hl']; subst. cbn [fst] in Hpk, Hfv.
    destruct (Caso.pk c) as [p|] eqn:Ep; [|contradiction].
    destruct (Caso.fecha_vencimiento c) as [fv|] eqn:Ef; [|contradiction].
    cbn [for_each]. unfold bind at 1.
    rewrite (crear_alerta_si_falta_paso clk d c u p fv n w Ep Ef).
    destruct (tiene_alerta_reciente clk p w) eqn:Hrec.
    + destruct (IH w n Hl') as (nuevas & Hrun & Hcount & Hprops).
      exists nuevas. split; [exact Hrun|]. split.
      * intros q. rewrite Hcount. unfold entre. cbn [existsb fst]. rewrite Ep.
        cbn [option_Z_eqb]. destruct (p =? q) eqn:Epq; [|reflexivity].
        apply Z.eqb_eq in Epq. subst q. rewrite Hrec. cbn.
        now rewrite !andb_false_r.
      * eapply Forall_impl; [|exact Hprops].
        intros a (c' & u' & Hin & H). exists c', u'. split; [now right|exact H].
    + set (a := Alerta.mk (next_alerta_pk w) p VENCIMIENTO
                  (MsgVenceTarea (Caso.rol c) d fv (Caso.recurrente c))
                  (timezone_now clk + timedelta 0 0 30 0) false None false true
                  (Some (User.email u)) (timezone_now clk) (User.pk u)).
      set (w1 := with_alertas (alertas w ++ [a]) (next_alerta_pk w + 1) w).
      destruct (IH w1 (S n) Hl') as (nuevas & Hrun & Hcount & Hprops).
      exists (a :: nuevas). split.
      { rewrite Hrun. subst w1. rewrite with_alertas_otra.
        cbn [alertas with_alertas next_alerta_pk List.length].
        rewrite <- app_assoc. cbn [app]. f_equal; [f_equal; lia|].
        f_equal. lia. }
      split.
      * intros q. unfold para in *. cbn [filter Alerta.caso a].
        specialize (Hcount q). subst w1.
        rewrite (tiene_alerta_reciente_nueva clk p q a w _ eq_refl eq_refl eq_refl)
          in Hcount.
        unfold entre in *. cbn [existsb fst]. rewrite Ep. cbn [option_Z_eqb].
        destruct (p =? q) eqn:Epq.
        -- apply Z.eqb_eq in Epq. subst q. rewrite Z.eqb_refl in Hcount.
           cbn [orb negb] in Hcount. rewrite andb_false_r in Hcount.
           cbn [List.length]. rewrite Hcount, Hrec. reflexivity.
        -- rewrite Z.eqb_sym in Epq. rewrite Epq in Hcount. cbn [orb] in *.
           exact Hcount.
      * constructor.
        -- exists c, u. repeat split; [now left|exact Ep].
        -- eapply Forall_impl; [|exact Hprops].
           intros a' (c' & u' & Hin & H). exists c', u'.
           split; [now right|exact H].
Qed.

End Bucle.

(** The default ordering only permutes. *)
Lemma In_insertar_en_orden x c l :
  In x (insertar_en_orden c l) <-> x = c \/ In x l.
Proof.
  induction l as [|y l IH]; cbn.
  - intuition.
  - destruct (antes_en_orden y c); cbn; rewrite ?IH; intuition.
Qed.

Lemma In_order_by_meta x l : In x (order_by_meta l) <-> In x l.
Proof.
  induction l as [|c l IH]; cbn; [reflexivity|].
  rewrite In_insertar_en_orden, IH. intuition.
Qed.

Lemma EstadoCaso_eqb_eq a b : EstadoCaso_eqb a b = true <-> a = b.
Proof. destruct a, b; cbn; split; intros H; try discriminate; reflexivity. Qed.

(** The rows the task iterates over. *)
Lemma In_casos_proximos clk d w c u :
  In (c, u) (casos_proximos clk d w)
  <-> In c (casos w)
      /\ Caso.estado c = EN_TRAMITACION
      /\ Caso.fecha_vencimiento c = Some (date_today clk + d)
      /\ In u (users w)
      /\ User.pk u = Caso.usuario_responsable c.
Proof.
  unfold casos_proximos, select_related_usuario. rewrite in_flat_map. split.
  - intros (c' & Hc' & Hin). apply in_map_iff in Hin.
    destruct Hin as (u' & Heq & Hu'). injection Heq as -> ->.
    apply In_order_by_meta, filter_In in Hc'. destruct Hc' as [Hc Hcond].
    apply andb_true_iff in Hcond. destruct Hcond as [He Hf].
    apply EstadoCaso_eqb_eq in He. apply option_Z_eqb_eq in Hf.
    apply filter_In in Hu'. destruct Hu' as [Hu Hpk]. apply Z.eqb_eq in Hpk.
    repeat split; assumption.
  - intros (Hc & He & Hf & Hu & Hpk). exists c. split.
    + apply In_order_by_meta, filter_In. split; [assumption|].
      apply andb_true_iff. split.
      * now apply EstadoCaso_eqb_eq.
      * now apply option_Z_eqb_eq.
    + apply in_map_iff. exists u. split; [reflexivity|].
      apply filter_In. split; [assumption|]. now apply Z.eqb_eq.
Qed.

Lemma pks_bajo_secuencia_pk w c :
  pks_bajo_secuencia w = true -> In c (casos w) -> Caso.pk c <> None.
Proof.
  unfold pks_bajo_secuencia. intros H Hin. rewrite forallb_forall in H.
  specialize (H c Hin). destruct (Caso.pk c); [discriminate|discriminate].
Qed.

(** One run on a world whose cases all have a pk: the shape of the
    result. *)
Lemma crear_alertas_vencimiento_forma clk w :
  pks_bajo_secuencia w = true ->
  exists nuevas,
    crear_alertas_vencimiento clk w
    = (Ok ("Creadas " ++ str_nat (List.length nuevas)
             ++ " alertas automáticas")%string,
       with_alertas (alertas w ++ nuevas)
         (next_alerta_pk w + Z.of_nat (List.length nuevas)) w)
    /\ (forall p,
           List.length (para p nuevas)
           = if entre (casos_proximos clk 7 w) p
                && negb (tiene_alerta_reciente clk p w)
             then 1%nat else 0%nat)
    /\ Forall (hecha_por clk (casos_proximos clk 7 w)) nuevas.
Proof.
  intros Hs.
  destruct (bucle_crear_alertas clk 7 (casos_proximos clk 7 w) w O)
    as (nuevas & Hrun & Hcount & Hprops).
  { apply Forall_forall. intros [c u] Hin. apply In_casos_proximos in Hin.
    destruct Hin as (Hc & _ & Hf & _). cbn [fst]. split.
    - now apply (pks_bajo_secuencia_pk w).
    - rewrite Hf. discriminate. }
  exists nuevas. split; [|split; assumption].
  unfold crear_alertas_vencimiento, try_except, bind at 1, get_world.
  unfold bind at 1. rewrite Hrun. reflexivity.
Qed.

Lemma NoDup_map_unico {A B} (f : A -> B) (l : list A) x y :
  NoDup (map f l) -> In x l -> In y l -> f x = f y -> x = y.
Proof.
  induction l as [|a l IH]; cbn; intros Hnd Hx Hy Hf; [contradiction|].
  inversion Hnd as [|b l' Hnot Hnd']; subst.
  destruct Hx as [->|Hx], Hy as [->|Hy].
  - reflexivity.
  - exfalso. apply Hnot. rewrite Hf. now apply in_map.
  - exfalso. apply Hnot. rewrite <- Hf. now apply in_map.
  - now apply IH.
Qed.

Lemma entre_casos_proximos clk w c p :
  NoDup (map Caso.pk (casos w)) -> fk_usuario_ok w = true ->
  In c (casos w) -> Caso.pk c = Some p ->
  entre (casos_proximos clk 7 w) p = true
  <-> Caso.estado c = EN_TRAMITACION
      /\ Caso.fecha_vencimiento c = Some (date_today clk + 7).
Proof.
  intros Hnd Hfk Hc Hp. unfold entre. rewrite existsb_exists. split.
  - intros ([c' u] & Hin & Hpk). cbn [fst] in Hpk.
    apply option_Z_eqb_eq in Hpk. apply In_casos_proximos in Hin.
    destruct Hin as (Hc' & He & Hf & _).
    assert (c' = c) as ->.
    { apply (NoDup_map_unico Caso.pk (casos w)); try assumption. congruence. }
    now split.
  - intros [He Hf]. unfold fk_usuario_ok in Hfk. rewrite forallb_forall in Hfk.
    specialize (Hfk c Hc). apply existsb_exists in Hfk.
    destruct Hfk as (u & Hu & Hpk). apply Z.eqb_eq in Hpk.
    exists (c, u). split.
    + apply In_casos_proximos. repeat split; assumption.
    + cbn [fst]. now apply option_Z_eqb_eq.
Qed.

Lemma para_no_vacia p l :
  (exists a, In a l /\ Alerta.caso a = p) <-> List.length (para p l) = 1%nat
                                              \/ (2 <= List.length (para p l))%nat.
Proof.
  unfold para. split.
  - intros (a & Hin & Hp).
    assert (Ha : In a (filter (fun a => Alerta.caso a =? p) l)).
    { apply filter_In. split; [assumption|]. now apply Z.eqb_eq. }
    destruct (filter _ l) as [|x [|y r]]; cbn; [contradiction|now left|right; lia].
  - intros H. destruct (filter (fun a => Alerta.caso a =? p) l) as [|x r] eqn:E.
    + cbn in H. destruct H; [discriminate|lia].
    + assert (Hx : In x (filter (fun a => Alerta.caso a =? p) l))
        by (rewrite E; now left).
      apply filter_In in Hx. destruct Hx as [Hin Hp]. apply Z.eqb_eq in Hp.
      now exists x.
Qed.

(** C5, as the code has it. On a world whose case rows have distinct pks below the
    sequence and point to stored users, a run returns the text
    "Creadas n alertas automáticas" where n is the number of rows it
    appended to the alert table, and writes nothing else. A stored case
    gets a new alert exactly when its status is EN_TRAMITACION, its due
    date is today + 7 and it has no VENCIMIENTO alert created in the last
    24 hours; it never gets two, and a case due in more than 7 days gets
    none. Every new alert is of type VENCIMIENTO, fires 30 minutes from
    now (within the 30 to 60 minutes), goes to the email of the case's
    responsible user and has [enviar_email] set. *)
Theorem crear_alertas_vencimiento_crea :
  forall clk w,
    pks_bajo_secuencia w = true ->
    NoDup (map Caso.pk (casos w)) ->
    fk_usuario_ok w = true ->
    exists nuevas,
      crear_alertas_vencimiento clk w
      = (Ok ("Creadas " ++ str_nat (List.length nuevas)
               ++ " alertas automáticas")%string,
         with_alertas (alertas w ++ nuevas)
           (next_alerta_pk w + Z.of_nat (List.length nuevas)) w)
      /\ (forall c p,
             In c (casos w) -> Caso.pk c = Some p ->
             (exists a, In a nuevas /\ Alerta.caso a = p)
             <-> Caso.estado c = EN_TRAMITACION
                 /\ Caso.fecha_vencimiento c = Some (date_today clk + 7)
                 /\ tiene_alerta_reciente clk p w = false)
      /\ (forall p, (List.length (para p nuevas) <= 1)%nat)
      /\ (forall c p vence,
             In c (casos w) -> Caso.pk c = Some p ->
             Caso.fecha_vencimiento c = Some vence ->
             7 < vence - date_today clk ->
             para p nuevas = [])
      /\ Forall (fun a =>
                   Alerta.tipo a = VENCIMIENTO
                   /\ Alerta.fecha_alerta a = timezone_now clk + timedelta 0 0 30 0
                   /\ timezone_now clk + timedelta 0 0 30 0 <= Alerta.fecha_alerta a
                      <= timezone_now clk + timedelta 0 0 60 0
                   /\ Alerta.enviar_email a = true
                   /\ exists c u,
                       In c (casos w) /\ In u (users w)
                       /\ Caso.pk c = Some (Alerta.caso a)
                       /\ User.pk u = Caso.usuario_responsable c
                       /\ Alerta.email_destinatario a = Some (User.email u))
           nuevas.
Proof.
  intros clk w Hs Hnd Hfk.
  destruct (crear_alertas_vencimiento_forma clk w Hs)
    as (nuevas & Hrun & Hcount & Hprops).
  assert (Huno : forall p, (List.length (para p nuevas) <= 1)%nat).
  { intros p. rewrite Hcount. destruct (_ && _); lia. }
  assert (Hiff : forall c p,
             In c (casos w) -> Caso.pk c = Some p ->
             (exists a, In a nuevas /\ Alerta.caso a = p)
             <-> Caso.estado c = EN_TRAMITACION
                 /\ Caso.fecha_vencimiento c = Some (date_today clk + 7)
                 /\ tiene_alerta_reciente clk p w = false).
  { intros c p Hc Hp. rewrite para_no_vacia.
    pose proof (entre_casos_proximos clk w c p Hnd Hfk Hc Hp) as He.
    specialize (Hcount p). specialize (Huno p).
    destruct (entre (casos_proximos clk 7 w) p);
      destruct (tiene_alerta_reciente clk p w); cbn in Hcount; split.
    - intros [H|H]; lia.
    - intros (_ & _ & H). discriminate.
    - intros _. destruct (proj1 He eq_refl). now repeat split.
    - intros _. now left.
    - intros [H|H]; lia.
    - intros (_ & _ & H). discriminate.
    - intros [H|H]; lia.
    - intros (H1 & H2 & _). assert (false = true) by (apply He; now split).
      discriminate. }
  exists nuevas. split; [exact Hrun|]. split; [exact Hiff|].
  split; [exact Huno|]. split.
  - intros c p vence Hc Hp Hv Hlejos.
    destruct (para p nuevas) as [|a r] eqn:E; [reflexivity|]. exfalso.
    assert (Ha : exists a, In a nuevas /\ Alerta.caso a = p).
    { apply para_no_vacia. rewrite E. destruct r; cbn; [now left|right; lia]. }
    apply (Hiff c p Hc Hp) in Ha. destruct Ha as (_ & Hf & _).
    rewrite Hv in Hf. injection Hf as ->. lia.
  - eapply Forall_impl; [|exact Hprops].
    intros a (c & u & Hin & Hpk & Ht & Hfa & Hmail & Henviar & _ & _).
    apply In_casos_proximos in Hin. destruct Hin as (Hc & _ & _ & Hu & Hupk).
    repeat split; try assumption.
    + rewrite Hfa. lia.
    + rewrite Hfa. unfold timedelta, usec_per_second. lia.
    + exists c, u. repeat split; assumption.
Qed.

(** An alert the first run made is recent for a second run at most 24
    hours later. *)
Lemma reciente_tras_crear clk1 clk2 l p n1 w n :
  timezone_now clk2 <= timezone_now clk1 + timedelta 1 0 0 0 ->
  Forall (hecha_por clk1 l) n1 ->
  para p n1 <> [] ->
  tiene_alerta_reciente clk2 p (with_alertas (alertas w ++ n1) n w) = true.
Proof.
  intros Hdia Hprops Hne. unfold para in Hne.
  destruct (filter (fun a => Alerta.caso a =? p) n1) as [|a r] eqn:E;
    [contradiction|].
  assert (Ha : In a (filter (fun a => Alerta.caso a =? p) n1))
    by (rewrite E; now left).
  apply filter_In in Ha. destruct Ha as [Hin Hp].
  rewrite Forall_forall in Hprops.
  destruct (Hprops a Hin) as (c & u & _ & _ & Ht & _ & _ & _ & _ & Hcre).
  unfold tiene_alerta_reciente. cbn [alertas with_alertas].
  apply existsb_exists. exists a. split; [apply in_or_app; now right|].
  rewrite Hp, Ht, Hcre. cbn [TipoAlerta_eqb andb]. apply Z.leb_le.
  unfold timedelta, usec_per_day, usec_per_second in *. lia.
Qed.

Lemma length_cero_nil {A} (l : list A) : List.length l = 0%nat -> l = [].
Proof. destruct l; [reflexivity|discriminate]. Qed.

(** C1. Two runs, the second at most 24 hours after the first, on a world
    whose case rows have distinct pks below the sequence and point to
    stored users. Both runs end normally and only append alerts. No case
    gets more than one alert from the two runs together; a case the first
    run gave an alert gets none from the second; and a case that is
    EN_TRAMITACION and due in 7 days at the first run, with no recent
    VENCIMIENTO alert then, gets exactly one alert in total: the first run
    makes it, the second finds it as an alert created within the last 24
    hours and makes none. *)
Theorem crear_alertas_vencimiento_idempotente :
  forall clk1 clk2 w,
    pks_bajo_secuencia w = true ->
    NoDup (map Caso.pk (casos w)) ->
    fk_usuario_ok w = true ->
    timezone_now clk1 <= timezone_now clk2
                      <= timezone_now clk1 + timedelta 1 0 0 0 ->
    exists n1 n2 r1 r2 w1 w2,
      crear_alertas_vencimiento clk1 w = (Ok r1, w1)
      /\ alertas w1 = alertas w ++ n1
      /\ crear_alertas_vencimiento clk2 w1 = (Ok r2, w2)
      /\ alertas w2 = alertas w ++ n1 ++ n2
      /\ (forall p, (List.length (para p (n1 ++ n2)) <= 1)%nat)
      /\ (forall p, para p n1 <> [] -> para p n2 = [])
      /\ (forall c p,
             In c (casos w) -> Caso.pk c = Some p ->
             Caso.estado c = EN_TRAMITACION ->
             Caso.fecha_vencimiento c = Some (date_today clk1 + 7) ->
             tiene_alerta_reciente clk1 p w = false ->
             List.length (para p n1) = 1%nat
             /\ tiene_alerta_reciente clk2 p w1 = true
             /\ para p n2 = []
             /\ List.length (para p (n1 ++ n2)) = 1%nat).
Proof.
  intros clk1 clk2 w Hs Hnd Hfk [_ Hdia].
  destruct (crear_alertas_vencimiento_forma clk1 w Hs)
    as (n1 & Hrun1 & Hcount1 & Hprops1).
  set (w1 := with_alertas (alertas w ++ n1)
               (next_alerta_pk w + Z.of_nat (List.length n1)) w) in *.
  destruct (crear_alertas_vencimiento_forma clk2 w1 Hs)
    as (n2 & Hrun2 & Hcount2 & Hprops2).
  assert (Hsegunda : forall p, para p n1 <> [] -> para p n2 = []).
  { intros p Hne. apply length_cero_nil. rewrite Hcount2.
    subst w1. rewrite (reciente_tras_crear clk1 clk2 _ p n1 w _ Hdia Hprops1 Hne).
    now rewrite andb_false_r. }
  assert (Hsuma : forall p, List.length (para p (n1 ++ n2))
                            = (List.length (para p n1)
                               + List.length (para p n2))%nat).
  { intros p. unfold para. now rewrite filter_app, length_app. }
  assert (Huno : forall l clk w0 p,
             (forall q, List.length (para q l)
                        = if entre (casos_proximos clk 7 w0) q
                             && negb (tiene_alerta_reciente clk q w0)
                          then 1%nat else 0%nat) ->
             (List.length (para p l) <= 1)%nat).
  { intros l clk w0 p H. rewrite H. destruct (_ && _); lia. }
  exists n1, n2. do 4 eexists.
  split; [exact Hrun1|]. split; [reflexivity|].
  split; [exact Hrun2|]. split; [cbn; now rewrite app_assoc|].
  split; [|split; [exact Hsegunda|]].
  - intros p. rewrite Hsuma.
    destruct (para p n1) as [|a r] eqn:E.
    + cbn. apply (Huno n2 clk2 w1 p Hcount2).
    + rewrite (Hsegunda p) by (rewrite E; discriminate). rewrite <- E.
      pose proof (Huno n1 clk1 w p Hcount1). cbn. lia.
  - intros c p Hc Hp He Hf Hrec.
    assert (Hen : entre (casos_proximos clk1 7 w) p = true).
    { apply (entre_casos_proximos clk1 w c p Hnd Hfk Hc Hp). now split. }
    assert (H1 : List.length (para p n1) = 1%nat).
    { rewrite Hcount1, Hen, Hrec. reflexivity. }
    assert (Hne : para p n1 <> []).
    { intros E. rewrite E in H1. discriminate. }
    split; [exact H1|]. split.
    + subst w1. exact (reciente_tras_crear clk1 clk2 _ p n1 w _ Hdia Hprops1 Hne).
    + split; [exact (Hsegunda p Hne)|].
      rewrite Hsuma, H1, (Hsegunda p Hne). reflexivity.
Qed.

(** ** The example office is well formed *)

Lemma mundo_pks_distintos : NoDup (map Caso.pk (casos Ejemplo.mundo)).
Proof.
  cbn. repeat constructor; cbn; intuition discriminate.
Qed.

(** On the example, at ten in the morning and again at ten at night:
    cases 1 and 2 are due in 7 days. *)
Lemma crear_alertas_vencimiento_idempotente_witness :
  exists n1 n2 r1 r2 w1 w2,
    crear_alertas_vencimiento Ejemplo.reloj Ejemplo.mundo = (Ok r1, w1)
    /\ crear_alertas_vencimiento Ejemplo.reloj_tarde w1 = (Ok r2, w2)
    /\ alertas w2 = alertas Ejemplo.mundo ++ n1 ++ n2
    /\ List.length (para 1 (n1 ++ n2)) = 1%nat.
Proof.
  destruct (crear_alertas_vencimiento_idempotente
              Ejemplo.reloj Ejemplo.reloj_tarde Ejemplo.mundo)
    as (n1 & n2 & r1 & r2 & w1 & w2 & H1 & _ & H2 & Hal & _ & _ & Huno).
  - reflexivity.
  - exact mundo_pks_distintos.
  - reflexivity.
  - cbn. split; discriminate.
  - exists n1, n2, r1, r2, w1, w2. repeat split; try assumption.
    apply (Huno (Ejemplo.caso (Some 1) "C-1-2024" (Some 20007) EN_TRAMITACION 1 true) 1).
    + now left.
    + reflexivity.
    + reflexivity.
    + reflexivity.
    + reflexivity.
Defined.

Lemma crear_alertas_vencimiento_crea_witness :
  exists nuevas,
    crear_alertas_vencimiento Ejemplo.reloj Ejemplo.mundo
    = (Ok ("Creadas " ++ str_nat (List.length nuevas)
             ++ " alertas automáticas")%string,
       with_alertas (alertas Ejemplo.mundo ++ nuevas)
         (next_alerta_pk Ejemplo.mundo + Z.of_nat (List.length nuevas))
         Ejemplo.mundo)
    /\ (exists a, In a nuevas /\ Alerta.caso a = 1)
    /\ para 3 nuevas = [].
Proof.
  destruct (crear_alertas_vencimiento_crea Ejemplo.reloj Ejemplo.mundo
              eq_refl mundo_pks_distintos eq_refl)
    as (nuevas & Hrun & Hiff & _ & Hlejos & _).
  exists nuevas. split; [exact Hrun|]. split.
  - apply (Hiff (Ejemplo.caso (Some 1) "C-1-2024" (Some 20007) EN_TRAMITACION 1 true) 1).
    + now left.
    + reflexivity.
    + repeat split.
  - apply (Hlejos (Ejemplo.caso (Some 3) "C-3-2024" (Some 20010) EN_TRAMITACION 1 false)
             3 20010).
    + right. right. now left.
    + reflexivity.
    + reflexivity.
    + reflexivity.
Defined.

Lemma mundo_avisado_pks_distintos :
  NoDup (map Caso.pk (casos Ejemplo.mundo_avisado)).
Proof.
  cbn. repeat constructor; cbn; intuition discriminate.
Qed.

(** Without the suppression clause the statement fails. In
    [mundo_avisado] case 5 is EN_TRAMITACION and due in exactly 7 days,
    yet the run at ten in the morning makes two alerts, for cases 1 and 2,
    and none for case 5: the alert it got when it was created eight hours
    earlier is recent. *)
Lemma crear_alertas_vencimiento_contraejemplo :
  let w := Ejemplo.mundo_avisado in
  let w' := snd (crear_alertas_vencimiento Ejemplo.reloj w) in
  (exists c,
      In c (casos w) /\ Caso.pk c = Some 5
      /\ Caso.estado c = EN_TRAMITACION
      /\ Caso.fecha_vencimiento c = Some (date_today Ejemplo.reloj + 7))
  /\ fst (crear_alertas_vencimiento Ejemplo.reloj w)
     = Ok "Creadas 2 alertas automáticas"%string
  /\ map Alerta.caso (skipn (List.length (alertas w)) (alertas w')) = [1; 2]
  /\ ~ (forall clk w c p,
           pks_bajo_secuencia w = true ->
           NoDup (map Caso.pk (casos w)) ->
           fk_usuario_ok w = true ->
           In c (casos w) -> Caso.pk c = Some p ->
           Caso.estado c = EN_TRAMITACION ->
           Caso.fecha_vencimiento c = Some (date_today clk + 7) ->
           exists a,
             In a (skipn (List.length (alertas w))
                     (alertas (snd (crear_alertas_vencimiento clk w))))
             /\ Alerta.caso a = p).
Proof.
  cbv zeta.
  assert (Hc : exists c,
             In c (casos Ejemplo.mundo_avisado) /\ Caso.pk c = Some 5
             /\ Caso.estado c = EN_TRAMITACION
             /\ Caso.fecha_vencimiento c = Some (date_today Ejemplo.reloj + 7)).
  { eexists. split; [do 4 right; left; reflexivity|]. repeat split. }
  split; [exact Hc|]. split; [reflexivity|]. split; [reflexivity|].
  intros H. destruct Hc as (c & Hin & Hpk & He & Hf).
  destruct (H Ejemplo.reloj Ejemplo.mundo_avisado c 5)
    as (a & Ha & Hp); try assumption; try reflexivity.
  - exact mundo_avisado_pks_distintos.
  - vm_compute in Ha. destruct Ha as [<-|[<-|[]]]; discriminate.
Qed.

(** ** Examples for saving and creating *)

(** On the example: the new case, due in 7 days, is stored urgent; the
    instance without a due date is refused and nothing is written. *)
Lemma Caso_save_recalcula_urgente_witness :
  (exists fila,
      In fila (casos (snd (Caso_save Ejemplo.reloj Ejemplo.caso_nuevo Ejemplo.mundo)))
      /\ Caso.urgente fila = true)
  /\ Caso_save Ejemplo.reloj Ejemplo.caso_sin_fecha Ejemplo.mundo
     = (Raise IntegrityError, Ejemplo.mundo).
Proof.
  split.
  - destruct (proj1 (Caso_save_recalcula_urgente Ejemplo.reloj Ejemplo.caso_nuevo
                       Ejemplo.mundo) 20007 eq_refl eq_refl eq_refl)
      as (fila & Hin & _ & _ & Hu & _).
    exists fila. split; [exact Hin|]. rewrite Hu. reflexivity.
  - exact (proj1 (proj2 (Caso_save_recalcula_urgente Ejemplo.reloj
                           Ejemplo.caso_sin_fecha Ejemplo.mundo))
             (or_introl eq_refl)).
Defined.

Lemma Caso_creado_movimiento_y_alerta_witness :
  exists self' w',
    Caso_save Ejemplo.reloj Ejemplo.caso_nuevo Ejemplo.mundo = (Ok self', w')
    /\ Caso.pk self' = Some 5
    /\ (exists m, movimientos_de 5 w' = [m]
                  /\ MovimientoCaso.importante m = true)
    /\ (exists a, alertas_de 5 VENCIMIENTO w' = [a]).
Proof.
  destruct (Caso_creado_movimiento_y_alerta Ejemplo.reloj Ejemplo.caso_nuevo
              Ejemplo.mundo 20007 Ejemplo.ana
              eq_refl eq_refl eq_refl eq_refl eq_refl eq_refl)
    as (self' & w' & Hsave & Hpk & _ & (m & Hm & Himp & _) & Hal).
  exists self', w'. split; [exact Hsave|]. split; [exact Hpk|]. split.
  - exists m. now split.
  - cbn in Hal. destruct Hal as (a & Ha & _). now exists a.
Defined.

(** ** Marking an alert as read *)

Lemma get_alerta_or_404_ok pk alerta w :
  Alerta_objects_get pk w = (Ok alerta, w) ->
  get_alerta_or_404 pk w = (Ok alerta, w).
Proof. intros H. unfold get_alerta_or_404, try_except. now rewrite H. Qed.

(** The write of the view once the check has passed. *)
Lemma marcar_leida_escribe pk alerta w :
  Alerta_objects_get pk w = (Ok alerta, w) ->
  Alerta_save_update_fields (Alerta.set_leida true alerta)
    (Alerta.set_leida (Alerta.leida (Alerta.set_leida true alerta))) w
  = (Ok tt, with_alertas (leer_filas pk (alertas w)) (next_alerta_pk w) w).
Proof.
  intros Hget. destruct (Alerta_objects_get_lee _ _ _ _ Hget) as [_ Hfil].
  destruct (filter_unico_in _ _ _ (Hfil alerta eq_refl)) as [Hin Hpk].
  apply Z.eqb_eq in Hpk. unfold Alerta_save_update_fields. cbn [Alerta.pk Alerta.set_leida].
  replace (existsb _ (alertas w)) with true.
  - unfold leer_filas. rewrite Hpk. reflexivity.
  - symmetry. apply existsb_exists. exists alerta. split; [assumption|].
    apply Z.eqb_refl.
Qed.

(** C8, as the code has it. For a stored alert and a logged-in user: a staff user,
    or the responsible user of the alert's case, gets the redirect and the
    rows of the alert now have [leida = True], nothing else changed; any
    other user gets [Http404] with the text "No tienes permisos para esta
    alerta" and the world is as before. That is the exception class a
    missing alert raises too, not [PermissionDenied]: the two differ by
    their message only. An anonymous request is sent to the login page. *)
Theorem marcar_alerta_leida_permiso :
  forall user pk alerta w,
    Alerta_objects_get pk w = (Ok alerta, w) ->
    (User.is_staff user = true ->
     marcar_alerta_leida (Authenticated user) pk w
     = (Ok (Redirect "Casos:alertas" "Alerta marcada como leída."),
        with_alertas (leer_filas pk (alertas w)) (next_alerta_pk w) w))
    /\ (forall caso responsable,
           User.is_staff user = false ->
           Caso_objects_get (Alerta.caso alerta) w = (Ok caso, w) ->
           User_objects_get (Caso.usuario_responsable caso) w = (Ok responsable, w) ->
           if User.pk responsable =? User.pk user
           then marcar_alerta_leida (Authenticated user) pk w
                = (Ok (Redirect "Casos:alertas" "Alerta marcada como leída."),
                   with_alertas (leer_filas pk (alertas w)) (next_alerta_pk w) w)
           else marcar_alerta_leida (Authenticated user) pk w
                = (Raise (Http404 "No tienes permisos para esta alerta"), w)
                /\ es_http404 (fst (marcar_alerta_leida (Authenticated user) pk w))
                   = true
                /\ es_permission_denied
                     (fst (marcar_alerta_leida (Authenticated user) pk w))
                   = false)
    /\ (forall pk', Alerta_objects_get pk' w = (Raise Alerta_DoesNotExist, w) ->
                    marcar_alerta_leida (Authenticated user) pk' w
                    = (Raise (Http404 "No Alerta matches the given query."), w))
    /\ marcar_alerta_leida AnonymousUser pk w = (Ok RedirectLogin, w).
Proof.
  intros user pk alerta w Hget.
  pose proof (get_alerta_or_404_ok pk alerta w Hget) as H404.
  pose proof (marcar_leida_escribe pk alerta w Hget) as Hesc.
  split; [|split; [|split]].
  - intros Hstaff. unfold marcar_alerta_leida, bind at 1. rewrite H404.
    rewrite Hstaff. cbn [negb]. unfold bind at 1, ret at 1.
    unfold bind. rewrite Hesc. reflexivity.
  - intros caso responsable Hstaff Hcaso Hresp.
    assert (E : marcar_alerta_leida (Authenticated user) pk w
                = if User.pk responsable =? User.pk user
                  then (Ok (Redirect "Casos:alertas" "Alerta marcada como leída."),
                        with_alertas (leer_filas pk (alertas w)) (next_alerta_pk w) w)
                  else (Raise (Http404 "No tienes permisos para esta alerta"), w)).
    { unfold marcar_alerta_leida, bind at 1. rewrite H404, Hstaff. cbn [negb].
      unfold bind at 1. unfold bind at 1. rewrite Hcaso.
      unfold bind at 1. rewrite Hresp. unfold ret at 1.
      destruct (User.pk responsable =? User.pk user); cbn [negb].
      - unfold bind. rewrite Hesc. reflexivity.
      - reflexivity. }
    rewrite E. destruct (User.pk responsable =? User.pk user); [reflexivity|].
    repeat split.
  - intros pk' Hno. unfold marcar_alerta_leida, bind at 1, get_alerta_or_404,
      try_except. now rewrite Hno.
  - reflexivity.
Qed.

(** On the example: carla is staff, ana is responsible for case 1 (alert
    1), beto is neither. *)
Lemma marcar_alerta_leida_permiso_witness :
  fst (marcar_alerta_leida (Authenticated Ejemplo.carla) 1 Ejemplo.mundo)
  = Ok (Redirect "Casos:alertas" "Alerta marcada como leída.")
  /\ marcar_alerta_leida (Authenticated Ejemplo.beto) 1 Ejemplo.mundo
     = (Raise (Http404 "No tienes permisos para esta alerta"), Ejemplo.mundo).
Proof.
  pose proof (marcar_alerta_leida_permiso Ejemplo.carla 1
                (Ejemplo.alerta 1 1 SEGUIMIENTO false None
                   (Some "ana@example.org"%string) (19998 * usec_per_day))
                Ejemplo.mundo eq_refl) as [Hstaff _].
  pose proof (marcar_alerta_leida_permiso Ejemplo.beto 1
                (Ejemplo.alerta 1 1 SEGUIMIENTO false None
                   (Some "ana@example.org"%string) (19998 * usec_per_day))
                Ejemplo.mundo eq_refl) as [_ [Hotro _]].
  split.
  - rewrite (Hstaff eq_refl). reflexivity.
  - exact (proj1 (Hotro (Ejemplo.caso (Some 1) "C-1-2024" (Some 20007)
                           EN_TRAMITACION 1 true)
                    Ejemplo.ana eq_refl eq_refl eq_refl)).
Defined.

(** The specification asks for [PermissionDenied], told apart from not-found: beto
    asking for ana's alert 1 gets the same exception class as anybody
    asking for the missing alert 99. *)
Lemma marcar_alerta_leida_contraejemplo :
  es_permission_denied
    (fst (marcar_alerta_leida (Authenticated Ejemplo.beto) 1 Ejemplo.mundo))
  = false
  /\ es_http404
       (fst (marcar_alerta_leida (Authenticated Ejemplo.beto) 1 Ejemplo.mundo))
     = true
  /\ es_http404
       (fst (marcar_alerta_leida (Authenticated Ejemplo.beto) 99 Ejemplo.mundo))
     = true
  /\ ~ (forall user pk alerta caso responsable w,
           Alerta_objects_get pk w = (Ok alerta, w) ->
           Caso_objects_get (Alerta.caso alerta) w = (Ok caso, w) ->
           User_objects_get (Caso.usuario_responsable caso) w = (Ok responsable, w) ->
           User.is_staff user = false ->
           User.pk responsable <> User.pk user ->
           es_permission_denied
             (fst (marcar_alerta_leida (Authenticated user) pk w)) = true).
Proof.
  split; [reflexivity|]. split; [reflexivity|]. split; [reflexivity|].
  intros H.
  specialize (H Ejemplo.beto 1
                (Ejemplo.alerta 1 1 SEGUIMIENTO false None
                   (Some "ana@example.org"%string) (19998 * usec_per_day))
                (Ejemplo.caso (Some 1) "C-1-2024" (Some 20007) EN_TRAMITACION 1 true)
                Ejemplo.ana Ejemplo.mundo eq_refl eq_refl eq_refl eq_refl).
  assert (Hne : User.pk Ejemplo.ana <> User.pk Ejemplo.beto) by discriminate.
  specialize (H Hne). discriminate H.
Qed.

(** ** Purging old alerts *)

Lemma length_filter_particion {A} (f : A -> bool) (l : list A) :
  (List.length (filter f l) + List.length (filter (fun x => negb (f x)) l))%nat
  = List.length l.
Proof.
  induction l as [|a l IH]; [reflexivity|].
  cbn. destruct (f a); cbn; lia.
Qed.

(** C9. A purge always ends normally. With the cut at now minus 90 days
    it keeps, in order, exactly the alerts that are not both sent and
    with a [fecha_envio] before the cut, so an unsent alert stays whatever
    its age; the text it returns carries the number of rows removed; and
    users, cases, movements, the sequences and the outbox are the same
    as before. *)
Theorem limpiar_alertas_antiguas_purga :
  forall clk w,
    let fecha_corte := timezone_now clk - timedelta 90 0 0 0 in
    exists w',
      limpiar_alertas_antiguas clk w
      = (Ok ("Eliminadas "
               ++ str_nat (List.length (alertas w) - List.length (alertas w'))
               ++ " alertas antiguas")%string, w')
      /\ w' = with_alertas (alertas w') (next_alerta_pk w) w
      /\ alertas w' = filter (fun a => negb (alerta_antigua fecha_corte a)) (alertas w)
      /\ (forall a,
             In a (alertas w')
             <-> In a (alertas w)
                 /\ ~ (Alerta.enviada a = true
                       /\ exists t, Alerta.fecha_envio a = Some t /\ t < fecha_corte))
      /\ (forall a, In a (alertas w) -> Alerta.enviada a = false -> In a (alertas w'))
      /\ (List.length (alertas w) - List.length (alertas w'))%nat
         = List.length (filter (alerta_antigua fecha_corte) (alertas w)).
Proof.
  intros clk w fecha_corte.
  set (quedan := filter (fun a => negb (alerta_antigua fecha_corte a)) (alertas w)).
  exists (with_alertas quedan (next_alerta_pk w) w).
  assert (Hn : (List.length (alertas w) - List.length quedan)%nat
               = List.length (filter (alerta_antigua fecha_corte) (alertas w))).
  { pose proof (length_filter_particion (alerta_antigua fecha_corte) (alertas w)).
    subst quedan. lia. }
  assert (Hant : forall a,
             alerta_antigua fecha_corte a = true
             <-> Alerta.enviada a = true
                 /\ exists t, Alerta.fecha_envio a = Some t /\ t < fecha_corte).
  { intros a. unfold alerta_antigua. split.
    - intros H. apply andb_true_iff in H. destruct H as [He Ht].
      split; [assumption|]. destruct (Alerta.fecha_envio a) as [t|]; [|discriminate].
      exists t. split; [reflexivity|]. now apply Z.ltb_lt.
    - intros [He (t & Hf & Ht)]. rewrite He, Hf. cbn. now apply Z.ltb_lt. }
  split; [|split; [reflexivity|split; [reflexivity|split; [|split]]]].
  - unfold limpiar_alertas_antiguas, try_except, bind, get_world, put_world, ret.
    cbn [alertas with_alertas]. fold fecha_corte. fold quedan. rewrite Hn.
    destruct (List.length (filter (alerta_antigua fecha_corte) (alertas w)));
      reflexivity.
  - intros a. cbn [alertas with_alertas]. subst quedan. rewrite filter_In. split.
    + intros [Hin Hneg]. split; [assumption|]. intros Habs.
      apply Hant in Habs. rewrite Habs in Hneg. discriminate.
    + intros [Hin Hno]. split; [assumption|].
      destruct (alerta_antigua fecha_corte a) eqn:E; [|reflexivity].
      exfalso. apply Hno. now apply Hant.
  - intros a Hin He. cbn [alertas with_alertas]. subst quedan.
    apply filter_In. split; [assumption|]. unfold alerta_antigua. now rewrite He.
  - exact Hn.
Qed.

(** ** The rol validator *)

Section Cadenas.

Local Open Scope string_scope.

Lemma lstrip_espacios pre s :
  todo_espacios pre = true -> ascii_lstrip (pre ++ s) = ascii_lstrip s.
Proof.
  induction pre as [|c pre IH]; cbn; intros H; [reflexivity|].
  apply andb_true_iff in H. destruct H as [Hc Hpre]. rewrite Hc. now apply IH.
Qed.

Lemma rstrip_todo_espacios post :
  todo_espacios post = true -> ascii_rstrip post = "".
Proof.
  induction post as [|c post IH]; cbn; intros H; [reflexivity|].
  apply andb_true_iff in H. destruct H as [Hc Hpost].
  rewrite (IH Hpost). now rewrite Hc.
Qed.

Lemma rstrip_espacios s post :
  todo_espacios post = true -> ascii_rstrip (s ++ post) = ascii_rstrip s.
Proof.
  intros H. induction s as [|c s IH]; cbn.
  - now apply rstrip_todo_espacios.
  - now rewrite IH.
Qed.

Lemma lstrip_length s : (String.length (ascii_lstrip s) <= String.length s)%nat.
Proof.
  induction s as [|c s IH]; cbn; [lia|].
  destruct (ascii_is_space c); cbn; lia.
Qed.

Lemma rstrip_length s : (String.length (ascii_rstrip s) <= String.length s)%nat.
Proof.
  induction s as [|c s IH]; cbn; [lia|].
  destruct (ascii_rstrip s); [destruct (ascii_is_space c)|]; cbn in *; lia.
Qed.

(** [ascii_lstrip] either leaves the text alone or shortens it. *)
Lemma lstrip_igual_o_menor s :
  ascii_lstrip s = s \/ (String.length (ascii_lstrip s) < String.length s)%nat.
Proof.
  destruct s as [|c s]; cbn; [now left|].
  destruct (ascii_is_space c); [right|now left].
  pose proof (lstrip_length s). lia.
Qed.

Lemma strip_fijo core :
  ascii_strip core = core -> ascii_lstrip core = core /\ ascii_rstrip core = core.
Proof.
  unfold ascii_strip. intros H.
  assert (Hl : ascii_lstrip core = core).
  { destruct (lstrip_igual_o_menor core) as [E|E]; [exact E|].
    pose proof (rstrip_length (ascii_lstrip core)). rewrite H in *. lia. }
  split; [exact Hl|]. now rewrite Hl in H.
Qed.

(** Stripping removes the surrounding whitespace and nothing else. *)
Lemma strip_rodeada pre core post :
  todo_espacios pre = true -> todo_espacios post = true ->
  ascii_strip core = core -> ascii_strip (pre ++ core ++ post) = core.
Proof.
  intros Hpre Hpost Hcore. destruct (strip_fijo core Hcore) as [Hl Hr].
  unfold ascii_strip. rewrite (lstrip_espacios pre _ Hpre).
  destruct core as [|c core].
  - cbn [append]. clear Hl Hr Hcore.
    replace (ascii_lstrip post) with "".
    + reflexivity.
    + symmetry. induction post as [|d post IH]; cbn; [reflexivity|].
      cbn in Hpost. apply andb_true_iff in Hpost. destruct Hpost as [Hd Hp].
      rewrite Hd. now apply IH.
  - cbn [append ascii_lstrip] in *. destruct (ascii_is_space c) eqn:Hc.
    + exfalso. pose proof (lstrip_length core) as Hlen. rewrite Hl in Hlen.
      cbn in Hlen. lia.
    + change (String c (core ++ post)) with (String c core ++ post).
      now rewrite (rstrip_espacios _ post Hpost).
Qed.

Lemma normaliza_salvo_formato r1 r2 :
  misma_salvo_formato r1 r2 -> ascii_upper (ascii_strip r1) = ascii_upper (ascii_strip r2).
Proof.
  intros (pre1 & core1 & post1 & pre2 & core2 & post2
          & -> & -> & Hp1 & Hq1 & Hp2 & Hq2 & Hc1 & Hc2 & Hup).
  now rewrite (strip_rodeada pre1 core1 post1 Hp1 Hq1 Hc1),
    (strip_rodeada pre2 core2 post2 Hp2 Hq2 Hc2).
Qed.

End Cadenas.

(** The queryset of the validator is non-empty exactly when another case
    holds the rol. *)
Lemma casos_con_rol_otro ipk rol w :
  ipk <> Some 0 ->
  casos_con_rol ipk rol w <> [] <-> otro_caso_con_rol ipk rol w.
Proof.
  intros Hno0. unfold casos_con_rol, otro_caso_con_rol.
  assert (Hne : forall (l : list Caso.t), l <> [] <-> exists c, In c l).
  { intros l. destruct l as [|x l]; split.
    - intros H. now contradiction H.
    - intros [c []].
    - intros _. exists x. now left.
    - intros _. discriminate. }
  rewrite Hne. destruct ipk as [p|]; cbn [pk_truthy].
  - destruct (p =? 0) eqn:Ep.
    + apply Z.eqb_eq in Ep. subst p. now contradiction Hno0.
    + cbn [negb]. split.
      * intros (c & Hin). apply filter_In in Hin. destruct Hin as [Hin Hpk].
        apply filter_In in Hin. destruct Hin as [Hin Hrol].
        apply String.eqb_eq in Hrol. exists c. repeat split; try assumption.
        right. intros E. apply option_Z_eqb_eq in E. rewrite E in Hpk. discriminate.
      * intros (c & Hin & Hrol & [Habs|Hpk]); [discriminate|].
        exists c. apply filter_In. split.
        -- apply filter_In. split; [assumption|]. now apply String.eqb_eq.
        -- destruct (option_Z_eqb (Caso.pk c) (Some p)) eqn:E; [|reflexivity].
           apply option_Z_eqb_eq in E. contradiction.
  - split.
    + intros (c & Hin). apply filter_In in Hin. destruct Hin as [Hin Hrol].
      apply String.eqb_eq in Hrol. exists c. repeat split; try assumption. now left.
    + intros (c & Hin & Hrol & _). exists c. apply filter_In.
      split; [assumption|]. now apply String.eqb_eq.
Qed.

(** On ASCII text [strip] and [upper] stay within ASCII. *)
Lemma es_ascii_lstrip s : es_ascii s = true -> es_ascii (ascii_lstrip s) = true.
Proof.
  unfold es_ascii. induction s as [|c s IH]; [reflexivity|].
  cbn [todos ascii_lstrip]. intros H. destruct (ascii_is_space c).
  - apply andb_true_iff in H. now apply IH.
  - exact H.
Qed.

Lemma es_ascii_rstrip s : es_ascii s = true -> es_ascii (ascii_rstrip s) = true.
Proof.
  unfold es_ascii. induction s as [|c s IH]; [reflexivity|].
  cbn [todos ascii_rstrip]. intros H. apply andb_true_iff in H.
  destruct H as [Hc Hs]. specialize (IH Hs).
  destruct (ascii_rstrip s) as [|d r].
  - destruct (ascii_is_space c); [reflexivity|]. cbn [todos]. now rewrite Hc.
  - cbn [todos] in *. now rewrite Hc, IH.
Qed.

Lemma es_ascii_strip s : es_ascii s = true -> es_ascii (ascii_strip s) = true.
Proof. intros H. unfold ascii_strip. now apply es_ascii_rstrip, es_ascii_lstrip. Qed.

(** An interpreter that is right on ASCII text normalizes it as the ASCII
    functions do. *)
Lemma normaliza_en_ascii py s :
  coincide_en_ascii py -> es_ascii s = true ->
  str_upper py (str_strip py s) = ascii_upper (ascii_strip s).
Proof.
  intros Hpy Hs. destruct (Hpy s Hs) as [-> _].
  now destruct (Hpy (ascii_strip s) (es_ascii_strip s Hs)) as [_ ->].
Qed.

(** C10. Whatever [str.strip] and [str.upper] do, for a non-empty
    submitted rol (the field is required) and an instance whose pk is unset
    or not 0: the validator raises [ValidationError] when a stored case
    other than the one being edited holds the rol stripped and put in
    capitals, and otherwise returns that normalized rol; it never writes.
    Hence two submitted texts with the same normalized form get the same
    outcome; on ASCII text, where the two functions are known, those are
    the texts that differ only in surrounding whitespace and letter
    case. *)
Theorem clean_rol_normaliza :
  forall py ipk r w,
    r <> ""%string ->
    ipk <> Some 0 ->
    let rol := str_upper py (str_strip py r) in
    (otro_caso_con_rol ipk rol w ->
     clean_rol py ipk (Some r) w
     = (Raise (ValidationError ("Ya existe un caso con el rol '" ++ rol ++ "'")), w))
    /\ (~ otro_caso_con_rol ipk rol w ->
        clean_rol py ipk (Some r) w = (Ok (Some rol), w))
    /\ ((exists msg, fst (clean_rol py ipk (Some r) w) = Raise (ValidationError msg))
        <-> otro_caso_con_rol ipk rol w)
    /\ (forall r2,
           r2 <> ""%string -> str_upper py (str_strip py r2) = rol ->
           clean_rol py ipk (Some r2) w = clean_rol py ipk (Some r) w)
    /\ (forall r2,
           r2 <> ""%string -> coincide_en_ascii py ->
           es_ascii r = true -> es_ascii r2 = true ->
           misma_salvo_formato r r2 ->
           clean_rol py ipk (Some r2) w = clean_rol py ipk (Some r) w).
Proof.
  intros py ipk r w Hr Hpk rol.
  assert (Hforma : forall s, s <> ""%string ->
            clean_rol py ipk (Some s) w
            = match casos_con_rol ipk (str_upper py (str_strip py s)) w with
              | _ :: _ =>
                (Raise (ValidationError
                          ("Ya existe un caso con el rol '"
                             ++ str_upper py (str_strip py s) ++ "'")), w)
              | [] => (Ok (Some (str_upper py (str_strip py s))), w)
              end).
  { intros s Hs. unfold clean_rol. destruct s as [|c s]; [now contradiction Hs|].
    cbn [str_truthy]. unfold bind, get_world, raise, ret.
    destruct (casos_con_rol ipk _ w); reflexivity. }
  pose proof (casos_con_rol_otro ipk rol w Hpk) as Hotro.
  assert (Hmisma : forall r2, r2 <> ""%string ->
            str_upper py (str_strip py r2) = rol ->
            clean_rol py ipk (Some r2) w = clean_rol py ipk (Some r) w).
  { intros r2 Hr2 Hm. rewrite (Hforma r2 Hr2), (Hforma r Hr). fold rol.
    now rewrite Hm. }
  rewrite (Hforma r Hr). fold rol in Hotro |- *.
  split; [|split; [|split; [|split]]].
  - intros H. apply Hotro in H. destruct (casos_con_rol ipk rol w);
      [now contradiction H|reflexivity].
  - intros H. destruct (casos_con_rol ipk rol w) as [|c l]; [reflexivity|].
    exfalso. apply H, Hotro. discriminate.
  - rewrite <- Hotro. destruct (casos_con_rol ipk rol w) as [|c l]; cbn; split.
    + intros [msg H]. discriminate.
    + intros H. now contradiction H.
    + intros _. discriminate.
    + intros _. eexists. reflexivity.
  - intros r2 Hr2 Hm. rewrite (Hforma r2 Hr2). now rewrite Hm.
  - intros r2 Hr2 Hpy Ha Ha2 Hm. rewrite (Hforma r2 Hr2).
    apply normaliza_salvo_formato in Hm.
    rewrite (normaliza_en_ascii py r2 Hpy Ha2), <- Hm,
      <- (normaliza_en_ascii py r Hpy Ha).
    reflexivity.
Qed.

(** On the example, with ASCII text: " c-1-2024 " is the rol of case 1;
    editing case 1 itself it passes, on a new case it is refused. *)
Lemma clean_rol_normaliza_witness :
  clean_rol texto_ascii (Some 1) (Some " c-1-2024 "%string) Ejemplo.mundo
  = (Ok (Some "C-1-2024"%string), Ejemplo.mundo)
  /\ clean_rol texto_ascii None (Some " c-1-2024 "%string) Ejemplo.mundo
     = (Raise (ValidationError "Ya existe un caso con el rol 'C-1-2024'"),
        Ejemplo.mundo).
Proof.
  assert (Hr : " c-1-2024 "%string <> ""%string) by discriminate.
  split.
  - apply (proj1 (proj2 (clean_rol_normaliza texto_ascii (Some 1)
                           " c-1-2024 "%string
                           Ejemplo.mundo Hr ltac:(discriminate)))).
    intros (c & Hin & Hrol & [Habs|Hpk]); [discriminate|].
    cbn in Hin, Hrol.
    destruct Hin as [<-|[<-|[<-|[<-|[]]]]];
      solve [discriminate Hrol | now apply Hpk].
  - apply (proj1 (clean_rol_normaliza texto_ascii None " c-1-2024 "%string
                    Ejemplo.mundo Hr ltac:(discriminate))).
    exists (Ejemplo.caso (Some 1) "C-1-2024" (Some 20007) EN_TRAMITACION 1 true).
    split; [now left|]. split; [reflexivity|now left].
Defined.

(* ===================================================================== *)
(** * More of the code *)

(** ** Deadline tiers *)

(** X1. The tier of [estado_vencimiento] is decided by the days left
    alone: "sin-fecha" without a due date, else "vencido" below 0,
    "critico" from 0 to 3, "urgente" from 4 to 7 and "normal" above 7; and
    the flag that [Caso.save] computes on the same day is set exactly when
    the tier is not "normal". *)
Theorem estado_vencimiento_particion :
  forall clk c,
    match Caso.fecha_vencimiento c with
    | None =>
      ev_estado (estado_vencimiento clk c) = "sin-fecha"%string
      /\ Caso_save_urgente clk c = c
    | Some d =>
      let dias := d - date_today clk in
      let estado := ev_estado (estado_vencimiento clk c) in
      (estado = "vencido"%string <-> dias < 0)
      /\ (estado = "critico"%string <-> 0 <= dias <= 3)
      /\ (estado = "urgente"%string <-> 4 <= dias <= 7)
      /\ (estado = "normal"%string <-> 7 < dias)
      /\ estado <> "sin-fecha"%string
      /\ (Caso.urgente (Caso_save_urgente clk c) = true
          <-> estado <> "normal"%string)
    end.
Proof.
  intros clk c. unfold estado_vencimiento, Caso.dias_hasta_vencimiento,
    Caso_save_urgente.
  destruct (Caso.fecha_vencimiento c) as [d|]; [|now split].
  cbv zeta. cbn [Caso.urgente Caso.set_urgente].
  destruct (Z.ltb_spec (d - date_today clk) 0);
    [|destruct (Z.leb_spec (d - date_today clk) 3);
      [|destruct (Z.leb_spec (d - date_today clk) 7)]];
    cbn [ev_estado];
    repeat split; intros; try discriminate; try lia; try reflexivity;
    try (apply Z.leb_le; lia);
    try (exfalso; match goal with H : _ <> _ |- _ => now apply H end);
    try (match goal with H : (_ <=? _) = true |- _ => apply Z.leb_le in H; lia end).
Qed.

(** X2. The colour of the admin column is the class of the model's tier,
    whatever the case and the day; the text is in bold exactly when a due
    date is at most 7 days ahead; and the number shown is never negative
    (an overdue case shows the days it is overdue). *)
Theorem estado_vencimiento_display_coincide :
  forall clk obj,
    span_clase (estado_vencimiento_display clk obj)
    = ev_clase (estado_vencimiento clk obj)
    /\ (span_strong (estado_vencimiento_display clk obj) = true
        <-> exists dias, Caso.dias_hasta_vencimiento clk obj = Some dias
                         /\ dias <= 7)
    /\ (forall dias,
           Caso.dias_hasta_vencimiento clk obj = Some dias -> dias <> 0 ->
           exists n resto,
             span_texto (estado_vencimiento_display clk obj)
             = (if dias <? 0 then ("Vencido (" ++ str_nat n ++ resto)%string
                else (str_nat n ++ resto)%string)
             /\ Z.of_nat n = Z.abs dias).
Proof.
  intros clk obj. unfold estado_vencimiento_display, estado_vencimiento.
  destruct (Caso.dias_hasta_vencimiento clk obj) as [dias|].
  2:{ cbn. repeat split; try discriminate.
      intros (d & H & _). discriminate. }
  assert (Hstr : forall z, 0 <= z -> str_Z z = str_nat (Z.to_nat z)).
  { intros z Hz. unfold str_Z. destruct (Z.ltb_spec z 0); [lia|reflexivity]. }
  destruct (Z.ltb_spec dias 0) as [Hneg|Hpos].
  - cbn. split; [reflexivity|]. split.
    + split; [intros _; exists dias; split; [reflexivity|lia]|reflexivity].
    + intros d Hd _. injection Hd as <-.
      destruct (Z.ltb_spec dias 0); [|lia].
      exists (Z.to_nat (Z.abs dias)), (" días)")%string.
      rewrite (Hstr (Z.abs dias)) by lia. split; [reflexivity|lia].
  - destruct (Z.eqb_spec dias 0) as [H0|H0].
    + subst dias. cbn. split; [reflexivity|]. split.
      * split; [intros _; exists 0; split; [reflexivity|lia]|reflexivity].
      * intros d Hd Hne. injection Hd as <-. now contradiction Hne.
    + destruct (Z.leb_spec dias 3); [|destruct (Z.leb_spec dias 7)];
        cbn [span_clase span_strong span_texto ev_clase];
        (split; [reflexivity|]); split;
        try (split; [intros _; exists dias; split; [reflexivity|lia]|reflexivity]);
        try (split; [discriminate|intros (d & Hd & Hle); injection Hd as <-; lia]);
        intros d Hd _; injection Hd as <-;
        (destruct (Z.ltb_spec dias 0); [lia|]);
        exists (Z.to_nat dias), (" días")%string;
        rewrite (Hstr dias) by lia; (split; [reflexivity|lia]).
Qed.

(** ** Short descriptions *)

Section Recorte.

Local Open Scope string_scope.

(** Characters, not bytes: "año" has three, in four bytes. *)
Example len_cuenta_caracteres :
  len "año" = 3%nat /\ String.length "año" = 4%nat /\ hasta 2 "año" = "añ".
Proof. repeat split. Qed.

Lemma len_append s1 s2 : len (s1 ++ s2) = (len s1 + len s2)%nat.
Proof.
  induction s1 as [|c s1 IH]; cbn; [reflexivity|].
  destruct (es_continuacion c); now rewrite IH.
Qed.

Lemma len_hasta n s : len (hasta n s) = Nat.min n (len s).
Proof.
  revert n. induction s as [|c s IH]; intros n; cbn.
  - now rewrite Nat.min_0_r.
  - destruct (es_continuacion c) eqn:E.
    + cbn. now rewrite E, IH.
    + destruct n as [|n]; [reflexivity|]. cbn. now rewrite E, IH.
Qed.

Lemma hasta_todo n s : (len s <= n)%nat -> hasta n s = s.
Proof.
  revert n. induction s as [|c s IH]; intros n H; cbn in *; [reflexivity|].
  destruct (es_continuacion c).
  - now rewrite IH.
  - destruct n as [|n]; [lia|]. rewrite IH; [reflexivity|lia].
Qed.

(** The first [n] characters of a text that starts with the first [n]
    characters of [s] are those, when what follows them starts a new
    character. *)
Lemma hasta_append n s t :
  (n <= len s)%nat -> hasta 0 t = "" ->
  hasta n (hasta n s ++ t) = hasta n s.
Proof.
  intros H Ht. revert n H. induction s as [|c s IH]; intros n H; cbn in *.
  - replace n with 0%nat by lia. exact Ht.
  - destruct (es_continuacion c) eqn:E.
    + cbn. now rewrite E, IH.
    + destruct n as [|n]; [exact Ht|]. cbn. rewrite E, IH; [reflexivity|lia].
Qed.

(** X10. Lengths and cuts counted in characters: the short description is
    the description itself up to 50 characters, and its first 50 characters
    followed by three dots beyond; it is never longer than 53 characters,
    keeps the first 50 characters, and shortening twice is shortening
    once. *)
Theorem descripcion_corta_acotada :
  forall s,
    (len (descripcion_corta s) <= 53)%nat
    /\ ((len s <= 50)%nat -> descripcion_corta s = s)
    /\ ((50 < len s)%nat ->
        descripcion_corta s = hasta 50 s ++ "..."
        /\ len (descripcion_corta s) = 53%nat)
    /\ hasta 50 (descripcion_corta s) = hasta 50 s
    /\ descripcion_corta (descripcion_corta s) = descripcion_corta s.
Proof.
  intros s.
  destruct (Nat.ltb_spec 50 (len s)) as [Hl|Hc].
  - assert (E : descripcion_corta s = hasta 50 s ++ "...").
    { unfold descripcion_corta. apply Nat.ltb_lt in Hl. now rewrite Hl. }
    assert (Hlen : len (hasta 50 s ++ "...") = 53%nat).
    { rewrite len_append, len_hasta, Nat.min_l by lia. reflexivity. }
    assert (Hpre : hasta 50 (hasta 50 s ++ "...") = hasta 50 s).
    { apply hasta_append; [lia|reflexivity]. }
    rewrite E. split; [lia|]. split; [lia|]. split; [now split|].
    split; [exact Hpre|].
    unfold descripcion_corta. rewrite Hlen. cbn [Nat.ltb Nat.leb].
    now rewrite Hpre.
  - assert (E : descripcion_corta s = s).
    { unfold descripcion_corta. destruct (Nat.ltb_spec 50 (len s));
        [lia|reflexivity]. }
    rewrite !E. split; [lia|]. split; [reflexivity|]. split; [lia|].
    split; reflexivity.
Qed.

End Recorte.

(** ** Working days *)

(** One turn of the loop while the range is not exhausted. *)
Lemma bucle_dias_habiles_paso fuel a fin dias :
  a <= fin -> a < date_max ->
  bucle_dias_habiles (S fuel) a fin dias
  = bucle_dias_habiles fuel (a + 1) fin (dias + habil a).
Proof.
  intros H Hm. cbn [bucle_dias_habiles].
  destruct (Z.leb_spec a fin); [|lia].
  destruct (Z.ltb_spec date_max (a + 1)); [lia|].
  unfold habil. destruct (weekday a <? 5); [reflexivity|now rewrite Z.add_0_r].
Qed.

Lemma bucle_dias_habiles_fin fuel a fin dias :
  fin < a -> bucle_dias_habiles fuel a fin dias = Ok dias.
Proof.
  intros H. destruct fuel; cbn [bucle_dias_habiles]; [reflexivity|].
  destruct (Z.leb_spec a fin); [lia|reflexivity].
Qed.

(** Below [date.max] the loop ends with the count of the range, with any
    fuel that covers the range. *)
Lemma bucle_dias_habiles_cuenta_rango fuel :
  forall a fin dias,
    fin < date_max ->
    (Z.to_nat (fin - a + 1) <= fuel)%nat ->
    bucle_dias_habiles fuel a fin dias
    = Ok (dias + cuenta_habiles (Z.to_nat (fin - a + 1)) a).
Proof.
  induction fuel as [|fuel IH]; intros a fin dias Hm Hf.
  - replace (Z.to_nat (fin - a + 1)) with 0%nat by lia. cbn. now rewrite Z.add_0_r.
  - destruct (Z.le_gt_cases a fin) as [Hle|Hgt].
    + rewrite bucle_dias_habiles_paso by lia. rewrite IH by lia.
      replace (Z.to_nat (fin - a + 1)) with (S (Z.to_nat (fin - (a + 1) + 1)))
        by lia.
      cbn [cuenta_habiles]. f_equal. lia.
    + rewrite bucle_dias_habiles_fin by lia.
      replace (Z.to_nat (fin - a + 1)) with 0%nat by lia. cbn.
      now rewrite Z.add_0_r.
Qed.

(** A range that ends on [date.max] makes the loop step past it. *)
Lemma bucle_dias_habiles_desborda n :
  forall fuel a fin dias,
    n = Z.to_nat (date_max - a) -> a <= date_max -> date_max <= fin ->
    (n < fuel)%nat ->
    bucle_dias_habiles fuel a fin dias
    = Raise (OverflowError "date value out of range").
Proof.
  induction n as [|n IH]; intros fuel a fin dias Hn Ha Hfin Hf;
    (destruct fuel as [|fuel]; [lia|]).
  - assert (a = date_max) by lia. subst a. cbn [bucle_dias_habiles].
    destruct (Z.leb_spec date_max fin); [|lia].
    destruct (Z.ltb_spec date_max (date_max + 1)); [reflexivity|lia].
  - rewrite bucle_dias_habiles_paso by lia. apply IH; lia.
Qed.

Lemma cuenta_habiles_cota n : forall a, 0 <= cuenta_habiles n a <= Z.of_nat n.
Proof.
  induction n as [|n IH]; intros a; [cbn; lia|]. cbn [cuenta_habiles].
  specialize (IH (a + 1)).
  assert (Hh : 0 <= habil a <= 1) by (unfold habil; destruct (_ <? 5); lia).
  lia.
Qed.

(** A run of days splits at any day. *)
Lemma cuenta_habiles_suma n m :
  forall a,
    cuenta_habiles (n + m) a
    = cuenta_habiles n a + cuenta_habiles m (a + Z.of_nat n).
Proof.
  induction n as [|n IH]; intros a.
  - cbn. now rewrite Z.add_0_r.
  - cbn [Nat.add cuenta_habiles]. rewrite IH.
    replace (a + 1 + Z.of_nat n) with (a + Z.of_nat (S n)) by lia. lia.
Qed.

Lemma habil_semana a :
  habil a + habil (a + 1) + habil (a + 2) + habil (a + 3) + habil (a + 4)
  + habil (a + 5) + habil (a + 6) = 5.
Proof.
  unfold habil, weekday.
  repeat match goal with
         | |- context [?x mod 7 <? 5] => destruct (Z.ltb_spec (x mod 7) 5)
         end;
    Z.div_mod_to_equations; lia.
Qed.

Lemma cuenta_habiles_semana a : cuenta_habiles 7 a = 5.
Proof.
  cbn [cuenta_habiles]. pose proof (habil_semana a) as H.
  replace (a + 1 + 1) with (a + 2) by lia.
  replace (a + 2 + 1) with (a + 3) by lia.
  replace (a + 3 + 1) with (a + 4) by lia.
  replace (a + 4 + 1) with (a + 5) by lia.
  replace (a + 5 + 1) with (a + 6) by lia. lia.
Qed.

Lemma cuenta_habiles_semanas k : forall a, cuenta_habiles (7 * k) a = 5 * Z.of_nat k.
Proof.
  induction k as [|k IH]; intros a; [reflexivity|].
  replace (7 * S k)%nat with (7 + 7 * k)%nat by lia.
  rewrite cuenta_habiles_suma, cuenta_habiles_semana, IH. lia.
Qed.

(** X9. On two dates, [calcular_dias_habiles] counts the days of the closed
    range that are not Saturday or Sunday, as long as the range ends before
    [date.max]: an empty range gives 0; the count lies between 0 and the
    number of days; a range splits at any of its days into the sum of its
    parts; [k] whole weeks hold [5 * k] working days. A range that is not
    empty and ends on [date.max] raises [OverflowError], because the loop
    steps past the last day before it tests again. The loop never needs
    more turns than the range has days. *)
Theorem calcular_dias_habiles_cuenta :
  forall a b,
    date_min <= a <= date_max ->
    date_min <= b <= date_max ->
    (b < a -> calcular_dias_habiles a b = Ok 0)
    /\ (a <= b -> b = date_max ->
        calcular_dias_habiles a b
        = Raise (OverflowError "date value out of range"))
    /\ (b < date_max ->
        exists n,
          calcular_dias_habiles a b = Ok n
          /\ 0 <= n <= Z.max 0 (b - a + 1)
          /\ (forall m, a <= m <= b ->
                        exists n1 n2,
                          calcular_dias_habiles a m = Ok n1
                          /\ calcular_dias_habiles (m + 1) b = Ok n2
                          /\ n = n1 + n2)
          /\ (forall k, 0 <= k -> b = a + 7 * k - 1 -> n = 5 * k))
    /\ (forall extra,
           bucle_dias_habiles (Z.to_nat (b - a + 1) + extra) a b 0
           = calcular_dias_habiles a b).
Proof.
  intros a b Ha Hb. split; [|split; [|split]].
  - intros H. unfold calcular_dias_habiles. now apply bucle_dias_habiles_fin.
  - intros Hab ->. unfold calcular_dias_habiles.
    apply (bucle_dias_habiles_desborda (Z.to_nat (date_max - a))); lia.
  - intros Hmax. exists (cuenta_habiles (Z.to_nat (b - a + 1)) a).
    assert (Hcalc : forall x y,
               y < date_max ->
               calcular_dias_habiles x y
               = Ok (cuenta_habiles (Z.to_nat (y - x + 1)) x)).
    { intros x y Hy. unfold calcular_dias_habiles.
      now rewrite bucle_dias_habiles_cuenta_rango by lia. }
    split; [now apply Hcalc|]. split; [|split].
    + pose proof (cuenta_habiles_cota (Z.to_nat (b - a + 1)) a). lia.
    + intros m Hm. eexists _, _.
      split; [apply Hcalc; lia|]. split; [apply Hcalc; lia|].
      replace (Z.to_nat (b - a + 1))
        with (Z.to_nat (m - a + 1) + Z.to_nat (b - (m + 1) + 1))%nat by lia.
      rewrite cuenta_habiles_suma. do 2 f_equal. lia.
    + intros k Hk ->.
      replace (Z.to_nat (a + 7 * k - 1 - a + 1)) with (7 * Z.to_nat k)%nat
        by lia.
      rewrite cuenta_habiles_semanas. lia.
  - intros extra. unfold calcular_dias_habiles.
    destruct (Z.eq_dec b date_max) as [->|Hne].
    + destruct (Z.le_gt_cases a date_max) as [Hle|Hgt]; [|lia].
      rewrite !(bucle_dias_habiles_desborda (Z.to_nat (date_max - a))) by lia.
      reflexivity.
    + now rewrite !bucle_dias_habiles_cuenta_rango by lia.
Qed.

(** On the example: the week from day 20000 on has 5 working days. *)
Lemma calcular_dias_habiles_cuenta_witness :
  calcular_dias_habiles 20000 20006 = Ok 5.
Proof.
  destruct (calcular_dias_habiles_cuenta 20000 20006) as (_ & _ & H & _).
  - unfold date_min, date_max. lia.
  - unfold date_min, date_max. lia.
  - destruct H as (n & Hn & _ & _ & Hk); [unfold date_max; lia|].
    rewrite Hn. f_equal. apply (Hk 1); [lia|reflexivity].
Defined.

(** ** The dates of the case form *)

(** X11. Dates that pass the two field validators lie around today,
    filing on or before it and due date on or after it. For such dates the
    form-level test "due date after filing" can only fail when both are
    today; when the form-level checks pass, the due date is strictly after
    the filing date, a notification date is not before the filing date,
    the dates come back unchanged, and a case with that due date is not
    in the "vencido" tier that day. *)
Theorem CasoForm_fechas_validas :
  forall clk fp fv fn,
    clean_fecha_presentacion clk (Some fp) = Ok (Some fp) ->
    clean_fecha_vencimiento clk (Some fv) = Ok (Some fv) ->
    fp <= date_today clk <= fv
    /\ (CasoForm_clean (Some fp) (Some fv) fn
        = Raise (ValidationError
                   "La fecha de vencimiento debe ser posterior a la fecha de presentación.")
        <-> fp = date_today clk /\ fv = date_today clk)
    /\ (forall r,
           CasoForm_clean (Some fp) (Some fv) fn = Ok r ->
           r = (Some fp, Some fv, fn)
           /\ fp < fv
           /\ (forall n, fn = Some n -> fp <= n))
    /\ (forall c,
           Caso.fecha_vencimiento c = Some fv ->
           ev_estado (estado_vencimiento clk c) <> "vencido"%string).
Proof.
  intros clk fp fv fn Hp Hv.
  assert (Hfp : fp <= date_today clk).
  { unfold clean_fecha_presentacion in Hp.
    destruct (Z.ltb_spec (date_today clk) fp); [discriminate|assumption]. }
  assert (Hfv : date_today clk <= fv).
  { unfold clean_fecha_vencimiento in Hv.
    destruct (Z.ltb_spec fv (date_today clk)); [discriminate|assumption]. }
  split; [lia|]. unfold CasoForm_clean. split; [|split].
  - destruct (Z.leb_spec fv fp).
    + split; [intros _; lia|reflexivity].
    + split; [|lia]. destruct fn as [n|]; [destruct (n <? fp)|]; discriminate.
  - intros r. destruct (Z.leb_spec fv fp); [discriminate|].
    destruct fn as [n|].
    + destruct (Z.ltb_spec n fp); [discriminate|].
      intros Hr. injection Hr as <-. repeat split; try lia.
      intros m Hm. injection Hm as <-. assumption.
    + intros Hr. injection Hr as <-. repeat split; try lia. discriminate.
  - intros c Hc. unfold estado_vencimiento, Caso.dias_hasta_vencimiento.
    rewrite Hc. destruct (Z.ltb_spec (fv - date_today clk) 0); [lia|].
    destruct (_ <=? 3); [discriminate|]. destruct (_ <=? 7); discriminate.
Qed.

Lemma CasoForm_fechas_validas_witness :
  19990 <= date_today Ejemplo.reloj <= 20007
  /\ CasoForm_clean (Some 19990) (Some 20007) None
     = Ok (Some 19990, Some 20007, None).
Proof.
  destruct (CasoForm_fechas_validas Ejemplo.reloj 19990 20007 None
              eq_refl eq_refl) as (H & _ & _).
  split; [exact H|reflexivity].
Defined.

(** ** Scanning for pending alerts *)

(** The order of the alert querysets. *)
Lemma In_insertar_alerta x a l :
  In x (insertar_alerta a l) <-> x = a \/ In x l.
Proof.
  induction l as [|y l IH]; cbn.
  - intuition.
  - destruct (Alerta.fecha_alerta a <? Alerta.fecha_alerta y); cbn;
      rewrite ?IH; intuition.
Qed.

Lemma In_order_by_fecha_alerta_desc x l :
  In x (order_by_fecha_alerta_desc l) <-> In x l.
Proof.
  induction l as [|a l IH]; cbn; [reflexivity|].
  rewrite In_insertar_alerta, IH. intuition.
Qed.

Lemma ordenadas_desc_insertar a l :
  ordenadas_desc l = true -> ordenadas_desc (insertar_alerta a l) = true.
Proof.
  induction l as [|x l IH]; cbn [insertar_alerta ordenadas_desc]; intros H.
  - reflexivity.
  - apply andb_true_iff in H. destruct H as [Hx Hl].
    destruct (Alerta.fecha_alerta a <? Alerta.fecha_alerta x) eqn:E.
    + cbn [ordenadas_desc]. apply andb_true_iff. split; [|now apply IH].
      apply forallb_forall. intros b Hb. apply In_insertar_alerta in Hb.
      destruct Hb as [->|Hb].
      * apply Z.ltb_lt in E. apply Z.leb_le. lia.
      * rewrite forallb_forall in Hx. now apply Hx.
    + cbn [ordenadas_desc]. apply Z.ltb_ge in E.
      apply andb_true_iff. split.
      * cbn [forallb]. apply andb_true_iff. split; [now apply Z.leb_le|].
        apply forallb_forall. intros b Hb. rewrite forallb_forall in Hx.
        specialize (Hx b Hb). apply Z.leb_le in Hx. apply Z.leb_le. lia.
      * apply andb_true_iff. now split.
Qed.

Lemma ordenadas_desc_order_by l :
  ordenadas_desc (order_by_fecha_alerta_desc l) = true.
Proof.
  induction l as [|a l IH]; [reflexivity|]. cbn. now apply ordenadas_desc_insertar.
Qed.

Lemma Permutation_insertar_alerta a l :
  Permutation (insertar_alerta a l) (a :: l).
Proof.
  induction l as [|x l IH]; cbn; [apply Permutation_refl|].
  destruct (Alerta.fecha_alerta a <? Alerta.fecha_alerta x);
    [|apply Permutation_refl].
  apply perm_trans with (x :: a :: l); [now apply perm_skip|apply perm_swap].
Qed.

Lemma Permutation_order_by_fecha_alerta_desc l :
  Permutation (order_by_fecha_alerta_desc l) l.
Proof.
  induction l as [|a l IH]; cbn; [apply perm_nil|].
  apply perm_trans with (a :: order_by_fecha_alerta_desc l);
    [apply Permutation_insertar_alerta|now apply perm_skip].
Qed.

Lemma length_order_by_fecha_alerta_desc l :
  List.length (order_by_fecha_alerta_desc l) = List.length l.
Proof. apply Permutation_length, Permutation_order_by_fecha_alerta_desc. Qed.

Lemma for_each_encola (l : list Alerta.t) :
  forall ids n w,
    for_each l (fun alerta s => ret (fst s ++ [Alerta.pk alerta], S (snd s)))
      (ids, n) w
    = (Ok (ids ++ map Alerta.pk l, (n + List.length l)%nat), w).
Proof.
  induction l as [|a l IH]; intros ids n w; cbn.
  - now rewrite app_nil_r, Nat.add_0_r.
  - unfold bind, ret. cbn [fst snd]. rewrite IH. rewrite <- app_assoc.
    cbn. do 3 f_equal. lia.
Qed.

(** The rows a scan goes through, in its order. *)
Lemma revisar_alertas_pendientes_forma clk w :
  revisar_alertas_pendientes clk w
  = (Ok (map Alerta.pk
           (order_by_fecha_alerta_desc
              (filter (pendiente_de_envio clk) (alertas w))),
         ("Procesadas "
            ++ str_nat (List.length (filter (pendiente_de_envio clk) (alertas w)))
            ++ " alertas")%string), w).
Proof.
  unfold revisar_alertas_pendientes, try_except, bind at 1, get_world, bind, ret.
  change (fun a => negb (Alerta.enviada a) && Alerta.enviar_email a
                   && (Alerta.fecha_alerta a <=? timezone_now clk))
    with (pendiente_de_envio clk).
  rewrite for_each_encola. cbn [fst snd app].
  now rewrite length_order_by_fecha_alerta_desc.
Qed.


(** ** A delivered alert *)

Lemma encoladas_forma clk w :
  encoladas clk w
  = map Alerta.pk
      (order_by_fecha_alerta_desc (filter (pendiente_de_envio clk) (alertas w))).
Proof. unfold encoladas. now rewrite revisar_alertas_pendientes_forma. Qed.

Lemma In_encoladas clk w id :
  In id (encoladas clk w)
  <-> exists a, In a (alertas w) /\ Alerta.pk a = id
                /\ pendiente_de_envio clk a = true.
Proof.
  rewrite encoladas_forma, in_map_iff. split.
  - intros (a & Hpk & Hin).
    apply (proj1 (In_order_by_fecha_alerta_desc _ _)) in Hin.
    apply filter_In in Hin. exists a. tauto.
  - intros (a & Hin & Hpk & Hp). exists a. split; [assumption|].
    apply In_order_by_fecha_alerta_desc, filter_In. tauto.
Qed.

(** An update that keeps the pks commutes with the lookup by pk. *)
Lemma filter_pk_map (g : Alerta.t -> Alerta.t) id l :
  (forall a, Alerta.pk (g a) = Alerta.pk a) ->
  filter (fun a => Alerta.pk a =? id) (map g l)
  = map g (filter (fun a => Alerta.pk a =? id) l).
Proof.
  intros Hg. induction l as [|a l IH]; [reflexivity|].
  cbn. rewrite Hg. destruct (Alerta.pk a =? id); cbn; now rewrite IH.
Qed.

Lemma Alerta_objects_get_de_filtro id a w :
  filter (fun x => Alerta.pk x =? id) (alertas w) = [a] ->
  Alerta_objects_get id w = (Ok a, w).
Proof.
  intros H. unfold Alerta_objects_get, bind, get_world, objects_get.
  now rewrite H.
Qed.

(** X4. An execution that reaches a backend which delivers: it returns
    "Email enviado exitosamente a <recipient>", the message is the one new
    entry of the outbox, and the alert's rows are marked sent at the time of
    the execution, nothing else being written. From then on the alert reads
    as sent, any further execution for it stops with "Alerta ya enviada"
    and writes nothing, and no scan hands its id to the queue again, while
    every other id is handed over as before. *)
Theorem enviar_email_alerta_entrega :
  forall clk smtp retries id alerta caso dest w,
    Enviable id alerta caso dest w ->
    smtp (email_de_alerta clk alerta caso dest) = None ->
    exists w',
      enviar_email_alerta clk smtp retries id w
      = (Ok ("Email enviado exitosamente a " ++ dest)%string, w')
      /\ outbox w' = outbox w ++ [email_de_alerta clk alerta caso dest]
      /\ alertas w' = marcar_filas clk id (alertas w)
      /\ users w' = users w /\ casos w' = casos w
      /\ movimientos w' = movimientos w
      /\ Alerta_objects_get id w'
         = (Ok (Alerta.set_enviada true (Some (timezone_now clk)) alerta), w')
      /\ (forall clk2 smtp2 retries2,
             enviar_email_alerta clk2 smtp2 retries2 id w'
             = (Ok "Alerta ya enviada"%string, w'))
      /\ (forall clk2, ~ In id (encoladas clk2 w'))
      /\ (forall clk2 id2, id2 <> id ->
             (In id2 (encoladas clk2 w') <-> In id2 (encoladas clk2 w))).
Proof.
  intros clk smtp retries id alerta caso dest w (Hget & Henv & Hcaso & Hres & Ht) Hs.
  destruct (Alerta_objects_get_lee _ _ _ _ Hget) as [_ Hfil].
  specialize (Hfil alerta eq_refl).
  destruct (filter_unico_in _ _ _ Hfil) as [Hin Hpk]. apply Z.eqb_eq in Hpk.
  set (w' := with_alertas (marcar_filas clk id (alertas w)) (next_alerta_pk w)
               (with_outbox (outbox w ++ [email_de_alerta clk alerta caso dest]) w)).
  assert (Hex : existsb (fun a => Alerta.pk a =? Alerta.pk alerta) (alertas w) = true).
  { apply existsb_exists. exists alerta. split; [assumption|apply Z.eqb_refl]. }
  assert (Hrun : enviar_email_alerta clk smtp retries id w
                 = (Ok ("Email enviado exitosamente a " ++ dest)%string, w')).
  { unfold enviar_email_alerta, try_except, bind at 1. rewrite Hget, Henv.
    unfold bind at 1. rewrite Hcaso. unfold bind at 1. rewrite Hres, Ht.
    cbn [negb]. unfold bind at 1, send_mail. rewrite Hs.
    unfold bind at 1, marcar_como_enviada, bind at 1, Alerta_save_update_fields.
    cbn [alertas with_outbox Alerta.pk Alerta.set_enviada].
    rewrite Hex. cbn. unfold w', marcar_filas. now rewrite Hpk. }
  assert (Hget' : Alerta_objects_get id w'
                  = (Ok (Alerta.set_enviada true (Some (timezone_now clk)) alerta), w')).
  { apply Alerta_objects_get_de_filtro.
    change (alertas w') with (marcar_filas clk id (alertas w)).
    unfold marcar_filas. rewrite filter_pk_map.
    - rewrite Hfil. cbn. rewrite Hpk, Z.eqb_refl. reflexivity.
    - intros a. now destruct (Alerta.pk a =? id). }
  exists w'. repeat split; try assumption; try reflexivity.
  - intros clk2 smtp2 retries2.
    now apply enviar_email_alerta_ya_enviada
      with (alerta := Alerta.set_enviada true (Some (timezone_now clk)) alerta).
  - intros clk2 Hq. apply In_encoladas in Hq.
    destruct Hq as (a & Ha & Hpka & Hp).
    change (alertas w') with (marcar_filas clk id (alertas w)) in Ha.
    apply in_map_iff in Ha. destruct Ha as (x & Hx & _).
    destruct (Alerta.pk x =? id) eqn:E.
    + subst a. discriminate.
    + subst a. apply Z.eqb_neq in E. contradiction.
  - intros Hq. apply In_encoladas in Hq. apply In_encoladas.
    destruct Hq as (a & Ha & Hpka & Hp).
    change (alertas w') with (marcar_filas clk id (alertas w)) in Ha.
    apply in_map_iff in Ha. destruct Ha as (x & Hx & Hinx).
    destruct (Alerta.pk x =? id) eqn:E.
    + subst a. discriminate.
    + subst a. now exists x.
  - intros Hq. apply In_encoladas in Hq. apply In_encoladas.
    destruct Hq as (a & Ha & Hpka & Hp). exists a. repeat split; try assumption.
    change (alertas w') with (marcar_filas clk id (alertas w)).
    apply in_map_iff. exists a. split; [|assumption].
    replace (Alerta.pk a =? id) with false; [reflexivity|].
    symmetry. apply Z.eqb_neq. congruence.
Qed.

(** On the example: alert 1 goes out to ana, and the scan of the evening
    leaves it alone. *)
Lemma enviar_email_alerta_entrega_witness :
  exists w',
    enviar_email_alerta Ejemplo.reloj Ejemplo.smtp_ok 0 1 Ejemplo.mundo
    = (Ok "Email enviado exitosamente a ana@example.org"%string, w')
    /\ ~ In 1 (encoladas Ejemplo.reloj_tarde w').
Proof.
  destruct (enviar_email_alerta_entrega Ejemplo.reloj Ejemplo.smtp_ok 0%nat 1
              (Ejemplo.alerta 1 1 SEGUIMIENTO false None
                 (Some "ana@example.org"%string) (19998 * usec_per_day))
              (Ejemplo.caso (Some 1) "C-1-2024" (Some 20007) EN_TRAMITACION 1 true)
              "ana@example.org"%string Ejemplo.mundo)
    as (w' & E & _ & _ & _ & _ & _ & _ & _ & Hno & _).
  - repeat split; reflexivity.
  - reflexivity.
  - exists w'. split; [exact E|apply Hno].
Defined.

(** ** The admin actions on alerts *)

Lemma alertas_update_forma sel cambio w :
  alertas_update sel cambio w
  = (Ok (List.length (filter (fun a => ticada sel (Alerta.pk a)) (alertas w))),
     with_alertas
       (map (fun a => if ticada sel (Alerta.pk a) then cambio a else a)
          (alertas w))
       (next_alerta_pk w) w).
Proof. reflexivity. Qed.

(** Two updates of the same ticked rows: the later one decides, when the
    first keeps the pks. *)
Lemma map_ticadas_dos sel (g h : Alerta.t -> Alerta.t) l :
  (forall a, Alerta.pk (g a) = Alerta.pk a) ->
  (forall a, h (g a) = h a) ->
  map (fun a => if ticada sel (Alerta.pk a) then h a else a)
    (map (fun a => if ticada sel (Alerta.pk a) then g a else a) l)
  = map (fun a => if ticada sel (Alerta.pk a) then h a else a) l.
Proof.
  intros Hg Hh. rewrite map_map. apply map_ext. intros a.
  destruct (ticada sel (Alerta.pk a)) eqn:E.
  - now rewrite Hg, E, Hh.
  - now rewrite E.
Qed.

(** X5. The two admin actions on alerts. [reenviar_alertas] always ends
    normally, reports the number of ticked rows, and leaves every ticked
    row unsent with no sending time and every other row as it was, with the
    pks and the order of the table; so a ticked alert that asks for email
    and is due goes back to the queue at the next scan, sent before or not.
    [marcar_como_enviadas] does the converse with the time of the action,
    so no ticked alert is handed over by a scan after it. Of the two in a
    row, the later one decides. *)
Theorem reenviar_alertas_reprograma :
  forall clk sel w,
    let n := List.length (filter (fun a => ticada sel (Alerta.pk a)) (alertas w)) in
    let reenviadas :=
      map (fun a => if ticada sel (Alerta.pk a)
                    then Alerta.set_enviada false None a else a) (alertas w) in
    let marcadas :=
      map (fun a => if ticada sel (Alerta.pk a)
                    then Alerta.set_enviada true (Some (timezone_now clk)) a
                    else a) (alertas w) in
    reenviar_alertas sel w
    = (Ok (str_nat n ++ " alertas programadas para reenvío.")%string,
       with_alertas reenviadas (next_alerta_pk w) w)
    /\ marcar_como_enviadas clk sel w
       = (Ok (str_nat n ++ " alertas marcadas como enviadas.")%string,
          with_alertas marcadas (next_alerta_pk w) w)
    /\ map Alerta.pk reenviadas = map Alerta.pk (alertas w)
    /\ (forall a, In a reenviadas -> ticada sel (Alerta.pk a) = true ->
                  Alerta.enviada a = false /\ Alerta.fecha_envio a = None)
    /\ (forall a, In a reenviadas -> ticada sel (Alerta.pk a) = false ->
                  In a (alertas w))
    /\ (forall clk2 a,
           In a (alertas w) -> ticada sel (Alerta.pk a) = true ->
           Alerta.enviar_email a = true ->
           Alerta.fecha_alerta a <= timezone_now clk2 ->
           In (Alerta.pk a) (encoladas clk2 (snd (reenviar_alertas sel w))))
    /\ (forall clk2 id,
           ticada sel id = true ->
           ~ In id (encoladas clk2 (snd (marcar_como_enviadas clk sel w))))
    /\ snd (reenviar_alertas sel (snd (marcar_como_enviadas clk sel w)))
       = snd (reenviar_alertas sel w)
    /\ snd (marcar_como_enviadas clk sel (snd (reenviar_alertas sel w)))
       = snd (marcar_como_enviadas clk sel w).
Proof.
  intros clk sel w n reenviadas marcadas.
  assert (Hre : reenviar_alertas sel w
                = (Ok (str_nat n ++ " alertas programadas para reenvío.")%string,
                   with_alertas reenviadas (next_alerta_pk w) w)) by reflexivity.
  assert (Hma : marcar_como_enviadas clk sel w
                = (Ok (str_nat n ++ " alertas marcadas como enviadas.")%string,
                   with_alertas marcadas (next_alerta_pk w) w)) by reflexivity.
  split; [exact Hre|]. split; [exact Hma|].
  split; [|split; [|split; [|split; [|split; [|split]]]]].
  - unfold reenviadas. rewrite map_map. apply map_ext. intros a.
    now destruct (ticada sel (Alerta.pk a)).
  - intros a Hin Ht. apply in_map_iff in Hin. destruct Hin as (x & Hx & _).
    destruct (ticada sel (Alerta.pk x)) eqn:E; subst a; [now split|].
    congruence.
  - intros a Hin Ht. apply in_map_iff in Hin. destruct Hin as (x & Hx & Hin).
    destruct (ticada sel (Alerta.pk x)) eqn:E; subst a; [|assumption].
    cbn in Ht. congruence.
  - intros clk2 a Hin Ht Hm Hf. rewrite Hre. cbn [snd].
    apply In_encoladas. exists (Alerta.set_enviada false None a).
    split; [|split; [reflexivity|]].
    + change (alertas (with_alertas reenviadas (next_alerta_pk w) w))
        with reenviadas.
      apply in_map_iff. exists a. now rewrite Ht.
    + unfold pendiente_de_envio. cbn. rewrite Hm. cbn. now apply Z.leb_le.
  - intros clk2 id Ht Hq. rewrite Hma in Hq. cbn [snd] in Hq.
    apply In_encoladas in Hq. destruct Hq as (a & Hin & Hpk & Hp).
    change (alertas (with_alertas marcadas (next_alerta_pk w) w))
      with marcadas in Hin.
    apply in_map_iff in Hin. destruct Hin as (x & Hx & _).
    destruct (ticada sel (Alerta.pk x)) eqn:E; subst a.
    + discriminate.
    + congruence.
  - rewrite Hma. cbn [snd]. unfold reenviar_alertas, bind.
    rewrite !alertas_update_forma. cbn [snd alertas with_alertas next_alerta_pk].
    unfold ret. cbn [snd]. unfold marcadas.
    rewrite map_ticadas_dos; [reflexivity| |]; intros a; reflexivity.
  - rewrite Hre. cbn [snd]. unfold marcar_como_enviadas, bind.
    rewrite !alertas_update_forma. cbn [snd alertas with_alertas next_alerta_pk].
    unfold ret. cbn [snd]. unfold reenviadas.
    rewrite map_ticadas_dos; [reflexivity| |]; intros a; reflexivity.
Qed.

(** ** Computations that only append alerts *)

Section Anexa.

Variable P : Alerta.t -> Prop.

Lemma anexa_nada {A} (m : M A) :
  (forall w r w', m w = (r, w') -> alertas w' = alertas w) -> anexa P m.
Proof.
  intros H w r w' E. exists []. rewrite app_nil_r. split; [|constructor].
  now apply H in E.
Qed.

Lemma anexa_ret {A} (a : A) : anexa P (ret a).
Proof. apply anexa_nada. intros w r w' E. now injection E as _ <-. Qed.

Lemma anexa_raise {A} e : anexa P (@raise A e).
Proof. apply anexa_nada. intros w r w' E. now injection E as _ <-. Qed.

Lemma anexa_bind {A B} (m : M A) (k : A -> M B) :
  anexa P m -> (forall a, anexa P (k a)) -> anexa P (bind m k).
Proof.
  intros Hm Hk w r w' E. unfold bind in E.
  destruct (m w) as [[a|e] w1] eqn:E1.
  - destruct (Hm _ _ _ E1) as (n1 & H1 & F1).
    destruct (Hk a _ _ _ E) as (n2 & H2 & F2).
    exists (n1 ++ n2). rewrite H2, H1, app_assoc. split; [reflexivity|].
    apply Forall_app. now split.
  - injection E as _ <-. eapply Hm. eassumption.
Qed.

Lemma anexa_try_except {A} (m : M A) h :
  anexa P m -> (forall e, anexa P (h e)) -> anexa P (try_except m h).
Proof.
  intros Hm Hh w r w' E. unfold try_except in E.
  destruct (m w) as [[a|e] w1] eqn:E1.
  - injection E as _ <-. eapply Hm. eassumption.
  - destruct (Hm _ _ _ E1) as (n1 & H1 & F1).
    destruct (Hh e _ _ _ E) as (n2 & H2 & F2).
    exists (n1 ++ n2). rewrite H2, H1, app_assoc. split; [reflexivity|].
    apply Forall_app. now split.
Qed.

Lemma anexa_for_each {A S} (l : list A) (body : A -> S -> M S) :
  (forall x, In x l -> forall s, anexa P (body x s)) ->
  forall s, anexa P (for_each l body s).
Proof.
  induction l as [|x l IH]; intros Hb s; cbn [for_each].
  - apply anexa_ret.
  - apply anexa_bind.
    + apply Hb. now left.
    + intros s'. apply IH. intros y Hy. apply Hb. now right.
Qed.

Lemma anexa_objects_get {A} (tabla : list A) f e : anexa P (objects_get tabla f e).
Proof.
  apply anexa_nada. intros w r w' E. apply objects_get_lee in E.
  destruct E as [-> _]. reflexivity.
Qed.

Lemma anexa_Caso_objects_get id : anexa P (Caso_objects_get id).
Proof.
  apply anexa_nada. intros w r w' E. apply Caso_objects_get_lee in E. now subst.
Qed.

Lemma anexa_User_objects_get id : anexa P (User_objects_get id).
Proof.
  apply anexa_nada. intros w r w' E. apply User_objects_get_lee in E. now subst.
Qed.

Lemma anexa_pk_de c : anexa P (pk_de c).
Proof.
  unfold pk_de. destruct (Caso.pk c); [apply anexa_ret|apply anexa_raise].
Qed.

Lemma anexa_get_world : anexa P get_world.
Proof. apply anexa_nada. intros w r w' E. now injection E as _ <-. Qed.

Lemma anexa_Alerta_objects_create clk caso tipo mensaje fecha creador dest mail :
  (forall pk, P (Alerta.mk pk caso tipo mensaje fecha false None false mail dest
                   (timezone_now clk) creador)) ->
  anexa P (Alerta_objects_create clk caso tipo mensaje fecha creador dest mail).
Proof.
  intros HP w r w' E. unfold Alerta_objects_create in E. injection E as _ <-.
  eexists. split; [reflexivity|]. constructor; [apply HP|constructor].
Qed.

Lemma anexa_MovimientoCaso_objects_create clk caso descripcion usuario importante :
  anexa P (MovimientoCaso_objects_create clk caso descripcion usuario importante).
Proof. apply anexa_nada. intros w r w' E. now injection E as _ <-. Qed.

Lemma anexa_caso_save_table clk self : anexa P (caso_save_table clk self).
Proof.
  apply anexa_nada. intros w r w'. unfold caso_save_table.
  destruct (Caso.fecha_vencimiento self); [|intros E; now injection E as _ <-].
  destruct (rol_en_uso w _ _ || _); [intros E; now injection E as _ <-|].
  destruct (Caso.pk self); [destruct (existsb _ (casos w))|];
    intros E; now injection E as _ <-.
Qed.

End Anexa.

Lemma anexa_mono {A} (P Q : Alerta.t -> Prop) (m : M A) :
  (forall a, P a -> Q a) -> anexa P m -> anexa Q m.
Proof.
  intros HPQ Hm w r w' E. destruct (Hm _ _ _ E) as (n & H & F).
  exists n. split; [assumption|]. eapply Forall_impl; eassumption.
Qed.

Create HintDb anexa.
#[local] Hint Resolve anexa_ret anexa_raise anexa_pk_de anexa_get_world
  anexa_User_objects_get anexa_Caso_objects_get
  anexa_MovimientoCaso_objects_create anexa_caso_save_table : anexa.

(** ** Who appends what *)

Lemma crear_alerta_si_falta_anexa clk d l cu n :
  In cu l ->
  anexa (fun a => hecha_por clk l a /\ recien_creada a)
    (crear_alerta_si_falta clk d cu n).
Proof.
  intros Hin w r w' E. destruct cu as [c u].
  unfold crear_alerta_si_falta, bind, pk_de, get_world in E. cbn [fst snd] in E.
  destruct (Caso.pk c) as [p|] eqn:Ep; cbn [ret raise] in E.
  - destruct (tiene_alerta_reciente clk p w); cbn [negb] in E.
    + injection E as _ <-. exists []. rewrite app_nil_r. now split.
    + destruct (Caso.fecha_vencimiento c) as [fv|].
      * unfold Alerta_objects_create in E. injection E as _ <-.
        eexists. split; [reflexivity|]. constructor; [|constructor]. split.
        -- exists c, u. repeat split; assumption.
        -- repeat split.
      * injection E as _ <-. exists []. rewrite app_nil_r. now split.
  - injection E as _ <-. exists []. rewrite app_nil_r. now split.
Qed.

(** A run of the task, whatever the store: it only appends, and what it
    appends was made by its loop. *)
Lemma crear_alertas_vencimiento_anexa clk w r w' :
  crear_alertas_vencimiento clk w = (r, w') ->
  exists nuevas,
    alertas w' = alertas w ++ nuevas
    /\ Forall (fun a => hecha_por clk (casos_proximos clk 7 w) a
                        /\ recien_creada a) nuevas.
Proof.
  apply (anexa_try_except _
           (contador <- for_each (casos_proximos clk 7 w)
                          (crear_alerta_si_falta clk 7) O ;;
            ret ("Creadas " ++ str_nat contador ++ " alertas automáticas")%string)
           (fun exc => ret ("Error: " ++ str_exc exc)%string)).
  - apply anexa_bind; [|intros; apply anexa_ret].
    apply anexa_for_each. intros cu Hin s. now apply crear_alerta_si_falta_anexa.
  - intros e. apply anexa_ret.
Qed.

Lemma Caso_save_anexa clk self : anexa recien_creada (Caso_save clk self).
Proof.
  unfold Caso_save. apply anexa_bind; [auto with anexa|]. intros [fila created].
  cbn [fst snd]. apply anexa_bind.
  - unfold crear_movimiento_inicial. destruct created; [|auto with anexa].
    do 3 (apply anexa_bind; [auto with anexa|intros]). auto with anexa.
  - intros _. apply anexa_bind; [|auto with anexa].
    unfold crear_alerta_automatica.
    destruct created; cbn [negb]; [|auto with anexa].
    destruct (Caso.fecha_vencimiento fila); [|auto with anexa].
    destruct (EstadoCaso_eqb _ _); [|auto with anexa].
    destruct (_ <=? 7); [|auto with anexa].
    do 2 (apply anexa_bind; [auto with anexa|intros]).
    apply anexa_bind; [|auto with anexa].
    apply anexa_Alerta_objects_create. intros pk. repeat split.
Qed.

Lemma admin_crear_alerta_si_falta_anexa clk medianoche request_user l c n :
  In c l ->
  anexa (hecha_por_admin clk request_user l)
    (admin_crear_alerta_si_falta clk medianoche request_user c n).
Proof.
  intros Hin w r w' E. unfold admin_crear_alerta_si_falta in E.
  destruct (vence_pronto_admin clk c) eqn:Hv.
  2:{ injection E as _ <-. exists []. rewrite app_nil_r. now split. }
  unfold bind at 1, pk_de in E.
  destruct (Caso.pk c) as [p|] eqn:Ep; cbn [ret raise] in E.
  2:{ injection E as _ <-. exists []. rewrite app_nil_r. now split. }
  unfold bind at 1, get_world in E.
  destruct (existsb _ (alertas w)); cbn [negb] in E.
  { injection E as _ <-. exists []. rewrite app_nil_r. now split. }
  unfold bind at 1 in E.
  destruct (User_objects_get (Caso.usuario_responsable c) w) as [[u|e] w1] eqn:Hu;
    apply User_objects_get_lee in Hu; subst w1.
  2:{ injection E as _ <-. exists []. rewrite app_nil_r. now split. }
  unfold bind, Alerta_objects_create, ret in E. injection E as _ <-.
  eexists. split; [reflexivity|]. constructor; [|constructor].
  exists c. repeat split; assumption.
Qed.

Lemma CasoAdmin_crear_alerta_vencimiento_anexa clk medianoche request_user sel
    w r w' :
  CasoAdmin_crear_alerta_vencimiento clk medianoche request_user sel w = (r, w') ->
  exists nuevas,
    alertas w' = alertas w ++ nuevas
    /\ Forall (hecha_por_admin clk request_user
                 (filter (caso_ticado sel) (casos w))) nuevas.
Proof.
  apply (anexa_bind _
           (for_each (order_by_meta (filter (caso_ticado sel) (casos w)))
              (admin_crear_alerta_si_falta clk medianoche request_user) O)
           (fun alertas_creadas =>
              ret (str_nat alertas_creadas
                     ++ " alertas de vencimiento creadas.")%string)).
  - apply anexa_for_each. intros c Hin s.
    apply admin_crear_alerta_si_falta_anexa. now apply In_order_by_meta.
  - intros. apply anexa_ret.
Qed.

(** ** Sent rows have a sending time *)

Lemma get_alerta_or_404_lee pk w r w' :
  get_alerta_or_404 pk w = (r, w') ->
  w' = w /\ (forall a, r = Ok a -> Alerta_objects_get pk w = (Ok a, w)).
Proof.
  unfold get_alerta_or_404, try_except.
  destruct (Alerta_objects_get pk w) as [[a|e] w1] eqn:Hget;
    destruct (Alerta_objects_get_lee _ _ _ _ Hget) as [-> _].
  - intros H. injection H as <- <-. split; [reflexivity|].
    intros b Hb. now injection Hb as <-.
  - destruct e; intros H; injection H as <- <-;
      (split; [reflexivity|intros b Hb; discriminate]).
Qed.

(** The ownership test of the view only reads. *)
Lemma ajeno_lee (user : User.t) (alerta : Alerta.t) w r w1 :
  (if negb (User.is_staff user) then
     caso <- Caso_objects_get (Alerta.caso alerta) ;;
     responsable <- User_objects_get (Caso.usuario_responsable caso) ;;
     ret (negb (User.pk responsable =? User.pk user))
   else ret false) w = (r, w1) -> w1 = w.
Proof.
  destruct (negb (User.is_staff user)).
  - unfold bind at 1.
    destruct (Caso_objects_get (Alerta.caso alerta) w) as [[caso|e] w2] eqn:Hc;
      apply Caso_objects_get_lee in Hc; subst w2;
      [|intros H; now injection H].
    unfold bind.
    destruct (User_objects_get (Caso.usuario_responsable caso) w)
      as [[u|e] w2] eqn:Hu;
      apply User_objects_get_lee in Hu; subst w2; intros H; now injection H.
  - intros H. now injection H.
Qed.

(** The view writes the read flag of the rows of its alert, or nothing. *)
Lemma marcar_alerta_leida_alertas request_user pk w r w' :
  marcar_alerta_leida request_user pk w = (r, w') ->
  alertas w' = alertas w \/ alertas w' = leer_filas pk (alertas w).
Proof.
  destruct request_user as [|user]; [intros H; injection H as _ <-; now left|].
  unfold marcar_alerta_leida, bind at 1.
  destruct (get_alerta_or_404 pk w) as [[alerta|e] w1] eqn:Hg;
    destruct (get_alerta_or_404_lee _ _ _ _ Hg) as [-> Hget];
    [|intros H; injection H as _ <-; now left].
  specialize (Hget alerta eq_refl). unfold bind at 1.
  match goal with |- context [(if negb (User.is_staff user) then ?a else ?b) w] =>
    destruct ((if negb (User.is_staff user) then a else b) w)
      as [[ajeno|e] w1] eqn:Ha end;
    apply ajeno_lee in Ha; subst w1; [|intros H; injection H as _ <-; now left].
  destruct ajeno; [intros H; injection H as _ <-; now left|].
  unfold bind. rewrite (marcar_leida_escribe pk alerta w Hget).
  intros H. injection H as _ <-. now right.
Qed.

Lemma coherente_map (g : Alerta.t -> Alerta.t) l :
  (forall a, envio_coherente a = true -> envio_coherente (g a) = true) ->
  forallb envio_coherente l = true ->
  forallb envio_coherente (map g l) = true.
Proof.
  intros Hg. rewrite !forallb_forall. intros H a Ha.
  apply in_map_iff in Ha. destruct Ha as (x & <- & Hx). auto.
Qed.

Lemma coherente_app l nuevas :
  forallb envio_coherente l = true ->
  Forall recien_creada nuevas ->
  forallb envio_coherente (l ++ nuevas) = true.
Proof.
  intros Hl Hn. rewrite forallb_app, Hl. cbn. apply forallb_forall.
  rewrite Forall_forall in Hn. intros a Ha.
  destruct (Hn a Ha) as (He & Hf & _). unfold envio_coherente.
  now rewrite He, Hf.
Qed.

Lemma coherente_filter f l :
  forallb envio_coherente l = true ->
  forallb envio_coherente (filter f l) = true.
Proof.
  rewrite !forallb_forall. intros H a Ha. apply filter_In in Ha. now apply H.
Qed.

(** X6. On the alert table, [enviada] and [fecha_envio] go together: a row
    is sent exactly when it has a sending time. Every operation that
    creates, sends, resets, reads or purges alerts keeps this: the two
    scheduled creators and the admin one, saving a case, an execution of
    [enviar_email_alerta] however it ends, the scan, the purge, the view
    [marcar_alerta_leida], and the admin actions on alerts and on cases. *)
Theorem coherente_se_conserva :
  forall w,
    coherente w = true ->
    (forall clk, coherente (snd (crear_alertas_vencimiento clk w)) = true)
    /\ (forall clk self, coherente (snd (Caso_save clk self w)) = true)
    /\ (forall clk medianoche request_user sel,
           coherente (snd (CasoAdmin_crear_alerta_vencimiento clk medianoche
                             request_user sel w)) = true)
    /\ (forall clk smtp retries id,
           coherente (snd (enviar_email_alerta clk smtp retries id w)) = true)
    /\ (forall clk, coherente (snd (revisar_alertas_pendientes clk w)) = true)
    /\ (forall clk, coherente (snd (limpiar_alertas_antiguas clk w)) = true)
    /\ (forall request_user pk,
           coherente (snd (marcar_alerta_leida request_user pk w)) = true)
    /\ (forall clk sel, coherente (snd (marcar_como_enviadas clk sel w)) = true)
    /\ (forall sel, coherente (snd (reenviar_alertas sel w)) = true)
    /\ (forall sel, coherente (snd (marcar_como_cerrado sel w)) = true)
    /\ (forall sel, coherente (snd (marcar_urgente sel w)) = true).
Proof.
  intros w Hw. unfold coherente in *.
  split; [|split; [|split; [|split; [|split; [|split; [|split; [|split;
    [|split; [|split]]]]]]]]].
  - intros clk.
    destruct (crear_alertas_vencimiento clk w) as [r w'] eqn:E. cbn [snd].
    destruct (crear_alertas_vencimiento_anexa _ _ _ _ E) as (n & -> & F).
    apply coherente_app; [assumption|].
    eapply Forall_impl; [|exact F]. now intros a [_ H].
  - intros clk self. destruct (Caso_save clk self w) as [r w'] eqn:E. cbn [snd].
    destruct (Caso_save_anexa clk self _ _ _ E) as (n & -> & F).
    now apply coherente_app.
  - intros clk medianoche request_user sel.
    destruct (CasoAdmin_crear_alerta_vencimiento clk medianoche request_user sel w)
      as [r w'] eqn:E. cbn [snd].
    destruct (CasoAdmin_crear_alerta_vencimiento_anexa _ _ _ _ _ _ _ E)
      as (n & -> & F).
    apply coherente_app; [assumption|].
    eapply Forall_impl; [|exact F]. intros a (c & H). tauto.
  - intros clk smtp retries id.
    destruct (enviar_email_alerta clk smtp retries id w) as [r w'] eqn:E.
    cbn [snd].
    destruct (enviar_email_alerta_mundo _ _ _ _ _ _ _ E)
      as (_ & _ & _ & [-> | (alerta & _ & _ & ->)]); [assumption|].
    apply coherente_map; [|assumption].
    intros a Ha. now destruct (Alerta.pk a =? id).
  - intros clk. now rewrite revisar_alertas_pendientes_mundo.
  - intros clk. apply coherente_filter with
      (f := fun a => negb (alerta_antigua (timezone_now clk - timedelta 90 0 0 0) a)).
    exact Hw.
  - intros request_user pk.
    destruct (marcar_alerta_leida request_user pk w) as [r w'] eqn:E. cbn [snd].
    destruct (marcar_alerta_leida_alertas _ _ _ _ _ E) as [-> | ->];
      [assumption|].
    apply coherente_map; [|assumption].
    intros a Ha. now destruct (Alerta.pk a =? pk).
  - intros clk sel.
    apply (coherente_map
             (fun a => if ticada sel (Alerta.pk a)
                       then Alerta.set_enviada true (Some (timezone_now clk)) a
                       else a)); [|assumption].
    intros a Ha. now destruct (ticada sel (Alerta.pk a)).
  - intros sel.
    apply (coherente_map
             (fun a => if ticada sel (Alerta.pk a)
                       then Alerta.set_enviada false None a else a));
      [|assumption].
    intros a Ha. now destruct (ticada sel (Alerta.pk a)).
  - intros sel. exact Hw.
  - intros sel. exact Hw.
Qed.

(** The example office is coherent, and stays so. *)
Lemma coherente_se_conserva_witness :
  coherente (snd (reenviar_alertas [3; 4] Ejemplo.mundo)) = true
  /\ coherente (snd (enviar_email_alerta Ejemplo.reloj Ejemplo.smtp_ok 0 1
                       Ejemplo.mundo)) = true.
Proof.
  pose proof (coherente_se_conserva Ejemplo.mundo eq_refl) as H.
  split; apply H.
Defined.

(** ** The admin action that creates due-date alerts *)

Lemma vence_pronto_admin_fecha clk c :
  vence_pronto_admin clk c = true
  <-> exists fv, Caso.fecha_vencimiento c = Some fv
                 /\ fv <> date_today clk /\ fv - date_today clk <= 7.
Proof.
  unfold vence_pronto_admin, Caso.dias_hasta_vencimiento.
  destruct (Caso.fecha_vencimiento c) as [fv|].
  - rewrite andb_true_iff, negb_true_iff, Z.eqb_neq, Z.leb_le. split.
    + intros [H0 H7]. exists fv. repeat split; [lia|assumption].
    + intros (fv' & E & H0 & H7). injection E as <-. split; [lia|assumption].
  - split; [discriminate|]. intros (fv & E & _). discriminate.
Qed.

Lemma cubierta_se_mantiene clk medianoche p w w' nuevas :
  alertas w' = alertas w ++ nuevas ->
  cubierta clk medianoche p w = true -> cubierta clk medianoche p w' = true.
Proof.
  unfold cubierta. intros -> H. rewrite existsb_app, H. reflexivity.
Qed.

Section AccionAdmin.

Variables (clk : Clock) (medianoche : date -> datetime) (request_user : User.t).

Hypothesis medianoche_antes :
  medianoche (datetime_date (timezone_now clk))
  <= timezone_now clk + timedelta 0 1 0 0.

(** One turn of the loop. *)
Lemma admin_crear_alerta_si_falta_paso c n w r w1 :
  admin_crear_alerta_si_falta clk medianoche request_user c n w = (r, w1) ->
  exists nuevas,
    w1 = with_alertas (alertas w ++ nuevas)
           (next_alerta_pk w + Z.of_nat (List.length nuevas)) w
    /\ Forall (hecha_por_admin clk request_user [c]) nuevas
    /\ (forall n', r = Ok n' ->
          n' = (n + List.length nuevas)%nat
          /\ (vence_pronto_admin clk c = true ->
              forall p, Caso.pk c = Some p ->
                        cubierta clk medianoche p w1 = true)).
Proof.
  assert (Hnada : forall r0, (r0, w) = (r, w1) ->
            (forall n', r0 = Ok n' ->
               n' = n /\ (vence_pronto_admin clk c = true ->
                          forall p, Caso.pk c = Some p ->
                                    cubierta clk medianoche p w = true)) ->
            exists nuevas,
              w1 = with_alertas (alertas w ++ nuevas)
                     (next_alerta_pk w + Z.of_nat (List.length nuevas)) w
              /\ Forall (hecha_por_admin clk request_user [c]) nuevas
              /\ (forall n', r = Ok n' ->
                    n' = (n + List.length nuevas)%nat
                    /\ (vence_pronto_admin clk c = true ->
                        forall p, Caso.pk c = Some p ->
                                  cubierta clk medianoche p w1 = true))).
  { intros r0 E H. injection E as <- <-. exists []. rewrite with_alertas_eta.
    split; [reflexivity|]. split; [constructor|]. intros n' Hn'.
    destruct (H n' Hn') as [-> Hc]. cbn. rewrite Nat.add_0_r. now split. }
  unfold admin_crear_alerta_si_falta.
  destruct (vence_pronto_admin clk c) eqn:Hv.
  2:{ intros E. apply (Hnada _ E). intros n' Hn'. injection Hn' as <-.
      split; [reflexivity|discriminate]. }
  unfold bind at 1, pk_de.
  destruct (Caso.pk c) as [p|] eqn:Ep; cbn [ret raise].
  2:{ intros E. apply (Hnada _ E). discriminate. }
  unfold bind at 1, get_world. fold (cubierta clk medianoche p w).
  destruct (cubierta clk medianoche p w) eqn:Hcub; cbn [negb].
  { intros E. apply (Hnada _ E). intros n' Hn'. injection Hn' as <-.
    split; [reflexivity|]. intros _ q Hq. now injection Hq as <-. }
  unfold bind at 1.
  destruct (User_objects_get (Caso.usuario_responsable c) w) as [[u|e] w2] eqn:Hu;
    apply User_objects_get_lee in Hu; subst w2.
  2:{ intros E. apply (Hnada _ E). discriminate. }
  unfold bind, Alerta_objects_create, ret. intros E. injection E as <- <-.
  eexists [_]. split; [reflexivity|]. split.
  - constructor; [|constructor]. exists c.
    repeat split; try assumption. now left.
  - intros n' Hn'. injection Hn' as <-. split; [cbn; lia|].
    intros _ q Hq. injection Hq as <-. unfold cubierta.
    cbn [alertas with_alertas]. rewrite existsb_app. cbn [existsb Alerta.caso
      Alerta.tipo Alerta.fecha_alerta TipoAlerta_eqb].
    rewrite Z.eqb_refl. apply Z.leb_le in medianoche_antes.
    rewrite medianoche_antes. cbn. apply orb_true_r.
Qed.

(** The loop: what it appends, what it counts, and that every case it
    went through and that is close to its due date has an alert for today
    or later once the loop has ended normally. *)
Lemma bucle_admin l :
  forall n w r w',
    for_each l (admin_crear_alerta_si_falta clk medianoche request_user) n w
    = (r, w') ->
    exists nuevas,
      w' = with_alertas (alertas w ++ nuevas)
             (next_alerta_pk w + Z.of_nat (List.length nuevas)) w
      /\ Forall (hecha_por_admin clk request_user l) nuevas
      /\ (forall n', r = Ok n' ->
            n' = (n + List.length nuevas)%nat
            /\ forall c, In c l -> vence_pronto_admin clk c = true ->
                         forall p, Caso.pk c = Some p ->
                                   cubierta clk medianoche p w' = true).
Proof.
  induction l as [|c l IH]; intros n w r w' E.
  - injection E as <- <-. exists []. rewrite with_alertas_eta.
    split; [reflexivity|]. split; [constructor|]. intros n' Hn'.
    injection Hn' as <-. cbn. rewrite Nat.add_0_r. split; [reflexivity|].
    intros c [].
  - cbn [for_each] in E. unfold bind in E.
    destruct (admin_crear_alerta_si_falta clk medianoche request_user c n w)
      as [[n1|e] w1] eqn:E1;
      destruct (admin_crear_alerta_si_falta_paso _ _ _ _ _ E1)
        as (nv1 & Hw1 & F1 & Hok1).
    + destruct (IH _ _ _ _ E) as (nv2 & Hw2 & F2 & Hok2).
      destruct (Hok1 n1 eq_refl) as [Hn1 Hc1].
      exists (nv1 ++ nv2). split; [|split].
      * rewrite Hw2, Hw1. cbn [alertas with_alertas next_alerta_pk].
        rewrite with_alertas_otra, <- app_assoc, length_app, Nat2Z.inj_add.
        f_equal. lia.
      * apply Forall_app. split.
        -- eapply Forall_impl; [|exact F1]. intros a (c' & [<-|[]] & H).
           exists c. split; [now left|exact H].
        -- eapply Forall_impl; [|exact F2]. intros a (c' & Hin & H).
           exists c'. split; [now right|exact H].
      * intros n' Hn'. destruct (Hok2 n' Hn') as [Hn2 Hc2]. split.
        -- rewrite length_app. lia.
        -- intros c' [<-|Hin] Hv p Hp.
           ++ apply (cubierta_se_mantiene clk medianoche p w1 w' nv2).
              ** rewrite Hw2. reflexivity.
              ** now apply Hc1.
           ++ now apply (Hc2 c').
    + injection E as <- <-. exists nv1. split; [exact Hw1|]. split.
      * eapply Forall_impl; [|exact F1]. intros a (c' & [<-|[]] & H).
        exists c. split; [now left|exact H].
      * discriminate.
Qed.

End AccionAdmin.

(** A loop over cases that are all covered, or not close to their due
    date, does nothing. *)
Lemma bucle_admin_cubierto clk medianoche request_user l :
  forall n w,
    (forall c, In c l -> vence_pronto_admin clk c = true ->
               exists p, Caso.pk c = Some p /\ cubierta clk medianoche p w = true) ->
    for_each l (admin_crear_alerta_si_falta clk medianoche request_user) n w
    = (Ok n, w).
Proof.
  induction l as [|c l IH]; intros n w H; [reflexivity|].
  cbn [for_each]. unfold bind.
  assert (E : admin_crear_alerta_si_falta clk medianoche request_user c n w
              = (Ok n, w)).
  { unfold admin_crear_alerta_si_falta.
    destruct (vence_pronto_admin clk c) eqn:Hv; [|reflexivity].
    destruct (H c (or_introl eq_refl) Hv) as (p & Hp & Hc).
    unfold bind at 1, pk_de. rewrite Hp. cbn [ret].
    unfold bind at 1, get_world. fold (cubierta clk medianoche p w).
    now rewrite Hc. }
  rewrite E. apply IH. intros c' Hin. apply H. now right.
Qed.

Lemma caso_ticado_pk sel c :
  caso_ticado sel c = true <-> exists p, Caso.pk c = Some p /\ ticada sel p = true.
Proof.
  unfold caso_ticado. destruct (Caso.pk c) as [p|].
  - split; [intros H; now exists p|]. intros (q & E & H). now injection E as ->.
  - split; [discriminate|]. intros (q & E & _). discriminate.
Qed.

(** X7. [CasoAdmin.crear_alerta_vencimiento] on the ticked cases, when
    midnight of today is not after now + 1 h. However it ends, it only
    appends alerts and moves the alert sequence by their number. Each new
    alert is an unsent VENCIMIENTO alert created by the acting user, firing
    one hour from now, for a ticked stored case whose due date is at most 7
    days away and is not today: a case due today is passed over, an overdue
    one is not, and the status of the case plays no part. When the action
    ends normally its text carries the number of new alerts, every ticked
    case that is close to its due date in that sense has a VENCIMIENTO
    alert firing today or later, and the action run again on the same day,
    by any user, creates nothing and writes nothing. *)
Theorem CasoAdmin_crear_alerta_vencimiento_cubre :
  forall clk medianoche request_user sel w r w',
    medianoche (datetime_date (timezone_now clk))
    <= timezone_now clk + timedelta 0 1 0 0 ->
    CasoAdmin_crear_alerta_vencimiento clk medianoche request_user sel w = (r, w') ->
    exists nuevas,
      w' = with_alertas (alertas w ++ nuevas)
             (next_alerta_pk w + Z.of_nat (List.length nuevas)) w
      /\ Forall (hecha_por_admin clk request_user
                   (filter (caso_ticado sel) (casos w))) nuevas
      /\ (forall a, In a nuevas ->
            exists c fv,
              In c (casos w) /\ Caso.pk c = Some (Alerta.caso a)
              /\ ticada sel (Alerta.caso a) = true
              /\ Caso.fecha_vencimiento c = Some fv
              /\ fv <> date_today clk /\ fv - date_today clk <= 7)
      /\ (forall txt, r = Ok txt ->
            txt = (str_nat (List.length nuevas)
                     ++ " alertas de vencimiento creadas.")%string
            /\ (forall c p,
                   In c (casos w) -> Caso.pk c = Some p -> ticada sel p = true ->
                   vence_pronto_admin clk c = true ->
                   cubierta clk medianoche p w' = true)
            /\ (forall clk2 request_user2,
                   date_today clk2 = date_today clk ->
                   datetime_date (timezone_now clk2)
                   = datetime_date (timezone_now clk) ->
                   CasoAdmin_crear_alerta_vencimiento clk2 medianoche
                     request_user2 sel w'
                   = (Ok "0 alertas de vencimiento creadas."%string, w'))).
Proof.
  intros clk medianoche request_user sel w r w' Hmed E.
  unfold CasoAdmin_crear_alerta_vencimiento, bind at 1, get_world in E.
  unfold bind in E.
  destruct (for_each (order_by_meta (filter (caso_ticado sel) (casos w)))
              (admin_crear_alerta_si_falta clk medianoche request_user) O w)
    as [[n|e] w1] eqn:E1;
    destruct (bucle_admin clk medianoche request_user Hmed _ _ _ _ _ E1)
      as (nuevas & Hw1 & F & Hok);
    injection E as <- <-; exists nuevas.
  - assert (F' : Forall (hecha_por_admin clk request_user
                           (filter (caso_ticado sel) (casos w))) nuevas).
    { eapply Forall_impl; [|exact F]. intros a (c & Hin & H). exists c.
      split; [now apply In_order_by_meta|exact H]. }
    destruct (Hok n eq_refl) as [Hn Hcub]. cbn in Hn.
    split; [exact Hw1|]. split; [exact F'|]. split.
    + intros a Ha. rewrite Forall_forall in F'.
      destruct (F' a Ha) as (c & Hin & Hpk & Hv & _).
      apply filter_In in Hin. destruct Hin as [Hin Ht].
      apply vence_pronto_admin_fecha in Hv. destruct Hv as (fv & Hfv & H0 & H7).
      exists c, fv. repeat split; try assumption.
      unfold caso_ticado in Ht. now rewrite Hpk in Ht.
    + intros txt Htxt. injection Htxt as <-. split; [now rewrite Hn|]. split.
      * intros c p Hin Hp Ht Hv. apply (Hcub c); try assumption.
        apply In_order_by_meta, filter_In. split; [assumption|].
        unfold caso_ticado. now rewrite Hp.
      * intros clk2 request_user2 Hhoy Hdia.
        unfold CasoAdmin_crear_alerta_vencimiento, bind at 1, get_world.
        unfold bind. rewrite bucle_admin_cubierto; [reflexivity|].
        intros c Hin Hv. apply (proj1 (In_order_by_meta _ _)) in Hin.
        rewrite Hw1 in Hin. cbn [casos with_alertas] in Hin.
        pose proof Hin as Hin'. apply filter_In in Hin'.
        destruct Hin' as [_ Ht]. apply caso_ticado_pk in Ht.
        destruct Ht as (p & Hp & _). exists p. split; [assumption|].
        assert (Hv1 : vence_pronto_admin clk c = true).
        { revert Hv. unfold vence_pronto_admin, Caso.dias_hasta_vencimiento.
          now rewrite Hhoy. }
        unfold cubierta. rewrite Hdia. apply (Hcub c); try assumption.
        now apply In_order_by_meta.
  - split; [exact Hw1|]. split.
    + eapply Forall_impl; [|exact F]. intros a (c & Hin & H). exists c.
      split; [now apply In_order_by_meta|exact H].
    + split; [|discriminate].
      intros a Ha. rewrite Forall_forall in F.
      destruct (F a Ha) as (c & Hin & Hpk & Hv & _).
      apply (proj1 (In_order_by_meta _ _)), filter_In in Hin.
      destruct Hin as [Hin Ht].
      apply vence_pronto_admin_fecha in Hv. destruct Hv as (fv & Hfv & H0 & H7).
      exists c, fv. repeat split; try assumption.
      unfold caso_ticado in Ht. now rewrite Hpk in Ht.
Qed.

(** On the example, with midnight in UTC: carla ticks the four cases at
    ten; cases 1, 2 and 4 are due in a week and get an alert each, the
    closed case 4 included, and case 3 gets none. *)
Lemma CasoAdmin_crear_alerta_vencimiento_cubre_witness :
  exists nuevas,
    alertas (snd (CasoAdmin_crear_alerta_vencimiento Ejemplo.reloj
                    (fun d => d * usec_per_day) Ejemplo.carla [1; 2; 3; 4]
                    Ejemplo.mundo))
    = alertas Ejemplo.mundo ++ nuevas
    /\ List.length nuevas = 3%nat
    /\ Forall (hecha_por_admin Ejemplo.reloj Ejemplo.carla
                 (filter (caso_ticado [1; 2; 3; 4]) (casos Ejemplo.mundo)))
         nuevas.
Proof.
  destruct (CasoAdmin_crear_alerta_vencimiento_cubre Ejemplo.reloj
              (fun d => d * usec_per_day) Ejemplo.carla [1; 2; 3; 4]
              Ejemplo.mundo
              (fst (CasoAdmin_crear_alerta_vencimiento Ejemplo.reloj
                      (fun d => d * usec_per_day) Ejemplo.carla [1; 2; 3; 4]
                      Ejemplo.mundo))
              (snd (CasoAdmin_crear_alerta_vencimiento Ejemplo.reloj
                      (fun d => d * usec_per_day) Ejemplo.carla [1; 2; 3; 4]
                      Ejemplo.mundo)))
    as (nuevas & Hw & F & _).
  - vm_compute. discriminate.
  - apply surjective_pairing.
  - exists nuevas. rewrite Hw. split; [reflexivity|]. split; [|exact F].
    apply (f_equal (fun w => List.length (alertas w))) in Hw.
    cbn [alertas with_alertas] in Hw. rewrite length_app in Hw.
    vm_compute in Hw. change (8 = 5 + List.length nuevas)%nat in Hw. lia.
Defined.

(** ** The admin actions on cases *)

Lemma caso_ticado_set_estado sel e c :
  caso_ticado sel (Caso_set_estado e c) = caso_ticado sel c.
Proof. reflexivity. Qed.

(** X8. The admin actions on cases write the one column they name on the
    ticked rows (no [save], so no receiver runs and nothing is recomputed)
    and report the number of ticked rows. After [marcar_como_cerrado] the
    ticked cases are CERRADO, the others are as before, and a run of
    [crear_alertas_vencimiento] makes no alert for a ticked case, whatever
    its due date. After [marcar_urgente] the ticked rows are flagged, while
    the deadline tier of every row is what it was: a flagged case can still
    read "normal". Neither action touches the alert table. *)
Theorem acciones_sobre_casos :
  forall clk sel w,
    let n := List.length (filter (caso_ticado sel) (casos w)) in
    let cerrados :=
      map (fun c => if caso_ticado sel c then Caso_set_estado CERRADO c else c)
        (casos w) in
    let urgentes :=
      map (fun c => if caso_ticado sel c then Caso.set_urgente true c else c)
        (casos w) in
    marcar_como_cerrado sel w
    = (Ok (str_nat n ++ " casos marcados como cerrados.")%string,
       with_casos cerrados (next_caso_pk w) w)
    /\ marcar_urgente sel w
       = (Ok (str_nat n ++ " casos marcados como urgentes.")%string,
          with_casos urgentes (next_caso_pk w) w)
    /\ map Caso.pk cerrados = map Caso.pk (casos w)
    /\ (forall c, In c cerrados -> caso_ticado sel c = true ->
                  Caso.estado c = CERRADO)
    /\ (forall c, In c cerrados -> caso_ticado sel c = false -> In c (casos w))
    /\ (exists nuevas,
           alertas (snd (crear_alertas_vencimiento clk
                           (snd (marcar_como_cerrado sel w))))
           = alertas w ++ nuevas
           /\ forall a, In a nuevas -> ticada sel (Alerta.caso a) = false)
    /\ (forall c, In c urgentes -> caso_ticado sel c = true ->
                  Caso.urgente c = true)
    /\ map (estado_vencimiento clk) urgentes
       = map (estado_vencimiento clk) (casos w).
Proof.
  intros clk sel w n cerrados urgentes.
  assert (Hce : marcar_como_cerrado sel w
                = (Ok (str_nat n ++ " casos marcados como cerrados.")%string,
                   with_casos cerrados (next_caso_pk w) w)) by reflexivity.
  split; [exact Hce|]. split; [reflexivity|].
  split; [|split; [|split; [|split; [|split]]]].
  - unfold cerrados. rewrite map_map. apply map_ext. intros c.
    now destruct (caso_ticado sel c).
  - intros c Hin Ht. apply in_map_iff in Hin. destruct Hin as (x & Hx & _).
    destruct (caso_ticado sel x) eqn:E; subst c; [reflexivity|congruence].
  - intros c Hin Ht. apply in_map_iff in Hin. destruct Hin as (x & Hx & Hin).
    destruct (caso_ticado sel x) eqn:E; subst c; [|assumption].
    rewrite caso_ticado_set_estado in Ht. congruence.
  - rewrite Hce. cbn [snd].
    destruct (crear_alertas_vencimiento clk
                (with_casos cerrados (next_caso_pk w) w)) as [r w'] eqn:E.
    cbn [snd]. destruct (crear_alertas_vencimiento_anexa _ _ _ _ E)
      as (nuevas & Hw' & F).
    exists nuevas. split; [exact Hw'|].
    intros a Ha. rewrite Forall_forall in F.
    destruct (F a Ha) as [(c & u & Hin & Hpk & _) _].
    apply In_casos_proximos in Hin. destruct Hin as (Hc & He & _).
    cbn [casos with_casos] in Hc. apply in_map_iff in Hc.
    destruct Hc as (x & Hx & _).
    destruct (caso_ticado sel x) eqn:Et; subst c; [discriminate|].
    unfold caso_ticado in Et. now rewrite Hpk in Et.
  - intros c Hin Ht. apply in_map_iff in Hin. destruct Hin as (x & Hx & _).
    destruct (caso_ticado sel x) eqn:E; subst c; [reflexivity|congruence].
  - unfold urgentes. rewrite map_map. apply map_ext. intros c.
    now destruct (caso_ticado sel c).
Qed.

(** ** The decorator [caso_owner_required] *)

Lemma get_caso_or_404_lee pk w r w' :
  get_caso_or_404 pk w = (r, w') -> w' = w.
Proof.
  unfold get_caso_or_404, try_except.
  destruct (Caso_objects_get pk w) as [[c|e] w1] eqn:Hget;
    apply Caso_objects_get_lee in Hget; subst w1.
  - intros H. now injection H.
  - destruct e; intros H; now injection H.
Qed.

(** X12. The decorator around a view. A staff user reaches the view with
    no lookup. For anyone else the case id is the URL argument [pk], or
    [caso_pk] when [pk] is missing or 0; with no id, or id 0, the view runs
    unchecked. With an id: a missing case ends in [Http404] and a stored
    case of another user (or an anonymous request) in [PermissionDenied]
    with the text "No tienes permisos para acceder a este caso", the view
    not being run and nothing written; the responsible user of the case
    reaches the view, on the world as it was. *)
Theorem caso_owner_required_filtra :
  forall (A : Type) (view_func : M A) request_user pk caso_pk w,
    (request_is_staff request_user = true ->
     caso_owner_required view_func request_user pk caso_pk w = view_func w)
    /\ (request_is_staff request_user = false ->
        pk_truthy (kwargs_caso_id pk caso_pk) = false ->
        caso_owner_required view_func request_user pk caso_pk w = view_func w)
    /\ (forall id,
           request_is_staff request_user = false ->
           kwargs_caso_id pk caso_pk = Some id -> id <> 0 ->
           (Caso_objects_get id w = (Raise Caso_DoesNotExist, w) ->
            caso_owner_required view_func request_user pk caso_pk w
            = (Raise (Http404 "No Caso matches the given query."), w))
           /\ (forall caso responsable,
                  Caso_objects_get id w = (Ok caso, w) ->
                  User_objects_get (Caso.usuario_responsable caso) w
                  = (Ok responsable, w) ->
                  caso_owner_required view_func request_user pk caso_pk w
                  = if distinto_de responsable request_user
                    then (Raise (PermissionDenied
                                   "No tienes permisos para acceder a este caso"),
                          w)
                    else view_func w))
    /\ (pk_truthy pk = true -> kwargs_caso_id pk caso_pk = pk)
    /\ (pk_truthy pk = false -> kwargs_caso_id pk caso_pk = caso_pk)
    /\ (forall r w',
           caso_owner_required view_func request_user pk caso_pk w = (r, w') ->
           (exists e, r = Raise e /\ w' = w) \/ view_func w = (r, w')).
Proof.
  intros A view_func request_user pk caso_pk w.
  split; [|split; [|split; [|split; [|split]]]].
  - intros Hs. unfold caso_owner_required. now rewrite Hs.
  - intros Hs Hid. unfold caso_owner_required. rewrite Hs, Hid. reflexivity.
  - intros id Hs Hid Hnz.
    assert (Ht : pk_truthy (Some id) = true).
    { unfold pk_truthy. apply negb_true_iff. now apply Z.eqb_neq. }
    split.
    + intros Hget. unfold caso_owner_required. rewrite Hs, Hid, Ht.
      unfold bind, get_caso_or_404, try_except. now rewrite Hget.
    + intros caso responsable Hget Hu. unfold caso_owner_required.
      rewrite Hs, Hid, Ht. unfold bind at 1, bind at 1.
      unfold get_caso_or_404, try_except. rewrite Hget.
      unfold bind at 1. rewrite Hu.
      now destruct (distinto_de responsable request_user).
  - intros Hp. unfold kwargs_caso_id. now rewrite Hp.
  - intros Hp. unfold kwargs_caso_id. now rewrite Hp.
  - intros r w'. unfold caso_owner_required.
    destruct (request_is_staff request_user); [now right|].
    destruct (pk_truthy (kwargs_caso_id pk caso_pk)); [|now right].
    destruct (kwargs_caso_id pk caso_pk) as [id|]; [|now right].
    unfold bind at 1, bind at 1.
    destruct (get_caso_or_404 id w) as [[caso|e] w1] eqn:Hc;
      apply get_caso_or_404_lee in Hc; subst w1.
    2:{ intros H. injection H as <- <-. left. now exists e. }
    unfold bind at 1.
    destruct (User_objects_get (Caso.usuario_responsable caso) w)
      as [[u|e] w1] eqn:Hu;
      apply User_objects_get_lee in Hu; subst w1.
    2:{ intros H. injection H as <- <-. left. now exists e. }
    destruct (distinto_de u request_user).
    + intros H. injection H as <- <-. left. eexists. now split.
    + now right.
Qed.

(** ** The list of alerts and the right to mark one read *)

Lemma existsb_de_filtro {A} (f g : A -> bool) l x :
  filter f l = [x] -> existsb (fun c => f c && g c) l = g x.
Proof.
  revert x. induction l as [|y l IH]; intros x; cbn; [discriminate|].
  destruct (f y) eqn:E; cbn.
  - intros H. injection H as -> Hl.
    assert (Hno : existsb (fun c => f c && g c) l = false).
    { clear IH E. induction l as [|z l IHl]; [reflexivity|].
      cbn in Hl |- *. destruct (f z); [discriminate|]. cbn. now apply IHl. }
    rewrite Hno. apply orb_false_r.
  - apply IH.
Qed.

Lemma Caso_objects_get_filtro id w c :
  Caso_objects_get id w = (Ok c, w) ->
  filter (tiene_pk id) (casos w) = [c].
Proof.
  unfold Caso_objects_get, bind, get_world. intros H.
  apply objects_get_lee in H. destruct H as [_ H]. now apply H.
Qed.

Lemma User_objects_get_pk id w u :
  User_objects_get id w = (Ok u, w) -> User.pk u = id.
Proof.
  unfold User_objects_get, bind, get_world. intros H.
  apply objects_get_lee in H. destruct H as [_ H].
  destruct (filter_unico_in _ _ _ (H u eq_refl)) as [_ Hpk].
  now apply Z.eqb_eq.
Qed.

(** X13. The queryset of [AlertaListView] holds stored alerts only,
    latest [fecha_alerta] first. For an alert stored once whose case,
    responsible user and creator are stored, being in the list of a
    logged-in user and being allowed by [marcar_alerta_leida] are the same
    thing: the user is staff or the responsible user of the alert's case. So
    the view refuses exactly the alerts the list does not show. *)
Theorem AlertaListView_y_permiso :
  forall user w,
    (forall a, In a (AlertaListView_get_queryset user w) -> In a (alertas w))
    /\ ordenadas_desc (AlertaListView_get_queryset user w) = true
    /\ (forall pk alerta caso responsable,
           Alerta_objects_get pk w = (Ok alerta, w) ->
           Caso_objects_get (Alerta.caso alerta) w = (Ok caso, w) ->
           User_objects_get (Caso.usuario_responsable caso) w
           = (Ok responsable, w) ->
           existsb (fun u => User.pk u =? Alerta.usuario_creador alerta)
             (users w) = true ->
           (In alerta (AlertaListView_get_queryset user w)
            <-> User.is_staff user = true
                \/ Caso.usuario_responsable caso = User.pk user)
           /\ (fst (marcar_alerta_leida (Authenticated user) pk w)
               = Ok (Redirect "Casos:alertas" "Alerta marcada como leída.")
               <-> In alerta (AlertaListView_get_queryset user w))
           /\ (es_http404 (fst (marcar_alerta_leida (Authenticated user) pk w))
               = true
               <-> ~ In alerta (AlertaListView_get_queryset user w))).
Proof.
  intros user w. split; [|split].
  - intros a Ha. unfold AlertaListView_get_queryset in Ha.
    apply (proj1 (In_order_by_fecha_alerta_desc _ _)) in Ha.
    destruct (negb (User.is_staff user)).
    + apply filter_In in Ha. destruct Ha as [Ha _].
      apply filter_In in Ha. tauto.
    + apply filter_In in Ha. tauto.
  - apply ordenadas_desc_order_by.
  - intros pk alerta caso responsable Hget Hcaso Hu Hcreador.
    destruct (Alerta_objects_get_lee _ _ _ _ Hget) as [_ Hfil].
    destruct (filter_unico_in _ _ _ (Hfil alerta eq_refl)) as [Hin _].
    pose proof (Caso_objects_get_filtro _ _ _ Hcaso) as Hfc.
    pose proof (User_objects_get_pk _ _ _ Hu) as Hpk.
    assert (Hjoin : existsb (tiene_pk (Alerta.caso alerta)) (casos w) = true).
    { apply existsb_exists. exists caso. now apply filter_unico_in. }
    assert (Hlista : In alerta (AlertaListView_get_queryset user w)
                     <-> User.is_staff user = true
                         \/ Caso.usuario_responsable caso = User.pk user).
    { unfold AlertaListView_get_queryset.
      rewrite In_order_by_fecha_alerta_desc.
      destruct (User.is_staff user) eqn:Hs; cbn [negb].
      - rewrite filter_In, Hjoin, Hcreador. intuition.
      - rewrite !filter_In, Hjoin, Hcreador.
        rewrite (existsb_de_filtro (tiene_pk (Alerta.caso alerta))
                   (fun c => Caso.usuario_responsable c =? User.pk user)
                   (casos w) caso Hfc).
        rewrite Z.eqb_eq. intuition discriminate. }
    assert (Hvista : marcar_alerta_leida (Authenticated user) pk w
                     = if negb (User.is_staff user)
                          && negb (Caso.usuario_responsable caso =? User.pk user)
                       then (Raise (Http404 "No tienes permisos para esta alerta"),
                             w)
                       else (Ok (Redirect "Casos:alertas"
                                   "Alerta marcada como leída."),
                             with_alertas (leer_filas pk (alertas w))
                               (next_alerta_pk w) w)).
    { unfold marcar_alerta_leida, bind at 1.
      rewrite (get_alerta_or_404_ok pk alerta w Hget). unfold bind at 1.
      destruct (User.is_staff user); cbn [negb andb].
      - unfold ret at 1. unfold bind.
        now rewrite (marcar_leida_escribe pk alerta w Hget).
      - unfold bind at 1. rewrite Hcaso. unfold bind at 1. rewrite Hu.
        unfold ret at 1. rewrite Hpk.
        destruct (Caso.usuario_responsable caso =? User.pk user); cbn [negb].
        + unfold bind. now rewrite (marcar_leida_escribe pk alerta w Hget).
        + reflexivity. }
    split; [exact Hlista|]. rewrite Hvista, Hlista.
    destruct (User.is_staff user); cbn [negb andb fst es_http404].
    + split; split; intros H; try discriminate; try reflexivity;
        try (now left); try (exfalso; apply H; now left).
    + destruct (Caso.usuario_responsable caso =? User.pk user) eqn:E;
        cbn [negb fst es_http404].
      * apply Z.eqb_eq in E.
        split; split; intros H; try discriminate; try reflexivity;
          try (now right); try (exfalso; apply H; now right).
      * apply Z.eqb_neq in E.
        split; split; intros H; try discriminate; try reflexivity;
          try (destruct H; [discriminate|contradiction]);
          try (intros [H'|H']; [discriminate|contradiction]).
Qed.

(** On the example: ana sees alert 1, of her case 1, and may mark it;
    alert 2 belongs to beto's case and is neither shown to her nor hers to
    mark. *)
Lemma AlertaListView_y_permiso_witness :
  fst (marcar_alerta_leida (Authenticated Ejemplo.ana) 1 Ejemplo.mundo)
  = Ok (Redirect "Casos:alertas" "Alerta marcada como leída.")
  /\ es_http404 (fst (marcar_alerta_leida (Authenticated Ejemplo.ana) 2
                        Ejemplo.mundo)) = true.
Proof.
  destruct (AlertaListView_y_permiso Ejemplo.ana Ejemplo.mundo) as (_ & _ & H).
  split.
  - apply (H 1 (Ejemplo.alerta 1 1 SEGUIMIENTO false None
                  (Some "ana@example.org"%string) (19998 * usec_per_day))
             (Ejemplo.caso (Some 1) "C-1-2024" (Some 20007) EN_TRAMITACION 1 true)
             Ejemplo.ana eq_refl eq_refl eq_refl eq_refl).
    vm_compute. tauto.
  - apply (H 2 (Ejemplo.alerta 2 2 SEGUIMIENTO false None None
                  (19998 * usec_per_day))
             (Ejemplo.caso (Some 2) "P-2-2024" (Some 20007) EN_TRAMITACION 2 true)
             Ejemplo.beto eq_refl eq_refl eq_refl eq_refl).
    vm_compute. intros [H'|[H'|[H'|[H'|[]]]]]; discriminate.
Defined.

(** ** Access to the upload view *)

Lemma get_caso_or_404_ok pk caso w :
  Caso_objects_get pk w = (Ok caso, w) -> get_caso_or_404 pk w = (Ok caso, w).
Proof. intros H. unfold get_caso_or_404, try_except. now rewrite H. Qed.

(** X14. [SubirDocumentoView.dispatch] looks the case up before anything
    else, so a missing case is [Http404] for everyone, staff included, and
    an anonymous request never gets the login redirect of the mixin: it
    ends in an exception, the world as it was. For a logged-in user and a
    stored case the request goes on exactly when the user is staff or the
    responsible user of the case; otherwise it is [Http404] with the text
    "No tienes permisos para acceder a este caso". The decorator
    [caso_owner_required] lets the same users through for the same case and
    refuses the others with [PermissionDenied] instead. *)
Theorem SubirDocumentoView_dispatch_filtra :
  forall request_user caso_pk super_dispatch w,
    (Caso_objects_get caso_pk w = (Raise Caso_DoesNotExist, w) ->
     SubirDocumentoView_dispatch request_user caso_pk super_dispatch w
     = (Raise (Http404 "No Caso matches the given query."), w))
    /\ (forall r w',
           request_user = AnonymousUser ->
           SubirDocumentoView_dispatch request_user caso_pk super_dispatch w
           = (r, w') ->
           (exists e, r = Raise e) /\ w' = w)
    /\ (forall user caso responsable,
           request_user = Authenticated user ->
           Caso_objects_get caso_pk w = (Ok caso, w) ->
           User_objects_get (Caso.usuario_responsable caso) w
           = (Ok responsable, w) ->
           let permitido :=
             User.is_staff user
             || (Caso.usuario_responsable caso =? User.pk user) in
           SubirDocumentoView_dispatch request_user caso_pk super_dispatch w
           = (if permitido then super_dispatch w
              else (Raise (Http404 "No tienes permisos para acceder a este caso"),
                    w))
           /\ (caso_pk <> 0 ->
               caso_owner_required super_dispatch request_user None (Some caso_pk) w
               = if permitido then super_dispatch w
                 else (Raise (PermissionDenied
                                "No tienes permisos para acceder a este caso"),
                       w))).
Proof.
  intros request_user caso_pk super_dispatch w. split; [|split].
  - intros Hget. unfold SubirDocumentoView_dispatch, bind, get_caso_or_404,
      try_except. now rewrite Hget.
  - intros r w' -> E. unfold SubirDocumentoView_dispatch, bind at 1 in E.
    destruct (get_caso_or_404 caso_pk w) as [[caso|e] w1] eqn:Hc;
      apply get_caso_or_404_lee in Hc; subst w1.
    2:{ injection E as <- <-. split; [now exists e|reflexivity]. }
    cbn [request_is_staff negb] in E. unfold bind at 1, bind at 1 in E.
    destruct (User_objects_get (Caso.usuario_responsable caso) w)
      as [[u|e] w1] eqn:Hu;
      apply User_objects_get_lee in Hu; subst w1.
    + cbn in E. injection E as <- <-. split; [eexists; reflexivity|reflexivity].
    + injection E as <- <-. split; [now exists e|reflexivity].
  - intros user caso responsable -> Hget Hu permitido.
    pose proof (User_objects_get_pk _ _ _ Hu) as Hpk.
    assert (Hdist : distinto_de responsable (Authenticated user)
                    = negb (Caso.usuario_responsable caso =? User.pk user)).
    { cbn. now rewrite Hpk. }
    split.
    + unfold SubirDocumentoView_dispatch, bind at 1.
      rewrite (get_caso_or_404_ok _ _ _ Hget). unfold bind at 1.
      cbn [request_is_staff]. unfold permitido.
      destruct (User.is_staff user); cbn [negb orb].
      * reflexivity.
      * unfold bind at 1. rewrite Hu. unfold ret at 1. rewrite Hdist.
        now destruct (Caso.usuario_responsable caso =? User.pk user).
    + intros Hnz. unfold caso_owner_required. cbn [request_is_staff].
      unfold permitido.
      destruct (User.is_staff user); cbn [orb]; [reflexivity|].
      unfold kwargs_caso_id. cbn [pk_truthy].
      replace (caso_pk =? 0) with false by (symmetry; now apply Z.eqb_neq).
      cbn [negb]. unfold bind at 1, bind at 1.
      rewrite (get_caso_or_404_ok _ _ _ Hget). unfold bind at 1. rewrite Hu.
      rewrite Hdist.
      now destruct (Caso.usuario_responsable caso =? User.pk user).
Qed.

(** ** The chart of coming due dates *)

Lemma In_insertar_por_vencimiento x c l :
  In x (insertar_por_vencimiento c l) <-> x = c \/ In x l.
Proof.
  induction l as [|y l IH]; cbn.
  - intuition.
  - destruct (vence_despues c y); cbn; rewrite ?IH; intuition.
Qed.

Lemma In_order_by_fecha_vencimiento x l :
  In x (order_by_fecha_vencimiento l) <-> In x l.
Proof.
  induction l as [|c l IH]; cbn; [reflexivity|].
  rewrite In_insertar_por_vencimiento, IH. intuition.
Qed.

Lemma length_insertar_por_vencimiento c l :
  List.length (insertar_por_vencimiento c l) = S (List.length l).
Proof.
  induction l as [|y l IH]; cbn; [reflexivity|].
  destruct (vence_despues c y); cbn; now rewrite ?IH.
Qed.

Lemma length_order_by_fecha_vencimiento l :
  List.length (order_by_fecha_vencimiento l) = List.length l.
Proof.
  induction l as [|c l IH]; cbn; [reflexivity|].
  now rewrite length_insertar_por_vencimiento, IH.
Qed.

Section Grafico.

Variable clk : Clock.

Lemma vence_despues_dias a b :
  Caso.fecha_vencimiento a <> None -> Caso.fecha_vencimiento b <> None ->
  vence_despues a b = (dias_de clk b <? dias_de clk a).
Proof.
  unfold vence_despues, dias_de, Caso.dias_hasta_vencimiento.
  destruct (Caso.fecha_vencimiento a) as [fa|]; [|contradiction].
  destruct (Caso.fecha_vencimiento b) as [fb|]; [|contradiction].
  intros _ _. destruct (Z.ltb_spec fb fa), (Z.ltb_spec (fb - date_today clk)
                                              (fa - date_today clk)); try reflexivity; lia.
Qed.

Lemma crecientes_insertar c l :
  Caso.fecha_vencimiento c <> None ->
  Forall (fun x => Caso.fecha_vencimiento x <> None) l ->
  crecientes (map (dias_de clk) l) = true ->
  crecientes (map (dias_de clk) (insertar_por_vencimiento c l)) = true.
Proof.
  intros Hc. induction l as [|x l IH]; intros Hl H; [reflexivity|].
  inversion Hl as [|x' l' Hx Hl']; subst.
  cbn [map crecientes] in H. apply andb_true_iff in H. destruct H as [Hxl Hs].
  cbn [insertar_por_vencimiento]. rewrite (vence_despues_dias c x Hc Hx).
  destruct (Z.ltb_spec (dias_de clk x) (dias_de clk c)) as [Hlt|Hge].
  - cbn [map crecientes]. apply andb_true_iff. split; [|now apply IH].
    apply forallb_forall. intros d Hd. apply in_map_iff in Hd.
    destruct Hd as (y & <- & Hy). apply In_insertar_por_vencimiento in Hy.
    destruct Hy as [->|Hy]; [apply Z.leb_le; lia|].
    rewrite forallb_forall in Hxl. apply Hxl. now apply in_map.
  - cbn [map crecientes]. apply andb_true_iff. split.
    + cbn [forallb]. apply andb_true_iff. split; [now apply Z.leb_le|].
      apply forallb_forall. intros d Hd. rewrite forallb_forall in Hxl.
      specialize (Hxl d Hd). apply Z.leb_le in Hxl. apply Z.leb_le. lia.
    + apply andb_true_iff. now split.
Qed.

Lemma crecientes_order_by l :
  Forall (fun x => Caso.fecha_vencimiento x <> None) l ->
  crecientes (map (dias_de clk) (order_by_fecha_vencimiento l)) = true.
Proof.
  induction l as [|c l IH]; intros Hl; [reflexivity|].
  inversion Hl as [|c' l' Hc Hl']; subst. cbn [order_by_fecha_vencimiento].
  apply crecientes_insertar; [assumption| |now apply IH].
  apply Forall_forall. intros x Hx.
  apply (proj1 (In_order_by_fecha_vencimiento _ _)) in Hx.
  rewrite Forall_forall in Hl'. now apply Hl'.
Qed.

End Grafico.

(** In a non-decreasing list split in two, nothing of the first part is
    above anything of the second, and the first part is non-decreasing. *)
Lemma crecientes_app l1 l2 :
  crecientes (l1 ++ l2) = true ->
  crecientes l1 = true /\ forall a b, In a l1 -> In b l2 -> a <= b.
Proof.
  induction l1 as [|x l1 IH]; cbn [app crecientes]; intros H.
  - split; [reflexivity|]. intros a b [].
  - apply andb_true_iff in H. destruct H as [Hx Hs].
    destruct (IH Hs) as [Hs1 Hle]. rewrite forallb_app in Hx.
    apply andb_true_iff in Hx. destruct Hx as [Hx1 Hx2]. split.
    + now rewrite Hx1, Hs1.
    + intros a b [<-|Ha] Hb.
      * rewrite forallb_forall in Hx2. apply Z.leb_le. now apply Hx2.
      * now apply Hle.
Qed.

(** The loop on cases that all have a due date. *)
Lemma bucle_grafico_forma clk l :
  Forall (fun x => Caso.fecha_vencimiento x <> None) l ->
  forall labels values colors,
    bucle_grafico clk l (labels, values, colors)
    = inr (labels ++ map etiqueta l,
           values ++ map (fun c => Some (dias_de clk c)) l,
           colors ++ map (fun c => color_de_dias (dias_de clk c)) l).
Proof.
  induction l as [|c l IH]; intros Hl labels values colors.
  - cbn. now rewrite !app_nil_r.
  - inversion Hl as [|c' l' Hc Hl']; subst.
    assert (Hd : Caso.dias_hasta_vencimiento clk c = Some (dias_de clk c)).
    { unfold dias_de, Caso.dias_hasta_vencimiento.
      destruct (Caso.fecha_vencimiento c); [reflexivity|contradiction]. }
    cbn [bucle_grafico map]. rewrite Hd, (IH Hl'). fold (etiqueta c).
    now rewrite <- !app_assoc.
Qed.

Lemma vence_en_30_dias_fecha clk c :
  vence_en_30_dias clk c = true ->
  Caso.estado c = EN_TRAMITACION
  /\ Caso.dias_hasta_vencimiento clk c = Some (dias_de clk c)
  /\ 0 <= dias_de clk c <= 30.
Proof.
  unfold vence_en_30_dias, dias_de, Caso.dias_hasta_vencimiento.
  intros H. apply andb_true_iff in H. destruct H as [He Hf].
  apply EstadoCaso_eqb_eq in He.
  destruct (Caso.fecha_vencimiento c) as [fv|]; [|discriminate].
  apply andb_true_iff in Hf. destruct Hf as [H1 H2].
  apply Z.leb_le in H1, H2. repeat split; try assumption; lia.
Qed.

Lemma color_de_dias_nivel clk c d :
  Caso.dias_hasta_vencimiento clk c = Some d -> 0 <= d ->
  (color_de_dias d = "#dc3545"%string
   <-> ev_estado (estado_vencimiento clk c) = "critico"%string)
  /\ (color_de_dias d = "#ffc107"%string
      <-> ev_estado (estado_vencimiento clk c) = "urgente"%string)
  /\ (color_de_dias d = "#28a745"%string
      <-> ev_estado (estado_vencimiento clk c) = "normal"%string).
Proof.
  intros Hd H0. unfold estado_vencimiento, color_de_dias. rewrite Hd.
  replace (d <? 0) with false by (symmetry; apply Z.ltb_ge; lia).
  destruct (d <=? 3); [|destruct (d <=? 7)]; cbn [ev_estado];
    repeat split; intros H; try discriminate; reflexivity.
Qed.

(** X15. The chart of coming due dates never fails on a [None] and shows
    at most ten cases, earliest due date first. Each is a stored case in
    EN_TRAMITACION, one of the user's own unless the user is staff, due
    today or within 30 days; the number charted for it is its days left,
    and its colour is the deadline tier of the model: red for "critico",
    yellow for "urgente", green for "normal" (an overdue case is never
    charted). A qualifying case is left out only when ten are shown, none of
    them due after it. The label of a case is its rol and its recurrente
    cut at 30 characters. *)
Theorem proximos_vencimientos_api_grafico :
  forall clk user w,
    let mostrados := casos_del_grafico clk user w in
    let dias := map (dias_de clk) mostrados in
    proximos_vencimientos_api clk user w
    = inr {| js_labels := map etiqueta mostrados;
             js_data := map Some dias;
             js_backgroundColor := map color_de_dias dias;
             js_borderColor := map color_de_dias dias |}
    /\ (List.length mostrados <= 10)%nat
    /\ crecientes dias = true
    /\ (forall c,
           In c mostrados ->
           In c (casos w)
           /\ Caso.estado c = EN_TRAMITACION
           /\ (User.is_staff user = true
               \/ Caso.usuario_responsable c = User.pk user)
           /\ Caso.dias_hasta_vencimiento clk c = Some (dias_de clk c)
           /\ 0 <= dias_de clk c <= 30
           /\ (color_de_dias (dias_de clk c) = "#dc3545"%string
               <-> ev_estado (estado_vencimiento clk c) = "critico"%string)
           /\ (color_de_dias (dias_de clk c) = "#ffc107"%string
               <-> ev_estado (estado_vencimiento clk c) = "urgente"%string)
           /\ (color_de_dias (dias_de clk c) = "#28a745"%string
               <-> ev_estado (estado_vencimiento clk c) = "normal"%string))
    /\ (forall c,
           In c (casos w) -> vence_en_30_dias clk c = true ->
           User.is_staff user = true
           \/ Caso.usuario_responsable c = User.pk user ->
           ~ In c mostrados ->
           List.length mostrados = 10%nat
           /\ forall c', In c' mostrados -> dias_de clk c' <= dias_de clk c)
    /\ (forall c,
           exists corte,
             etiqueta c = (Caso.rol c ++ " - " ++ corte)%string
             /\ len corte = Nat.min 30 (len (Caso.recurrente c))
             /\ ((len (Caso.recurrente c) <= 30)%nat ->
                 corte = Caso.recurrente c)).
Proof.
  intros clk user w mostrados dias.
  set (del_usuario :=
         if User.is_staff user then casos w
         else filter (fun c => Caso.usuario_responsable c =? User.pk user)
                (casos w)).
  set (candidatos := filter (vence_en_30_dias clk) del_usuario).
  set (ordenados := order_by_fecha_vencimiento candidatos).
  assert (Hm : mostrados = firstn 10 ordenados) by reflexivity.
  assert (Hpartes : ordenados = mostrados ++ skipn 10 ordenados).
  { rewrite Hm. symmetry. apply firstn_skipn. }
  assert (Hdel : forall c, In c del_usuario
                           <-> In c (casos w)
                               /\ (User.is_staff user = true
                                   \/ Caso.usuario_responsable c = User.pk user)).
  { intros c. unfold del_usuario. destruct (User.is_staff user).
    - intuition.
    - rewrite filter_In, Z.eqb_eq. intuition discriminate. }
  assert (Hord : forall c, In c ordenados
                           <-> In c del_usuario /\ vence_en_30_dias clk c = true).
  { intros c. unfold ordenados. rewrite In_order_by_fecha_vencimiento.
    apply filter_In. }
  assert (Hfechas : Forall (fun x => Caso.fecha_vencimiento x <> None) candidatos).
  { apply Forall_forall. intros c Hc. apply filter_In in Hc.
    destruct Hc as [_ Hv]. apply vence_en_30_dias_fecha in Hv.
    destruct Hv as (_ & Hd & _). unfold Caso.dias_hasta_vencimiento in Hd.
    destruct (Caso.fecha_vencimiento c); discriminate. }
  assert (Hcre : crecientes (map (dias_de clk) ordenados) = true)
    by now apply crecientes_order_by.
  rewrite Hpartes, map_app in Hcre. apply crecientes_app in Hcre.
  destruct Hcre as [Hcre Hle].
  assert (Hmf : Forall (fun x => Caso.fecha_vencimiento x <> None) mostrados).
  { apply Forall_forall. intros c Hc.
    assert (Hc' : In c ordenados) by (rewrite Hpartes; apply in_or_app; now left).
    apply (proj1 (In_order_by_fecha_vencimiento _ _)) in Hc'.
    rewrite Forall_forall in Hfechas. now apply Hfechas. }
  split; [|split; [|split; [|split; [|split]]]].
  - unfold proximos_vencimientos_api. fold mostrados.
    rewrite (bucle_grafico_forma clk mostrados Hmf). cbn [app].
    unfold dias. now rewrite !map_map.
  - rewrite Hm. apply firstn_le_length.
  - exact Hcre.
  - intros c Hc.
    assert (Hc' : In c ordenados) by (rewrite Hpartes; apply in_or_app; now left).
    apply Hord in Hc'. destruct Hc' as [Hu Hv]. apply Hdel in Hu.
    destruct Hu as [Hin Hown]. apply vence_en_30_dias_fecha in Hv.
    destruct Hv as (He & Hd & H0 & H30).
    split; [assumption|]. split; [assumption|]. split; [assumption|].
    split; [assumption|]. split; [lia|].
    apply (color_de_dias_nivel clk c (dias_de clk c) Hd H0).
  - intros c Hin Hv Hown Hno.
    assert (Hc : In c ordenados).
    { apply Hord. split; [|assumption]. apply Hdel. now split. }
    rewrite Hpartes in Hc. apply in_app_or in Hc.
    destruct Hc as [Hc|Hc]; [contradiction|].
    assert (Hlargo : (10 < List.length ordenados)%nat).
    { destruct (Nat.le_gt_cases (List.length ordenados) 10) as [Hl|Hl];
        [|assumption].
      rewrite (skipn_all2 _ Hl) in Hc. contradiction. }
    split.
    + rewrite Hm. apply firstn_length_le. lia.
    + intros c' Hc'. apply Hle; now apply in_map.
  - intros c. exists (hasta 30 (Caso.recurrente c)).
    split; [reflexivity|]. split; [apply len_hasta|apply hasta_todo].
Qed.

(** ** The dashboard *)

Lemma length_filter_insertar_por_vencimiento (p : Caso.t -> bool) c l :
  List.length (filter p (insertar_por_vencimiento c l))
  = List.length (filter p (c :: l)).
Proof.
  induction l as [|x l IH]; [reflexivity|].
  cbn [insertar_por_vencimiento]. destruct (vence_despues c x); [|reflexivity].
  cbn [filter] in *. destruct (p x), (p c); cbn [List.length] in *; lia.
Qed.

Lemma length_filter_order_by_fecha_vencimiento (p : Caso.t -> bool) l :
  List.length (filter p (order_by_fecha_vencimiento l))
  = List.length (filter p l).
Proof.
  induction l as [|c l IH]; [reflexivity|].
  cbn [order_by_fecha_vencimiento].
  rewrite length_filter_insertar_por_vencimiento. cbn [filter].
  destruct (p c); cbn [List.length]; now rewrite IH.
Qed.

(** In a non-decreasing list the negative entries come first. *)
Lemma crecientes_negativos_primero {A} (f : A -> Z) l :
  crecientes (map f l) = true ->
  l = filter (fun x => f x <? 0) l ++ filter (fun x => negb (f x <? 0)) l.
Proof.
  induction l as [|x l IH]; [reflexivity|].
  cbn [map crecientes filter]. intros H. apply andb_true_iff in H.
  destruct H as [Hx Hs]. destruct (Z.ltb_spec (f x) 0) as [Hneg|Hpos]; cbn [negb].
  - cbn [app]. f_equal. now apply IH.
  - assert (Hnada : filter (fun y => f y <? 0) l = []).
    { apply filter_nada. intros y Hy. rewrite forallb_forall in Hx.
      assert (Hfy : (f x <=? f y) = true) by (apply Hx; now apply in_map).
      apply Z.leb_le in Hfy. apply Z.ltb_ge. lia. }
    rewrite Hnada. cbn [app]. f_equal.
    rewrite (IH Hs) at 1. now rewrite Hnada.
Qed.

Lemma length_por_estado (l : list Caso.t) :
  List.length l
  = (List.length (filter (fun c => EstadoCaso_eqb (Caso.estado c) EN_TRAMITACION) l)
     + List.length (filter (fun c => EstadoCaso_eqb (Caso.estado c) CERRADO) l)
     + List.length (filter (fun c => EstadoCaso_eqb (Caso.estado c) SUSPENDIDO) l)
     + List.length (filter (fun c => EstadoCaso_eqb (Caso.estado c) EN_APELACION) l))%nat.
Proof.
  induction l as [|c l IH]; [reflexivity|].
  cbn [filter]. destruct (Caso.estado c); cbn [EstadoCaso_eqb List.length]; lia.
Qed.

Lemma vence_hasta_fecha clk lim c :
  vence_hasta lim c = true ->
  Caso.estado c = EN_TRAMITACION
  /\ Caso.dias_hasta_vencimiento clk c = Some (dias_de clk c)
  /\ dias_de clk c <= lim - date_today clk.
Proof.
  unfold vence_hasta, dias_de, Caso.dias_hasta_vencimiento.
  intros H. apply andb_true_iff in H. destruct H as [He Hf].
  apply EstadoCaso_eqb_eq in He.
  destruct (Caso.fecha_vencimiento c) as [fv|]; [|discriminate].
  apply Z.leb_le in Hf. repeat split; try assumption; lia.
Qed.

Lemma vencido_abierto_fecha clk c :
  vencido_abierto clk c = true
  <-> vence_hasta (date_today clk + 7) c = true /\ dias_de clk c < 0.
Proof.
  unfold vencido_abierto, vence_hasta, dias_de, Caso.dias_hasta_vencimiento.
  destruct (EstadoCaso_eqb (Caso.estado c) EN_TRAMITACION); cbn [andb].
  - destruct (Caso.fecha_vencimiento c) as [fv|].
    + rewrite Z.ltb_lt, Z.leb_le. lia.
    + split; [discriminate|]. intros [H _]. discriminate.
  - split; [discriminate|]. intros [H _]. discriminate.
Qed.

Lemma In_firstn {A} n (l : list A) x : In x (firstn n l) -> In x l.
Proof.
  intros H. rewrite <- (firstn_skipn n l). apply in_or_app. now left.
Qed.

Lemma filter_vencidos clk l :
  filter (fun c => dias_de clk c <? 0)
    (filter (vence_hasta (date_today clk + 7)) l)
  = filter (vencido_abierto clk) l.
Proof.
  induction l as [|c l IH]; [reflexivity|]. cbn [filter].
  pose proof (vencido_abierto_fecha clk c) as H.
  destruct (vence_hasta (date_today clk + 7) c) eqn:Eh; cbn [filter].
  - destruct (Z.ltb_spec (dias_de clk c) 0) as [Hn|Hp].
    + replace (vencido_abierto clk c) with true
        by (symmetry; apply H; now split).
      now rewrite IH.
    + destruct (vencido_abierto clk c); [|assumption].
      destruct (proj1 H eq_refl) as [_ Hn]. lia.
  - destruct (vencido_abierto clk c); [|assumption].
    destruct (proj1 H eq_refl) as [Hv _]. discriminate.
Qed.

(** X16. The dashboard of a logged-in user, over the user's own cases
    (all cases for staff). The total is the open, the closed, the suspended
    and the appealed cases together, so open plus closed never exceeds it.
    "proximos_vencimientos" has at most ten open cases, each due within 7
    days or already overdue (the filter has no lower bound), earliest due
    date first; "casos_vencidos" has at most five, each overdue and each
    qualifying for "proximos_vencimientos" too. So when ten or more open
    cases are overdue, "proximos_vencimientos" shows overdue cases only. *)
Theorem DashboardView_cuentas :
  forall clk user w,
    let ctx := DashboardView_get_context_data clk user w in
    let propios :=
      if User.is_staff user then casos w
      else filter (fun c => Caso.usuario_responsable c =? User.pk user)
             (casos w) in
    total_casos ctx
    = (casos_abiertos ctx + casos_cerrados ctx
       + List.length (filter (fun c => EstadoCaso_eqb (Caso.estado c) SUSPENDIDO)
                        propios)
       + List.length (filter (fun c => EstadoCaso_eqb (Caso.estado c) EN_APELACION)
                        propios))%nat
    /\ (List.length (proximos_vencimientos ctx) <= 10)%nat
    /\ (List.length (casos_vencidos ctx) <= 5)%nat
    /\ crecientes (map (dias_de clk) (proximos_vencimientos ctx)) = true
    /\ (forall c,
           In c (proximos_vencimientos ctx) ->
           In c propios /\ Caso.estado c = EN_TRAMITACION
           /\ Caso.dias_hasta_vencimiento clk c = Some (dias_de clk c)
           /\ dias_de clk c <= 7)
    /\ (forall c,
           In c (casos_vencidos ctx) ->
           In c propios /\ Caso.estado c = EN_TRAMITACION
           /\ dias_de clk c < 0
           /\ vence_hasta (date_today clk + 7) c = true)
    /\ ((10 <= List.length (filter (vencido_abierto clk) propios))%nat ->
        forall c, In c (proximos_vencimientos ctx) -> dias_de clk c < 0).
Proof.
  intros clk user w ctx propios.
  set (candidatos := filter (vence_hasta (date_today clk + 7)) propios).
  set (ordenados := order_by_fecha_vencimiento candidatos).
  assert (Hp : proximos_vencimientos ctx = firstn 10 ordenados) by reflexivity.
  assert (Hv : casos_vencidos ctx
               = firstn 5 (order_by_fecha_vencimiento
                             (filter (vencido_abierto clk) propios)))
    by reflexivity.
  assert (Hfechas : Forall (fun x => Caso.fecha_vencimiento x <> None) candidatos).
  { apply Forall_forall. intros c Hc. apply filter_In in Hc.
    destruct Hc as [_ Hc]. apply (vence_hasta_fecha clk) in Hc.
    destruct Hc as (_ & Hd & _). unfold Caso.dias_hasta_vencimiento in Hd.
    destruct (Caso.fecha_vencimiento c); discriminate. }
  assert (Hcre : crecientes (map (dias_de clk) ordenados) = true)
    by now apply crecientes_order_by.
  split; [|split; [|split; [|split; [|split; [|split]]]]].
  - apply (length_por_estado propios).
  - rewrite Hp. apply firstn_le_length.
  - rewrite Hv. apply firstn_le_length.
  - rewrite Hp. rewrite <- (firstn_skipn 10 ordenados), map_app in Hcre.
    now apply crecientes_app in Hcre.
  - intros c Hc. rewrite Hp in Hc. apply In_firstn in Hc.
    apply (proj1 (In_order_by_fecha_vencimiento _ _)), filter_In in Hc.
    destruct Hc as [Hin Hc]. apply (vence_hasta_fecha clk) in Hc.
    destruct Hc as (He & Hd & Hle). repeat split; try assumption. lia.
  - intros c Hc. rewrite Hv in Hc. apply In_firstn in Hc.
    apply (proj1 (In_order_by_fecha_vencimiento _ _)), filter_In in Hc.
    destruct Hc as [Hin Hc]. apply vencido_abierto_fecha in Hc.
    destruct Hc as [Hh Hn].
    destruct (vence_hasta_fecha clk _ _ Hh) as (He & _).
    repeat split; assumption.
  - intros Hdiez c Hc. rewrite Hp in Hc.
    pose proof (crecientes_negativos_primero (dias_de clk) ordenados Hcre)
      as Hpartes.
    set (atrasados := filter (fun x => dias_de clk x <? 0) ordenados) in *.
    rewrite Hpartes in Hc.
    assert (Hlen : List.length atrasados
                   = List.length (filter (vencido_abierto clk) propios)).
    { unfold atrasados, ordenados.
      rewrite length_filter_order_by_fecha_vencimiento.
      unfold candidatos. now rewrite filter_vencidos. }
    rewrite firstn_app in Hc.
    replace (10 - List.length atrasados)%nat with 0%nat in Hc by lia.
    rewrite firstn_O, app_nil_r in Hc. apply In_firstn in Hc.
    apply filter_In in Hc. destruct Hc as [_ Hc]. now apply Z.ltb_lt.
Qed.

(** ** The management command and the admin summary *)

(** The task catches whatever its body raises. *)
Lemma crear_alertas_vencimiento_termina clk w :
  exists txt, fst (crear_alertas_vencimiento clk w) = Ok txt.
Proof.
  unfold crear_alertas_vencimiento, try_except.
  match goal with |- context [match ?m w with _ => _ end] =>
    destruct (m w) as [[txt|e] w1] end; eexists; reflexivity.
Qed.

(** Alerts that fire later than the scan are not seen by it. *)
Lemma pendientes_sin_futuras clk l nuevas :
  Forall (fun a => timezone_now clk < Alerta.fecha_alerta a) nuevas ->
  filter (pendiente_de_envio clk) (l ++ nuevas) = filter (pendiente_de_envio clk) l.
Proof.
  intros H. rewrite filter_app.
  rewrite (filter_nada (pendiente_de_envio clk) nuevas); [apply app_nil_r|].
  intros a Ha. rewrite Forall_forall in H. specialize (H a Ha).
  unfold pendiente_de_envio. apply andb_false_iff. right. apply Z.leb_gt. exact H.
Qed.

(** X17. The command [enviar_alertas] always ends normally. Without
    [--crear-nuevas] it is the scan alone and writes nothing to the
    database. With it, and the scan running less than 30 minutes after the
    creation, the alerts the command has just created are not handed to the
    queue: it enqueues exactly what the scan alone would have enqueued on
    the store as it was, and the database differs only by the appended
    alerts, which fire 30 minutes after their creation. The option
    [--force] changes nothing. *)
Theorem Command_handle_no_envia_las_nuevas :
  forall clk_crear clk_revisar force w,
    timezone_now clk_revisar < timezone_now clk_crear + timedelta 0 0 30 0 ->
    let n := List.length (encoladas clk_revisar w) in
    (exists txt nuevas w',
        Command_handle clk_crear clk_revisar true force w
        = (Ok (encoladas clk_revisar w,
               ["Iniciando proceso de alertas...";
                "Creando nuevas alertas automáticas...";
                "Resultado: " ++ txt;
                "Enviando alertas pendientes...";
                "Resultado: " ++ "Procesadas " ++ str_nat n ++ " alertas";
                "Proceso de alertas completado"]%string), w')
        /\ crear_alertas_vencimiento clk_crear w = (Ok txt, w')
        /\ alertas w' = alertas w ++ nuevas
        /\ Forall (fun a => Alerta.fecha_alerta a
                            = timezone_now clk_crear + timedelta 0 0 30 0
                            /\ recien_creada a) nuevas)
    /\ Command_handle clk_crear clk_revisar false force w
       = (Ok (encoladas clk_revisar w,
              ["Iniciando proceso de alertas...";
               "Enviando alertas pendientes...";
               "Resultado: " ++ "Procesadas " ++ str_nat n ++ " alertas";
               "Proceso de alertas completado"]%string), w)
    /\ Command_handle clk_crear clk_revisar true (negb force) w
       = Command_handle clk_crear clk_revisar true force w.
Proof.
  intros clk_crear clk_revisar force w Hantes n.
  split; [|split; [|reflexivity]].
  - destruct (crear_alertas_vencimiento clk_crear w) as [r w'] eqn:E.
    destruct (crear_alertas_vencimiento_termina clk_crear w) as [txt Htxt].
    rewrite E in Htxt. cbn [fst] in Htxt. subst r.
    destruct (crear_alertas_vencimiento_anexa _ _ _ _ E) as (nuevas & Hw' & F).
    assert (Hfil : filter (pendiente_de_envio clk_revisar) (alertas w')
                   = filter (pendiente_de_envio clk_revisar) (alertas w)).
    { rewrite Hw'. apply pendientes_sin_futuras.
      eapply Forall_impl; [|exact F].
      intros a [(c & u & _ & _ & _ & Hf & _) _]. rewrite Hf. exact Hantes. }
    exists txt, nuevas, w'.
    split; [|split; [reflexivity|split; [exact Hw'|]]].
    + unfold Command_handle, bind at 1. unfold bind at 1. rewrite E.
      unfold ret at 1. unfold bind.
      rewrite revisar_alertas_pendientes_forma. cbn [fst snd ret].
      unfold n.
      rewrite encoladas_forma, Hfil, length_map,
        length_order_by_fecha_alerta_desc. reflexivity.
    + eapply Forall_impl; [|exact F].
      intros a [(c & u & _ & _ & _ & Hf & _) Hr]. now split.
  - unfold Command_handle, bind at 1. unfold ret at 1. unfold bind.
    rewrite revisar_alertas_pendientes_forma. cbn [fst snd ret].
    unfold n.
    rewrite encoladas_forma, length_map, length_order_by_fecha_alerta_desc.
    reflexivity.
Qed.

(** On the example: created at ten, scanned ten minutes later. *)
Lemma Command_handle_no_envia_las_nuevas_witness :
  fst (Command_handle Ejemplo.reloj
         {| timezone_now := timezone_now Ejemplo.reloj + timedelta 0 0 10 0;
            date_today := 20000 |} false false Ejemplo.mundo)
  = Ok ([1; 2; 5],
        ["Iniciando proceso de alertas...";
         "Enviando alertas pendientes...";
         "Resultado: Procesadas 3 alertas";
         "Proceso de alertas completado"]%string).
Proof.
  destruct (Command_handle_no_envia_las_nuevas Ejemplo.reloj
              {| timezone_now := timezone_now Ejemplo.reloj + timedelta 0 0 10 0;
                 date_today := 20000 |} false Ejemplo.mundo)
    as (_ & H & _).
  - vm_compute. reflexivity.
  - rewrite H. reflexivity.
Defined.

(** X18. The admin summary. Its list of urgent cases is the
    "proximos_vencimientos" of the dashboard of a staff user: open cases
    due within 7 days or overdue. Its count of pending alerts takes every
    unsent alert that is due, whether it asks for email or not, so it is the
    number of alerts a scan at that time enqueues plus the unsent due alerts
    with [enviar_email] off, and never below what the scan enqueues. *)
Theorem admin_view_casos_urgentes_resumen :
  forall clk user w,
    User.is_staff user = true ->
    let resumen := admin_view_casos_urgentes clk w in
    ra_casos_urgentes resumen
    = proximos_vencimientos (DashboardView_get_context_data clk user w)
    /\ ra_alertas_pendientes resumen
       = (List.length (encoladas clk w)
          + List.length (filter (pendiente_sin_email clk) (alertas w)))%nat
    /\ (List.length (encoladas clk w) <= ra_alertas_pendientes resumen)%nat
    /\ (forall c, In c (ra_casos_urgentes resumen) ->
                  In c (casos w) /\ Caso.estado c = EN_TRAMITACION
                  /\ dias_de clk c <= 7).
Proof.
  intros clk user w Hs resumen.
  assert (Hcuenta : ra_alertas_pendientes resumen
                    = (List.length (encoladas clk w)
                       + List.length (filter (pendiente_sin_email clk)
                                        (alertas w)))%nat).
  { rewrite encoladas_forma, length_map, length_order_by_fecha_alerta_desc.
    cbn [resumen admin_view_casos_urgentes
      ra_alertas_pendientes]. unfold pendiente_de_envio, pendiente_sin_email.
    induction (alertas w) as [|a l IH]; [reflexivity|]. cbn [filter].
    destruct (Alerta.enviada a), (Alerta.fecha_alerta a <=? timezone_now clk),
      (Alerta.enviar_email a); cbn [negb andb List.length]; lia. }
  split; [|split; [exact Hcuenta|split; [lia|]]].
  - cbn [resumen admin_view_casos_urgentes ra_casos_urgentes
           DashboardView_get_context_data proximos_vencimientos].
    now rewrite Hs.
  - intros c Hc. cbn [resumen admin_view_casos_urgentes ra_casos_urgentes] in Hc.
    apply In_firstn in Hc.
    apply (proj1 (In_order_by_fecha_vencimiento _ _)), filter_In in Hc.
    destruct Hc as [Hin Hc]. apply (vence_hasta_fecha clk) in Hc.
    destruct Hc as (He & _ & Hle). repeat split; try assumption. lia.
Qed.

(** On the example, for carla. *)
Lemma admin_view_casos_urgentes_resumen_witness :
  ra_alertas_pendientes (admin_view_casos_urgentes Ejemplo.reloj Ejemplo.mundo)
  = (List.length (encoladas Ejemplo.reloj Ejemplo.mundo)
     + List.length (filter (pendiente_sin_email Ejemplo.reloj)
                      (alertas Ejemplo.mundo)))%nat.
Proof.
  apply (admin_view_casos_urgentes_resumen Ejemplo.reloj Ejemplo.carla
           Ejemplo.mundo eq_refl).
Defined.

(** ** Sending through [EmailManager] *)

Lemma encoladas_with_outbox clk ob w :
  encoladas clk (with_outbox ob w) = encoladas clk w.
Proof. now rewrite !encoladas_forma. Qed.

(** The run of the task on an alert that can be sent, with a backend that
    delivers. *)
Lemma enviar_email_alerta_corre clk smtp retries id alerta caso dest w :
  Enviable id alerta caso dest w ->
  smtp (email_de_alerta clk alerta caso dest) = None ->
  enviar_email_alerta clk smtp retries id w
  = (Ok ("Email enviado exitosamente a " ++ dest)%string,
     with_alertas (marcar_filas clk id (alertas w)) (next_alerta_pk w)
       (with_outbox (outbox w ++ [email_de_alerta clk alerta caso dest]) w)).
Proof.
  intros (Hget & Henv & Hcaso & Hres & Ht) Hs.
  destruct (Alerta_objects_get_lee _ _ _ _ Hget) as [_ Hfil].
  destruct (filter_unico_in _ _ _ (Hfil alerta eq_refl)) as [Hin Hpk].
  apply Z.eqb_eq in Hpk.
  assert (Hex : existsb (fun a => Alerta.pk a =? Alerta.pk alerta) (alertas w) = true).
  { apply existsb_exists. exists alerta. split; [assumption|apply Z.eqb_refl]. }
  unfold enviar_email_alerta, try_except, bind at 1. rewrite Hget, Henv.
  unfold bind at 1. rewrite Hcaso. unfold bind at 1. rewrite Hres, Ht.
  cbn [negb]. unfold bind at 1, send_mail. rewrite Hs.
  unfold bind at 1, marcar_como_enviada, bind at 1, Alerta_save_update_fields.
  cbn [alertas with_outbox Alerta.pk Alerta.set_enviada].
  rewrite Hex. cbn. unfold marcar_filas. now rewrite Hpk.
Qed.

(** X19. [EmailManager.enviar_alerta_caso] never raises: it answers [True]
    or [False]. It writes no table: at most one message is added to the
    outbox, the alert is not marked as sent, and every scan enqueues after
    it what it would have enqueued before. So when an unsent alert with a
    recipient has gone out this way, the answer being [True], the task
    [enviar_email_alerta] still finds it unsent and, the backend delivering,
    sends it a second time to the same recipient. *)
Theorem EmailManager_no_marca_enviada :
  forall clk smtp alerta w,
    exists b w',
      EmailManager_enviar_alerta_caso clk smtp alerta w = (Ok b, w')
      /\ w' = with_outbox (outbox w') w
      /\ (outbox w' = outbox w \/ exists e, outbox w' = outbox w ++ [e])
      /\ (forall clk2, encoladas clk2 w' = encoladas clk2 w)
      /\ (forall id caso dest,
             Enviable id alerta caso dest w ->
             smtp (email_de_manager clk alerta caso dest) = None ->
             b = true
             /\ outbox w' = outbox w ++ [email_de_manager clk alerta caso dest]
             /\ Enviable id alerta caso dest w'
             /\ forall clk3 smtp3 retries,
                 smtp3 (email_de_alerta clk3 alerta caso dest) = None ->
                 exists w'',
                   enviar_email_alerta clk3 smtp3 retries id w'
                   = (Ok ("Email enviado exitosamente a " ++ dest)%string, w'')
                   /\ outbox w''
                      = outbox w ++ [email_de_manager clk alerta caso dest;
                                     email_de_alerta clk3 alerta caso dest]
                   /\ recipient_list (email_de_manager clk alerta caso dest)
                      = recipient_list (email_de_alerta clk3 alerta caso dest)).
Proof.
  intros clk smtp alerta w.
  unfold EmailManager_enviar_alerta_caso, try_except, bind at 1.
  destruct (Caso_objects_get (Alerta.caso alerta) w) as [[caso|e] w1] eqn:Hcaso;
    pose proof (Caso_objects_get_lee _ _ _ _ Hcaso) as ->.
  2:{ exists false, w. split; [reflexivity|]. split; [now destruct w|].
      split; [now left|]. split; [reflexivity|].
      intros id caso dest (_ & _ & Hc & _). rewrite Hcaso in Hc. discriminate. }
  unfold bind at 1.
  destruct (resolver_destinatario alerta caso w) as [[to_email|e] w1] eqn:Hres;
    pose proof (resolver_destinatario_lee _ _ _ _ _ Hres) as ->.
  2:{ exists false, w. split; [reflexivity|]. split; [now destruct w|].
      split; [now left|]. split; [reflexivity|].
      intros id caso' dest (_ & _ & Hc & Hr & _). rewrite Hcaso in Hc.
      injection Hc as <-. rewrite Hres in Hr. discriminate. }
  unfold bind at 1, EmailMessage_send. cbn [recipient_list email_de_manager forallb].
  rewrite andb_true_r.
  destruct (str_truthy to_email) eqn:Ht; cbn [negb].
  2:{ exists true, w. split; [reflexivity|]. split; [now destruct w|].
      split; [now left|]. split; [reflexivity|].
      intros id caso' dest (_ & _ & Hc & Hr & Hd). rewrite Hcaso in Hc.
      injection Hc as <-. rewrite Hres in Hr. injection Hr as <-. congruence. }
  unfold bind at 1, send_mail.
  destruct (smtp (email_de_manager clk alerta caso to_email)) as [msg|] eqn:Hs.
  - eexists false, _. split; [reflexivity|]. split; [reflexivity|].
    split; [right; eexists; reflexivity|]. split.
    + intros clk2. apply encoladas_with_outbox.
    + intros id caso' dest (_ & _ & Hc & Hr & _). rewrite Hcaso in Hc.
      injection Hc as <-. rewrite Hres in Hr. injection Hr as <-. congruence.
  - eexists true, _. split; [reflexivity|]. split; [reflexivity|].
    split; [right; eexists; reflexivity|]. split.
    + intros clk2. apply encoladas_with_outbox.
    + intros id caso' dest He _. pose proof He as (_ & _ & Hc & Hr & _).
      rewrite Hcaso in Hc. injection Hc as <-. rewrite Hres in Hr.
      injection Hr as <-. split; [reflexivity|]. split; [reflexivity|].
      split; [now apply Enviable_with_outbox|].
      intros clk3 smtp3 retries Hs3. eexists. split.
      * apply (enviar_email_alerta_corre clk3 smtp3 retries id alerta caso
                 to_email);
          [now apply Enviable_with_outbox|exact Hs3].
      * split; [|reflexivity]. cbn [outbox with_alertas with_outbox].
        now rewrite <- app_assoc.
Qed.

(** On the example: alert 1 goes to ana through the manager, and the task
    then sends it again. *)
Lemma EmailManager_no_marca_enviada_witness :
  exists w' w'',
    EmailManager_enviar_alerta_caso Ejemplo.reloj Ejemplo.smtp_ok
      (Ejemplo.alerta 1 1 SEGUIMIENTO false None
         (Some "ana@example.org"%string) (19998 * usec_per_day)) Ejemplo.mundo
    = (Ok true, w')
    /\ enviar_email_alerta Ejemplo.reloj_tarde Ejemplo.smtp_ok 0 1 w'
       = (Ok "Email enviado exitosamente a ana@example.org"%string, w'')
    /\ List.length (outbox w'') = 2%nat.
Proof.
  destruct (EmailManager_no_marca_enviada Ejemplo.reloj Ejemplo.smtp_ok
              (Ejemplo.alerta 1 1 SEGUIMIENTO false None
                 (Some "ana@example.org"%string) (19998 * usec_per_day))
              Ejemplo.mundo)
    as (b & w' & Hrun & _ & _ & _ & H).
  destruct (H 1 (Ejemplo.caso (Some 1) "C-1-2024" (Some 20007) EN_TRAMITACION 1 true)
              "ana@example.org"%string)
    as (-> & _ & _ & H2).
  - repeat split; reflexivity.
  - reflexivity.
  - destruct (H2 Ejemplo.reloj_tarde Ejemplo.smtp_ok 0%nat eq_refl)
      as (w'' & Hrun2 & Hout & _).
    exists w', w''. split; [exact Hrun|]. split; [exact Hrun2|].
    rewrite Hout. reflexivity.
Defined.

(** ** Creating an alert in the admin *)

(** X20. [AlertaAdmin.save_model] only reads before it hands the instance
    to [ModelAdmin.save_model], and does not get there when a lookup fails.
    On a change the instance is handed over as it is. On a creation the
    acting user becomes the creator, the other columns but the recipient
    are kept, and a recipient the form gave is kept too. A missing
    recipient is filled: when the case and its responsible user are found,
    the instance handed over has the email of that user as recipient. That
    is what [enviar_email_alerta] resolves for an alert without recipient
    anyway: the task resolves the same recipient for the instance before
    and after the filling. *)
Theorem AlertaAdmin_save_model_destinatario :
  forall request_user obj change super_save_model w,
    (forall r w',
        AlertaAdmin_preparar request_user obj change w = (r, w') -> w' = w)
    /\ AlertaAdmin_save_model request_user obj true super_save_model w
       = (super_save_model obj ;;; ret obj) w
    /\ (forall e,
           AlertaAdmin_preparar request_user obj change w = (Raise e, w) ->
           AlertaAdmin_save_model request_user obj change super_save_model w
           = (Raise e, w))
    /\ (forall obj',
           AlertaAdmin_preparar request_user obj false w = (Ok obj', w) ->
           Alerta.usuario_creador obj' = User.pk request_user
           /\ Alerta.pk obj' = Alerta.pk obj
           /\ Alerta.caso obj' = Alerta.caso obj
           /\ Alerta.fecha_alerta obj' = Alerta.fecha_alerta obj
           /\ Alerta.enviada obj' = Alerta.enviada obj
           /\ Alerta.enviar_email obj' = Alerta.enviar_email obj
           /\ (sin_destinatario_propio obj = false ->
               Alerta.email_destinatario obj' = Alerta.email_destinatario obj)
           /\ (forall caso,
                  Caso_objects_get (Alerta.caso obj) w = (Ok caso, w) ->
                  resolver_destinatario obj' caso w
                  = resolver_destinatario obj caso w))
    /\ (forall caso u,
           sin_destinatario_propio obj = true ->
           Caso_objects_get (Alerta.caso obj) w = (Ok caso, w) ->
           User_objects_get (Caso.usuario_responsable caso) w = (Ok u, w) ->
           exists obj',
             AlertaAdmin_preparar request_user obj false w = (Ok obj', w)
             /\ Alerta.email_destinatario obj' = Some (User.email u)
             /\ Alerta.usuario_creador obj' = User.pk request_user
             /\ AlertaAdmin_save_model request_user obj false super_save_model w
                = (super_save_model obj' ;;; ret obj') w)
    /\ (sin_destinatario_propio obj = false ->
        exists obj',
          AlertaAdmin_preparar request_user obj false w = (Ok obj', w)
          /\ Alerta.email_destinatario obj' = Alerta.email_destinatario obj
          /\ Alerta.usuario_creador obj' = User.pk request_user
          /\ AlertaAdmin_save_model request_user obj false super_save_model w
             = (super_save_model obj' ;;; ret obj') w).
Proof.
  intros request_user obj change super_save_model w.
  split; [|split; [|split; [|split; [|split]]]].
  - intros r w'. unfold AlertaAdmin_preparar.
    destruct change; cbn [negb]; [intros H; now injection H|].
    destruct (sin_destinatario_propio _); [|intros H; now injection H].
    unfold bind at 1.
    destruct (Caso_objects_get _ w) as [[caso|e] w1] eqn:Hc;
      apply Caso_objects_get_lee in Hc; subst w1; [|intros H; now injection H].
    unfold bind.
    destruct (User_objects_get _ w) as [[u|e] w1] eqn:Hu;
      apply User_objects_get_lee in Hu; subst w1; intros H; now injection H.
  - reflexivity.
  - intros e H. unfold AlertaAdmin_save_model, bind at 1. now rewrite H.
  - intros obj'. unfold AlertaAdmin_preparar. cbn [negb].
    change (sin_destinatario_propio
              (Alerta_set_usuario_creador (User.pk request_user) obj))
      with (sin_destinatario_propio obj).
    destruct (sin_destinatario_propio obj) eqn:Hsin.
    + unfold bind at 1. cbn [Alerta.caso Alerta_set_usuario_creador].
      destruct (Caso_objects_get (Alerta.caso obj) w) as [[caso|e] w1] eqn:Hc;
        pose proof (Caso_objects_get_lee _ _ _ _ Hc) as ->; [|discriminate].
      unfold bind.
      destruct (User_objects_get (Caso.usuario_responsable caso) w)
        as [[u|e] w1] eqn:Hu;
        pose proof (User_objects_get_lee _ _ _ _ Hu) as ->; [|discriminate].
      intros H. injection H as <-. repeat split; try discriminate.
      intros caso' Hc'. injection Hc' as <-.
      unfold resolver_destinatario, sin_destinatario_propio in *.
      cbn [Alerta.email_destinatario Alerta_set_email_destinatario].
      assert (Hobj : (match Alerta.email_destinatario obj with
                      | Some e =>
                        if str_truthy e then ret e
                        else u <- User_objects_get (Caso.usuario_responsable caso) ;;
                             ret (User.email u)
                      | None => u <- User_objects_get (Caso.usuario_responsable caso) ;;
                                ret (User.email u)
                      end) w = (Ok (User.email u), w)).
      { destruct (Alerta.email_destinatario obj) as [e|].
        - destruct (str_truthy e); [discriminate|]. unfold bind. now rewrite Hu.
        - unfold bind. now rewrite Hu. }
      rewrite Hobj. destruct (str_truthy (User.email u)); [reflexivity|].
      unfold bind. now rewrite Hu.
    + intros H. injection H as <-. repeat split.
  - intros caso u Hsin Hc Hu. eexists.
    assert (Hp : AlertaAdmin_preparar request_user obj false w
                 = (Ok (Alerta_set_email_destinatario (Some (User.email u))
                          (Alerta_set_usuario_creador (User.pk request_user) obj)),
                    w)).
    { unfold AlertaAdmin_preparar. cbn [negb].
      change (sin_destinatario_propio
                (Alerta_set_usuario_creador (User.pk request_user) obj))
        with (sin_destinatario_propio obj).
      rewrite Hsin. unfold bind at 1.
      cbn [Alerta.caso Alerta_set_usuario_creador]. rewrite Hc.
      unfold bind. now rewrite Hu. }
    split; [exact Hp|]. split; [reflexivity|]. split; [reflexivity|].
    unfold AlertaAdmin_save_model, bind at 1. now rewrite Hp.
  - intros Hsin. eexists.
    assert (Hp : AlertaAdmin_preparar request_user obj false w
                 = (Ok (Alerta_set_usuario_creador (User.pk request_user) obj),
                    w)).
    { unfold AlertaAdmin_preparar. cbn [negb].
      change (sin_destinatario_propio
                (Alerta_set_usuario_creador (User.pk request_user) obj))
        with (sin_destinatario_propio obj).
      now rewrite Hsin. }
    split; [exact Hp|]. split; [reflexivity|]. split; [reflexivity|].
    unfold AlertaAdmin_save_model, bind at 1. now rewrite Hp.
Qed.

(** On the example: carla adds an alert without recipient to case 1, whose
    responsible user is ana. *)
Lemma AlertaAdmin_save_model_destinatario_witness :
  exists obj',
    AlertaAdmin_preparar Ejemplo.carla
      (Ejemplo.alerta 9 1 SEGUIMIENTO false None None 0) false Ejemplo.mundo
    = (Ok obj', Ejemplo.mundo)
    /\ Alerta.email_destinatario obj' = Some "ana@example.org"%string
    /\ Alerta.usuario_creador obj' = 3.
Proof.
  destruct (AlertaAdmin_save_model_destinatario Ejemplo.carla
              (Ejemplo.alerta 9 1 SEGUIMIENTO false None None 0) false
              (fun _ => ret tt) Ejemplo.mundo)
    as (_ & _ & _ & _ & H & _).
  destruct (H (Ejemplo.caso (Some 1) "C-1-2024" (Some 20007) EN_TRAMITACION 1 true)
              Ejemplo.ana eq_refl eq_refl eq_refl)
    as (obj' & Hp & He & Hu & _).
  exists obj'. split; [exact Hp|]. split; [exact He|exact Hu].
Defined.
